(** * cal-checkbot: the Cal.com wrapper (cal_wrapper.py), embedded in Rocq

    The development follows the layout of [cal_wrapper.py]:

    - the Python values the wrapper manipulates (strings, JSON payloads,
      exceptions) and the parts of the runtime it calls into
      ([datetime], [pytz], [requests]);
    - [TimezoneHandler], [DateTimeFormatter], [CalApiClient],
      [BookingMatcher], the helper [_get_upcoming_accepted_bookings] and the
      tools [create_booking] and [cancel_booking];
    - the properties of these functions.

    Fallible code lives in the [result] monad (an exception or a value);
    code that talks to the remote API additionally threads the list of
    requests issued so far. *)

From Stdlib Require Import ZArith String Ascii List Bool Lia.
Import ListNotations.

Open Scope string_scope.
Open Scope Z_scope.

(* ================================================================== *)
(** * Python values *)
(* ================================================================== *)

(** ** Exceptions

    Only the classes that the wrapper, [datetime], [pytz] and [requests]
    can raise on the modelled paths.  [isinstance] follows the class
    hierarchy: [pytz.UnknownTimeZoneError] derives from [KeyError], and
    [requests.exceptions.JSONDecodeError] from both
    [requests.exceptions.RequestException] and [ValueError]. *)

Inductive exn_class :=
| ValueError
| TypeError
| AttributeError
| KeyError
| OverflowError
| UnknownTimeZoneError
| RequestException
| JSONDecodeError
| RuntimeError.

Record exn := Exn { exn_cls : exn_class; exn_msg : string }.

Definition exn_class_eqb (a b : exn_class) : bool :=
  match a, b with
  | ValueError, ValueError | TypeError, TypeError
  | AttributeError, AttributeError | KeyError, KeyError
  | OverflowError, OverflowError
  | UnknownTimeZoneError, UnknownTimeZoneError
  | RequestException, RequestException
  | JSONDecodeError, JSONDecodeError
  | RuntimeError, RuntimeError => true
  | _, _ => false
  end.

(** [subclass c d]: class [c] is [d] or derives from it. *)
Definition subclass (c d : exn_class) : bool :=
  exn_class_eqb c d ||
  match c, d with
  | UnknownTimeZoneError, KeyError => true
  | JSONDecodeError, ValueError => true
  | JSONDecodeError, RequestException => true
  | _, _ => false
  end.

(** [isinstance e cs]: the test of [except (C1, ..., Cn)]. *)
Definition isinstance (e : exn) (cs : list exn_class) : bool :=
  existsb (subclass (exn_cls e)) cs.

(** ** The exception monad *)

Inductive result (A : Type) :=
| Ok (a : A)
| Raise (e : exn).
Arguments Ok {A} a.
Arguments Raise {A} e.

Definition bind {A B} (m : result A) (k : A -> result B) : result B :=
  match m with
  | Ok a => k a
  | Raise e => Raise e
  end.

Declare Scope py_scope.
Delimit Scope py_scope with py.
Notation "x <- m ;; k" := (bind m (fun x => k))
  (at level 100, m at next level, right associativity) : py_scope.
Open Scope py_scope.

(** [try: body except cs as e: handler e] *)
Definition try_except {A} (body : result A) (cs : list exn_class)
    (handler : exn -> result A) : result A :=
  match body with
  | Ok a => Ok a
  | Raise e => if isinstance e cs then handler e else Raise e
  end.

(** [try: body except Exception as e: handler e] *)
Definition try_except_all {A} (body : result A)
    (handler : exn -> result A) : result A :=
  match body with
  | Ok a => Ok a
  | Raise e => handler e
  end.

Definition raise {A} (c : exn_class) (msg : string) : result A :=
  Raise (Exn c msg).

(** ** Strings

    A Python [str] is modelled by a Rocq [string]; the case mappings and the
    character classes below are those of the ASCII range, which is all the
    wrapper's literals and the wire formats use. *)

Module Str.

Definition is_ascii_digit (c : ascii) : bool :=
  let n := N_of_ascii c in ((48 <=? n) && (n <=? 57))%N.

Definition digit_val (c : ascii) : Z := Z.of_N (N_of_ascii c) - 48.

Definition lower_char (c : ascii) : ascii :=
  let n := N_of_ascii c in
  if ((65 <=? n) && (n <=? 90))%N then ascii_of_N (n + 32) else c.

Definition upper_char (c : ascii) : ascii :=
  let n := N_of_ascii c in
  if ((97 <=? n) && (n <=? 122))%N then ascii_of_N (n - 32) else c.

Fixpoint map_chars (f : ascii -> ascii) (s : string) : string :=
  match s with
  | EmptyString => EmptyString
  | String c r => String (f c) (map_chars f r)
  end.

(** [s.lower()], [s.upper()] *)
Definition lower : string -> string := map_chars lower_char.
Definition upper : string -> string := map_chars upper_char.

(** [s.replace(c, by)] for a one-character pattern [c]. *)
Fixpoint replace_char (c : ascii) (by_ : string) (s : string) : string :=
  match s with
  | EmptyString => EmptyString
  | String a r =>
      if Ascii.eqb a c then by_ ++ replace_char c by_ r
      else String a (replace_char c by_ r)
  end.

(** [s.lstrip(c)] for a one-character set. *)
Fixpoint lstrip_char (c : ascii) (s : string) : string :=
  match s with
  | String a r => if Ascii.eqb a c then lstrip_char c r else s
  | EmptyString => EmptyString
  end.

Definition len (s : string) : Z := Z.of_nat (String.length s).

(** [s[i:]] and [s[:i]] for [0 <= i]. *)
Fixpoint drop (n : nat) (s : string) : string :=
  match n, s with
  | O, _ => s
  | S n', String _ r => drop n' r
  | S _, EmptyString => EmptyString
  end.

Fixpoint take (n : nat) (s : string) : string :=
  match n, s with
  | O, _ => EmptyString
  | S n', String a r => String a (take n' r)
  | S _, EmptyString => EmptyString
  end.

(** [s[:-k]] for [0 < k]: all but the last [k] characters. *)
Definition drop_last (k : nat) (s : string) : string :=
  take (String.length s - k) s.

(** [s[i]] when [i] is in range. *)
Definition char_at (i : nat) (s : string) : option ascii := String.get i s.

Definition all_digits (s : string) : bool :=
  forallb is_ascii_digit (list_ascii_of_string s).

(** The value of a string of ASCII digits, most significant first. *)
Fixpoint digits_value_from (acc : Z) (s : string) : Z :=
  match s with
  | EmptyString => acc
  | String c r => digits_value_from (10 * acc + digit_val c) r
  end.

(** [int(s)] as the C implementation of [datetime] reads a fixed-width
    field: every character must be an ASCII digit. *)
Definition parse_digits (s : string) : option Z :=
  match s with
  | EmptyString => None
  | _ => if all_digits s then Some (digits_value_from 0 s) else None
  end.

Definition digit_char (d : Z) : ascii := ascii_of_N (Z.to_N (d mod 10) + 48).

(** Decimal digits of a non-negative number, least significant first;
    [fuel] bounds the number of digits. *)
Fixpoint rev_digits (fuel : nat) (z : Z) : list ascii :=
  match fuel with
  | O => []
  | S f =>
      if z <? 10 then [digit_char z]
      else digit_char z :: rev_digits f (z / 10)
  end.

Definition of_nonneg (z : Z) : string :=
  string_of_list_ascii (rev (rev_digits (S (Z.to_nat (Z.log2 z))) z)).

(** [str(z)] for an [int]. *)
Definition of_Z (z : Z) : string :=
  if z <? 0 then "-" ++ of_nonneg (- z) else of_nonneg z.

Fixpoint zeros (n : nat) : string :=
  match n with
  | O => EmptyString
  | S n' => String "0" (zeros n')
  end.

(** ["%0<w>d" % z] for [0 <= z]. *)
Definition zpad (w : nat) (z : Z) : string :=
  let s := of_nonneg z in
  zeros (w - String.length s) ++ s.

(** [sep.join(l)] *)
Fixpoint join (sep : string) (l : list string) : string :=
  match l with
  | [] => EmptyString
  | [x] => x
  | x :: r => x ++ sep ++ join sep r
  end.

End Str.

(** ** JSON payloads

    What [response.json()] returns, and what the wrapper's [Dict] and
    [List[Dict]] arguments hold.  [PyNone] is Python's [None], which is also
    how JSON [null] decodes.  A dict is kept as the list of its items;
    [dict_get] returns the first binding of a key. *)

#[warnings="-register-all"]
Inductive pyval :=
| PyNone
| PyBool (b : bool)
| PyInt (z : Z)
| PyStr (s : string)
| PyList (l : list pyval)
| PyDict (items : list (string * pyval)).

Fixpoint dict_get (items : list (string * pyval)) (key : string)
  : option pyval :=
  match items with
  | [] => None
  | (k, v) :: r => if String.eqb k key then Some v else dict_get r key
  end.

(** [bool(v)] *)
Definition truthy (v : pyval) : bool :=
  match v with
  | PyNone => false
  | PyBool b => b
  | PyInt z => negb (z =? 0)
  | PyStr s => negb (String.eqb s "")
  | PyList l => match l with [] => false | _ => true end
  | PyDict d => match d with [] => false | _ => true end
  end.

Definition type_name (v : pyval) : string :=
  match v with
  | PyNone => "NoneType"
  | PyBool _ => "bool"
  | PyInt _ => "int"
  | PyStr _ => "str"
  | PyList _ => "list"
  | PyDict _ => "dict"
  end.

Definition no_attribute {A} (v : pyval) (attr : string) : result A :=
  raise AttributeError
    ("'" ++ type_name v ++ "' object has no attribute '" ++ attr ++ "'").

(** [v.get(key, default)] *)
Definition py_get (v : pyval) (key : string) (default : pyval)
  : result pyval :=
  match v with
  | PyDict items =>
      Ok (match dict_get items key with Some x => x | None => default end)
  | _ => no_attribute v "get"
  end.

(** [v[key]] for a string key. *)
Definition py_getitem (v : pyval) (key : string) : result pyval :=
  match v with
  | PyDict items =>
      match dict_get items key with
      | Some x => Ok x
      | None => raise KeyError ("'" ++ key ++ "'")
      end
  | PyNone | PyBool _ | PyInt _ =>
      raise TypeError ("'" ++ type_name v ++ "' object is not subscriptable")
  | PyStr _ => raise TypeError "string indices must be integers, not 'str'"
  | PyList _ =>
      raise TypeError "list indices must be integers or slices, not str"
  end.

(** [v.lower()] *)
Definition py_lower (v : pyval) : result string :=
  match v with
  | PyStr s => Ok (Str.lower s)
  | _ => no_attribute v "lower"
  end.

(** [v != "literal"] *)
Definition py_ne_str (v : pyval) (lit : string) : bool :=
  match v with
  | PyStr s => negb (String.eqb s lit)
  | _ => true
  end.

(** [for x in v]: the items the loop visits. *)
Definition py_iter (v : pyval) : result (list pyval) :=
  match v with
  | PyList l => Ok l
  | PyDict items => Ok (map (fun kv => PyStr (fst kv)) items)
  | PyStr s =>
      Ok (map (fun c => PyStr (String c EmptyString)) (list_ascii_of_string s))
  | _ => raise TypeError ("'" ++ type_name v ++ "' object is not iterable")
  end.

(** [repr(s)] of a string: single quotes unless the string holds a single
    quote and no double quote; backslash, the chosen quote and the control
    characters newline, carriage return and tab are escaped. *)
Definition has_char (c : ascii) (s : string) : bool :=
  existsb (Ascii.eqb c) (list_ascii_of_string s).

Fixpoint escape (q : ascii) (s : string) : string :=
  match s with
  | EmptyString => EmptyString
  | String c r =>
      (if Ascii.eqb c q then String "\" (String q EmptyString)
       else if Ascii.eqb c "\" then "\\"
       else if Ascii.eqb c "010" then "\n"
       else if Ascii.eqb c "013" then "\r"
       else if Ascii.eqb c "009" then "\t"
       else String c EmptyString) ++ escape q r
  end.

Definition dquote : ascii := ascii_of_N 34.

Definition repr_str (s : string) : string :=
  let q := if has_char "'" s && negb (has_char dquote s) then dquote
           else "'"%char in
  String q (escape q s) ++ String q EmptyString.

(** [repr(v)] and [str(v)], as an f-string renders a value. *)
Fixpoint py_repr (v : pyval) : string :=
  match v with
  | PyNone => "None"
  | PyBool b => if b then "True" else "False"
  | PyInt z => Str.of_Z z
  | PyStr s => repr_str s
  | PyList l => "[" ++ Str.join ", " (map py_repr l) ++ "]"
  | PyDict items =>
      "{" ++ Str.join ", "
               (map (fun '(k, x) => repr_str k ++ ": " ++ py_repr x) items)
          ++ "}"
  end.

Definition py_str (v : pyval) : string :=
  match v with
  | PyStr s => s
  | _ => py_repr v
  end.

(** [str(x)] of an [Optional[str]]. *)
Definition str_of_optional (o : option string) : string :=
  match o with
  | Some s => s
  | None => "None"
  end.

(* ================================================================== *)
(** * The [datetime] module *)
(* ================================================================== *)

(** ** The proleptic Gregorian calendar ([_ymd2ord], [_ord2ymd]) *)

Module Calendar.

Definition MINYEAR : Z := 1.
Definition MAXYEAR : Z := 9999.
Definition MAXORDINAL : Z := 3652059.

Definition is_leap (year : Z) : bool :=
  (year mod 4 =? 0) && (negb (year mod 100 =? 0) || (year mod 400 =? 0)).

Definition days_before_year (year : Z) : Z :=
  let y := year - 1 in
  y * 365 + y / 4 - y / 100 + y / 400.

Definition DAYS_IN_MONTH (month : Z) : Z :=
  match month with
  | 1 => 31 | 2 => 28 | 3 => 31 | 4 => 30 | 5 => 31 | 6 => 30
  | 7 => 31 | 8 => 31 | 9 => 30 | 10 => 31 | 11 => 30 | 12 => 31
  | _ => 0
  end.

Definition DAYS_BEFORE_MONTH (month : Z) : Z :=
  match month with
  | 1 => 0 | 2 => 31 | 3 => 59 | 4 => 90 | 5 => 120 | 6 => 151
  | 7 => 181 | 8 => 212 | 9 => 243 | 10 => 273 | 11 => 304 | 12 => 334
  | _ => 0
  end.

Definition days_in_month (year month : Z) : Z :=
  if (month =? 2) && is_leap year then 29 else DAYS_IN_MONTH month.

Definition days_before_month (year month : Z) : Z :=
  DAYS_BEFORE_MONTH month + (if (2 <? month) && is_leap year then 1 else 0).

(** year, month, day -> ordinal, 01-Jan-0001 being day 1. *)
Definition ymd2ord (year month day : Z) : Z :=
  days_before_year year + days_before_month year month + day.

Definition DI400Y : Z := 146097.
Definition DI100Y : Z := 36524.
Definition DI4Y : Z := 1461.

(** ordinal -> (year, month, day) *)
Definition ord2ymd (ordinal : Z) : Z * Z * Z :=
  let n := ordinal - 1 in
  let n400 := n / DI400Y in
  let n := n mod DI400Y in
  let year := n400 * 400 + 1 in
  let n100 := n / DI100Y in
  let n := n mod DI100Y in
  let n4 := n / DI4Y in
  let n := n mod DI4Y in
  let n1 := n / 365 in
  let n := n mod 365 in
  let year := year + n100 * 100 + n4 * 4 + n1 in
  if (n1 =? 4) || (n100 =? 4) then (year - 1, 12, 31)
  else
    let leapyear := (n1 =? 3) && (negb (n4 =? 24) || (n100 =? 3)) in
    let month := (n + 50) / 32 in
    let preceding :=
      DAYS_BEFORE_MONTH month + (if (2 <? month) && leapyear then 1 else 0) in
    if n <? preceding then
      let month := month - 1 in
      let preceding :=
        preceding
        - (DAYS_IN_MONTH month + (if (month =? 2) && leapyear then 1 else 0)) in
      (year, month, n - preceding + 1)
    else (year, month, n - preceding + 1).

(** The ordinal of the Monday that starts ISO week 1 of [year]. *)
Definition isoweek1monday (year : Z) : Z :=
  let firstday := ymd2ord year 1 1 in
  let firstweekday := (firstday + 6) mod 7 in
  let week1monday := firstday - firstweekday in
  if 3 <? firstweekday then week1monday + 7 else week1monday.

Definition isoweek_to_gregorian (year week day : Z) : result (Z * Z * Z) :=
  if negb ((MINYEAR <=? year) && (year <=? MAXYEAR)) then
    raise ValueError "Year is out of range"
  else
    let out_of_range :=
      if (0 <? week) && (week <? 53) then false
      else if week =? 53 then
        let first_weekday := ymd2ord year 1 1 mod 7 in
        negb ((first_weekday =? 4) || ((first_weekday =? 3) && is_leap year))
      else true in
    if out_of_range then raise ValueError "Invalid week"
    else if negb ((0 <? day) && (day <? 8)) then
      raise ValueError "Invalid weekday"
    else
      let day_offset := (week - 1) * 7 + (day - 1) in
      Ok (ord2ymd (isoweek1monday year + day_offset)).

End Calendar.

(** ** [datetime] values

    A [datetime] is a reading of the proleptic Gregorian clock, kept as the
    count [wall] of microseconds since 0001-01-01T00:00:00 (so
    [datetime.min] is 0), together with its [tzinfo].  The calendar fields
    are projections of [wall]; a naive value has [tzinfo = None], an aware
    one carries the UTC offset of its (fixed-offset) [tzinfo] object, in
    microseconds.  Every [tzinfo] object that reaches the wrapper has a
    fixed offset: [datetime.timezone] instances from [fromisoformat],
    [pytz.UTC], and the per-offset instances [pytz] attaches. *)

Definition US_PER_SECOND : Z := 1000000.
Definition US_PER_MINUTE : Z := 60000000.
Definition US_PER_HOUR : Z := 3600000000.
Definition US_PER_DAY : Z := 86400000000.

(** One past [datetime.max]. *)
Definition MAX_WALL : Z := Calendar.MAXORDINAL * US_PER_DAY.

Record datetime := mkdt { wall : Z; tzinfo : option Z }.

Definition timedelta := Z.
Definition td_days (n : Z) : timedelta := n * US_PER_DAY.
Definition td_hours (n : Z) : timedelta := n * US_PER_HOUR.

Definition dt_ymd (d : datetime) : Z * Z * Z :=
  Calendar.ord2ymd (wall d / US_PER_DAY + 1).
Definition dt_year (d : datetime) : Z := fst (fst (dt_ymd d)).
Definition dt_month (d : datetime) : Z := snd (fst (dt_ymd d)).
Definition dt_day (d : datetime) : Z := snd (dt_ymd d).
Definition dt_hour (d : datetime) : Z := (wall d mod US_PER_DAY) / US_PER_HOUR.
Definition dt_minute (d : datetime) : Z :=
  (wall d mod US_PER_HOUR) / US_PER_MINUTE.
Definition dt_second (d : datetime) : Z :=
  (wall d mod US_PER_MINUTE) / US_PER_SECOND.
Definition dt_microsecond (d : datetime) : Z := wall d mod US_PER_SECOND.

(** [datetime(year, month, day, hour, minute, second, microsecond, tzinfo)]
    with the range checks of [_check_date_fields] and [_check_time_fields]. *)
Definition dt_new (year month day hour minute second microsecond : Z)
    (tz : option Z) : result datetime :=
  if negb ((Calendar.MINYEAR <=? year) && (year <=? Calendar.MAXYEAR)) then
    raise ValueError ("year " ++ Str.of_Z year ++ " is out of range")
  else if negb ((1 <=? month) && (month <=? 12)) then
    raise ValueError "month must be in 1..12"
  else if negb ((1 <=? day) && (day <=? Calendar.days_in_month year month)) then
    raise ValueError "day is out of range for month"
  else if negb ((0 <=? hour) && (hour <=? 23)) then
    raise ValueError "hour must be in 0..23"
  else if negb ((0 <=? minute) && (minute <=? 59)) then
    raise ValueError "minute must be in 0..59"
  else if negb ((0 <=? second) && (second <=? 59)) then
    raise ValueError "second must be in 0..59"
  else if negb ((0 <=? microsecond) && (microsecond <=? 999999)) then
    raise ValueError "microsecond must be in 0..999999"
  else
    Ok (mkdt ((Calendar.ymd2ord year month day - 1) * US_PER_DAY
              + hour * US_PER_HOUR + minute * US_PER_MINUTE
              + second * US_PER_SECOND + microsecond) tz).

(** [d + delta]; the result must lie in [datetime.min .. datetime.max]. *)
Definition dt_add (d : datetime) (delta : timedelta) : result datetime :=
  let w := wall d + delta in
  if (0 <=? w) && (w <? MAX_WALL) then Ok (mkdt w (tzinfo d))
  else raise OverflowError "date value out of range".

(** [d.replace(tzinfo=tz)] *)
Definition replace_tzinfo (d : datetime) (tz : option Z) : datetime :=
  mkdt (wall d) tz.

(** [d.replace(second=0, microsecond=0)] *)
Definition replace_second0_microsecond0 (d : datetime) : datetime :=
  mkdt (wall d - wall d mod US_PER_MINUTE) (tzinfo d).

(** [a == b]: naive values compare by their fields, aware values by their
    UTC instants, and a naive value never equals an aware one. *)
Definition dt_eq (a b : datetime) : bool :=
  match tzinfo a, tzinfo b with
  | None, None => wall a =? wall b
  | Some oa, Some ob => wall a - oa =? wall b - ob
  | _, _ => false
  end.

(** [a > b]: as [==], except that mixing naive and aware raises. *)
Definition dt_gt (a b : datetime) : result bool :=
  match tzinfo a, tzinfo b with
  | None, None => Ok (wall b <? wall a)
  | Some oa, Some ob => Ok (wall b - ob <? wall a - oa)
  | _, _ =>
      raise TypeError "can't compare offset-naive and offset-aware datetimes"
  end.

(** ** [datetime.fromisoformat] (CPython 3.11)

    The structure is that of the library's C implementation: locate the
    date/time separator, parse the date part, then the time part with its
    optional offset.  Fields have fixed widths and hold ASCII digits only;
    the scanner reads the character past the end of the string as NUL. *)

Definition invalid_isoformat {A} : result A :=
  raise ValueError "Invalid isoformat string".

Definition char_is (i : nat) (c : ascii) (s : string) : bool :=
  match String.get i s with
  | Some a => Ascii.eqb a c
  | None => false
  end.

Definition digit_at (i : nat) (s : string) : bool :=
  match String.get i s with
  | Some a => Str.is_ascii_digit a
  | None => false
  end.

(** A field of exactly [n] digits starting at position [pos]. *)
Definition fixed_digits (pos n : nat) (s : string) : result Z :=
  let f := substring pos n s in
  if Nat.eqb (String.length f) n then
    match Str.parse_digits f with
    | Some z => Ok z
    | None => invalid_isoformat
    end
  else invalid_isoformat.

Fixpoint count_leading_digits (s : string) : nat :=
  match s with
  | String c r => if Str.is_ascii_digit c then S (count_leading_digits r) else O
  | EmptyString => O
  end.

(** [_find_isoformat_datetime_separator], for strings of 7 characters or
    more. *)
Definition find_isoformat_datetime_separator (dtstr : string) : result nat :=
  let len := String.length dtstr in
  if Nat.eqb len 7 then Ok 7%nat
  else if char_is 4 "-" dtstr then
    if char_is 5 "W" dtstr then
      if Nat.ltb 8 len && char_is 8 "-" dtstr then
        if Nat.eqb len 9 then invalid_isoformat
        else if Nat.ltb 10 len && digit_at 10 dtstr then Ok 8%nat
        else Ok 10%nat
      else Ok 8%nat
    else Ok 10%nat
  else if char_is 4 "W" dtstr then
    let idx := (7 + count_leading_digits (Str.drop 7 dtstr))%nat in
    if Nat.ltb idx 9 then Ok idx
    else if Nat.even idx then Ok 7%nat
    else Ok 8%nat
  else Ok 8%nat.

(** [_parse_isoformat_date] *)
Definition parse_isoformat_date (dtstr : string) : result (Z * Z * Z) :=
  year <- fixed_digits 0 4 dtstr ;;
  let has_sep := char_is 4 "-" dtstr in
  let sep := if has_sep then 1%nat else 0%nat in
  let pos := (4 + sep)%nat in
  if char_is pos "W" dtstr then
    let pos := (pos + 1)%nat in
    weekno <- fixed_digits pos 2 dtstr ;;
    let pos := (pos + 2)%nat in
    if Nat.ltb pos (String.length dtstr) then
      if negb (Bool.eqb (char_is pos "-" dtstr) has_sep) then invalid_isoformat
      else
        dayno <- fixed_digits (pos + sep) 1 dtstr ;;
        Calendar.isoweek_to_gregorian year weekno dayno
    else Calendar.isoweek_to_gregorian year weekno 1
  else
    month <- fixed_digits pos 2 dtstr ;;
    let pos := (pos + 2)%nat in
    if negb (Bool.eqb (char_is pos "-" dtstr) has_sep) then invalid_isoformat
    else
      day <- fixed_digits (pos + sep) 2 dtstr ;;
      Ok (year, month, day).

Definition FRACTION_CORRECTION (to_parse : nat) : Z :=
  match to_parse with
  | 1%nat => 100000 | 2%nat => 10000 | 3%nat => 1000
  | 4%nat => 100 | 5%nat => 10 | _ => 1
  end.

Definition NUL : ascii := zero.

Definition char_or_nul (i : nat) (s : string) : ascii :=
  match String.get i s with
  | Some c => c
  | None => NUL
  end.

(** [parse_digits]: [n] digits starting at [pos]. *)
Definition parse_digits_at (pos n : nat) (s : string) : option Z :=
  let f := substring pos n s in
  if Nat.eqb (String.length f) n && Str.all_digits f then
    Some (Str.digits_value_from 0 f)
  else None.

(** How [parse_hh_mm_ss_ff] stopped: at the end of the string, or in front
    of a character that is not NUL. *)
Inductive hms_stop := AtEnd | BeforeChar.

Definition stop_of (c : ascii) : hms_stop :=
  if Ascii.eqb c NUL then AtEnd else BeforeChar.

(** One round of the loop over hour, minute and second. *)
Inductive hms_step :=
| StepReturn (v : Z) (st : hms_stop)
| StepContinue (v : Z) (p : nat) (has_separator : bool)
| StepBreak (v : Z) (p : nat)
| StepFail.

Definition hms_round (first : bool) (s : string) (p p_end : nat)
    (has_separator : bool) : hms_step :=
  match parse_digits_at p 2 s with
  | None => StepFail
  | Some v =>
      let c := char_or_nul (p + 2) s in
      let p := (p + 3)%nat in
      let has_separator := if first then Ascii.eqb c ":" else has_separator in
      if Nat.leb p_end p then StepReturn v (stop_of c)
      else if has_separator && Ascii.eqb c ":" then
        StepContinue v p has_separator
      else if Ascii.eqb c "." || Ascii.eqb c "," then StepBreak v p
      else if negb has_separator then StepContinue v (p - 1)%nat has_separator
      else StepFail
  end.

Fixpoint skip_digits (fuel p : nat) (s : string) : nat :=
  match fuel with
  | O => p
  | S f =>
      if Str.is_ascii_digit (char_or_nul p s) then skip_digits f (S p) s
      else p
  end.

(** The fraction: up to six digits count, further digits are skipped. *)
Definition parse_fraction (s : string) (p p_end : nat)
  : option (Z * hms_stop) :=
  let len_remains := (p_end - p)%nat in
  let to_parse := Nat.min 6 len_remains in
  match parse_digits_at p to_parse s with
  | None => None
  | Some v =>
      let p := skip_digits (String.length s) (p + to_parse)%nat s in
      Some (v * FRACTION_CORRECTION to_parse, stop_of (char_or_nul p s))
  end.

(** [parse_hh_mm_ss_ff] on [s] from position [p] up to [p_end]:
    [HH[:?MM[:?SS[{.,}f+]]]] *)
Definition parse_hh_mm_ss_ff (s : string) (p p_end : nat)
  : option (Z * Z * Z * Z * hms_stop) :=
  let fraction hh mm ss p :=
    match parse_fraction s p p_end with
    | Some (ff, st) => Some (hh, mm, ss, ff, st)
    | None => None
    end in
  match hms_round true s p p_end true with
  | StepFail => None
  | StepReturn hh st => Some (hh, 0, 0, 0, st)
  | StepBreak hh p => fraction hh 0 0 p
  | StepContinue hh p has_separator =>
      match hms_round false s p p_end has_separator with
      | StepFail => None
      | StepReturn mm st => Some (hh, mm, 0, 0, st)
      | StepBreak mm p => fraction hh mm 0 p
      | StepContinue mm p has_separator =>
          match hms_round false s p p_end has_separator with
          | StepFail => None
          | StepReturn ss st => Some (hh, mm, ss, 0, st)
          | StepBreak ss p | StepContinue ss p _ => fraction hh mm ss p
          end
      end
  end.

(** Position of the first [+], [-] or [Z], if any. *)
Fixpoint find_tz_sign (s : string) : option nat :=
  match s with
  | EmptyString => None
  | String c r =>
      if Ascii.eqb c "+" || Ascii.eqb c "-" || Ascii.eqb c "Z" then Some O
      else option_map S (find_tz_sign r)
  end.

(** [timezone(offset)]: the offset must lie strictly within a day. *)
Definition timezone (offset : timedelta) : result Z :=
  if (- US_PER_DAY <? offset) && (offset <? US_PER_DAY) then Ok offset
  else raise ValueError
    "offset must be a timedelta strictly between -timedelta(hours=24) and timedelta(hours=24)".

(** [parse_isoformat_time] followed by [tzinfo_from_isoformat_results]:
    the time fields and the [tzinfo].  An offset of zero whole seconds is
    UTC, whatever its fraction. *)
Definition parse_isoformat_time (tstr : string)
  : result (Z * Z * Z * Z * option Z) :=
  let len := String.length tstr in
  match find_tz_sign tstr with
  | None =>
      match parse_hh_mm_ss_ff tstr 0 (Nat.max len 1) with
      | Some (comps, AtEnd) => Ok (comps, None)
      | _ => invalid_isoformat
      end
  | Some i =>
      match parse_hh_mm_ss_ff tstr 0 i with
      | None => invalid_isoformat
      | Some (comps, _) =>
          if char_is i "Z" tstr then
            if Ascii.eqb (char_or_nul (S i) tstr) NUL then Ok (comps, Some 0)
            else invalid_isoformat
          else
            match parse_hh_mm_ss_ff tstr (S i) len with
            | Some (h, m, sec, f, AtEnd) =>
                let tzsign := if char_is i "-" tstr then -1 else 1 in
                let tzoffset := tzsign * (h * 3600 + m * 60 + sec) in
                if tzoffset =? 0 then Ok (comps, Some 0)
                else
                  off <- timezone (tzoffset * US_PER_SECOND + tzsign * f) ;;
                  Ok (comps, Some off)
            | _ => invalid_isoformat
            end
      end
  end.

Definition fromisoformat (date_string : string) : result datetime :=
  let len := String.length date_string in
  if Nat.ltb len 7 then invalid_isoformat
  else
    separator_location <- find_isoformat_datetime_separator date_string ;;
    date_components <-
      parse_isoformat_date (Str.take separator_location date_string) ;;
    let '(year, month, day) := date_components in
    time_components <-
      (if Nat.ltb separator_location len then
         parse_isoformat_time (Str.drop (S separator_location) date_string)
       else Ok (0, 0, 0, 0, None)) ;;
    let '(hh, mm, ss, ff, tzi) := time_components in
    dt_new year month day hh mm ss ff tzi.

(** ** [datetime.strptime(s, '%Y-%m-%d %H:%M')]

    [_strptime] compiles the format into the regular expression
    [(\d\d\d\d)-(1[0-2]|0[1-9]|[1-9])-(3[0-1]|[1-2]\d|0[1-9]|[1-9]| [1-9])\s+(2[0-3]|[0-1]\d|\d):([0-5]\d|\d)],
    matches it at the start of the string and rejects unconverted data.  A
    matcher below returns the ways its pattern can match a prefix, in the
    order the regular-expression engine tries them. *)

Module Strptime.

Definition rx (A : Type) := string -> list (A * string).

Definition in_range (lo hi : N) (c : ascii) : bool :=
  let n := N_of_ascii c in ((lo <=? n) && (n <=? hi))%N.

Definition digit : ascii -> bool := Str.is_ascii_digit.
Definition is_char (x : ascii) (c : ascii) : bool := Ascii.eqb c x.

(** [\s] on the ASCII range. *)
Definition is_space (c : ascii) : bool :=
  in_range 9 13 c || in_range 28 32 c.

(** Two characters of the given classes, read as a two-digit number (a
    character that is not a digit counts as 0). *)
Definition two (p1 p2 : ascii -> bool) : rx Z := fun s =>
  match s with
  | String c1 (String c2 r) =>
      if p1 c1 && p2 c2 then
        [((if digit c1 then 10 * Str.digit_val c1 else 0) + Str.digit_val c2, r)]
      else []
  | _ => []
  end.

Definition one (p : ascii -> bool) : rx Z := fun s =>
  match s with
  | String c r => if p c then [(Str.digit_val c, r)] else []
  | _ => []
  end.

Definition alt {A} (ps : list (rx A)) : rx A := fun s =>
  flat_map (fun p => p s) ps.

Definition seq {A B} (p : rx A) (q : A -> rx B) : rx B := fun s =>
  flat_map (fun '(a, r) => q a r) (p s).

Definition lit (c : ascii) : rx unit := fun s =>
  match s with
  | String a r => if Ascii.eqb a c then [(tt, r)] else []
  | _ => []
  end.

(** [\s+], longest match first. *)
Fixpoint spaces (s : string) : list (unit * string) :=
  match s with
  | String c r => if is_space c then (spaces r ++ [(tt, r)])%list else []
  | EmptyString => []
  end.

Definition rx_Y : rx Z := fun s =>
  match Str.parse_digits (Str.take 4 s) with
  | Some y => if Nat.eqb (String.length (Str.take 4 s)) 4
              then [(y, Str.drop 4 s)] else []
  | None => []
  end.

Definition rx_m : rx Z :=
  alt [two (is_char "1") (in_range 48 50);
       two (is_char "0") (in_range 49 57);
       one (in_range 49 57)].

Definition rx_d : rx Z :=
  alt [two (is_char "3") (in_range 48 49);
       two (in_range 49 50) digit;
       two (is_char "0") (in_range 49 57);
       one (in_range 49 57);
       two (is_char " ") (in_range 49 57)].

Definition rx_H : rx Z :=
  alt [two (is_char "2") (in_range 48 51);
       two (in_range 48 49) digit;
       one digit].

Definition rx_M : rx Z :=
  alt [two (in_range 48 53) digit;
       one digit].

Definition regex : rx (Z * Z * Z * Z * Z) :=
  seq rx_Y (fun y => seq (lit "-") (fun _ =>
  seq rx_m (fun m => seq (lit "-") (fun _ =>
  seq rx_d (fun d => seq spaces (fun _ =>
  seq rx_H (fun h => seq (lit ":") (fun _ =>
  seq rx_M (fun mi => fun r => [((y, m, d, h, mi), r)]))))))))).

End Strptime.

Definition strptime_Ymd_HM (data_string : string) : result datetime :=
  match Strptime.regex data_string with
  | [] => raise ValueError
            ("time data '" ++ data_string
             ++ "' does not match format '%Y-%m-%d %H:%M'")
  | ((y, m, d, h, mi), rest) :: _ =>
      match rest with
      | EmptyString => dt_new y m d h mi 0 0 None
      | _ => raise ValueError ("unconverted data remains: " ++ rest)
      end
  end.

(** ** [strftime], [str] and [isoformat] *)

Definition month_name (month : Z) : string :=
  match month with
  | 1 => "January" | 2 => "February" | 3 => "March" | 4 => "April"
  | 5 => "May" | 6 => "June" | 7 => "July" | 8 => "August"
  | 9 => "September" | 10 => "October" | 11 => "November"
  | _ => "December"
  end.

(** One conversion of the C locale.  As on Linux, [%Y] is not padded. *)
Definition directive (d : datetime) (c : ascii) : string :=
  if Ascii.eqb c "Y" then Str.of_Z (dt_year d)
  else if Ascii.eqb c "m" then Str.zpad 2 (dt_month d)
  else if Ascii.eqb c "d" then Str.zpad 2 (dt_day d)
  else if Ascii.eqb c "H" then Str.zpad 2 (dt_hour d)
  else if Ascii.eqb c "M" then Str.zpad 2 (dt_minute d)
  else if Ascii.eqb c "S" then Str.zpad 2 (dt_second d)
  else if Ascii.eqb c "f" then Str.zpad 6 (dt_microsecond d)
  else if Ascii.eqb c "B" then month_name (dt_month d)
  else if Ascii.eqb c "I" then
    Str.zpad 2 (if dt_hour d mod 12 =? 0 then 12 else dt_hour d mod 12)
  else if Ascii.eqb c "p" then (if dt_hour d <? 12 then "AM" else "PM")
  else if Ascii.eqb c "%" then "%"
  else String "%" (String c EmptyString).

(** [d.strftime(fmt)] for formats made of the conversions above. *)
Fixpoint strftime (d : datetime) (fmt : string) : string :=
  match fmt with
  | String "%" (String c r) => directive d c ++ strftime d r
  | String c r => String c (strftime d r)
  | EmptyString => EmptyString
  end.

Definition format_time (d : datetime) : string :=
  Str.zpad 2 (dt_hour d) ++ ":" ++ Str.zpad 2 (dt_minute d) ++ ":"
  ++ Str.zpad 2 (dt_second d)
  ++ (if dt_microsecond d =? 0 then "" else "." ++ Str.zpad 6 (dt_microsecond d)).

Definition format_offset (tz : option Z) : string :=
  match tz with
  | None => ""
  | Some off =>
      let sign := if off <? 0 then "-" else "+" in
      let a := Z.abs off in
      let hh := a / US_PER_HOUR in
      let mm := (a mod US_PER_HOUR) / US_PER_MINUTE in
      let ss := (a mod US_PER_MINUTE) / US_PER_SECOND in
      let us := a mod US_PER_SECOND in
      sign ++ Str.zpad 2 hh ++ ":" ++ Str.zpad 2 mm
      ++ (if (ss =? 0) && (us =? 0) then ""
          else ":" ++ Str.zpad 2 ss
               ++ (if us =? 0 then "" else "." ++ Str.zpad 6 us))
  end.

(** [d.isoformat(sep)] *)
Definition isoformat (sep : string) (d : datetime) : string :=
  Str.zpad 4 (dt_year d) ++ "-" ++ Str.zpad 2 (dt_month d) ++ "-"
  ++ Str.zpad 2 (dt_day d) ++ sep ++ format_time d ++ format_offset (tzinfo d).

(** [str(d)] *)
Definition dt_str (d : datetime) : string := isoformat " " d.

(* ================================================================== *)
(** * The [pytz] library *)
(* ================================================================== *)

(** A zone of the database is [pytz.utc], a [StaticTzInfo] (one offset), or
    a [DstTzInfo]: the offset in force from [datetime.min] on, and the later
    transitions, each a UTC time (as a [wall] count) with the offset that
    starts there, in increasing order.  An entry is the triple
    [(utcoffset, dst, tzname)] of [_transition_info], offsets in
    microseconds. *)

Record tzentry := mkentry { utcoffset : Z; dst : Z; tzname : string }.

Inductive zone :=
| ZoneUTC
| StaticTzInfo (e : tzentry)
| DstTzInfo (first : tzentry) (transitions : list (Z * tzentry)).

(** [_transition_info[max(0, bisect_right(_utc_transition_times, t) - 1)]] *)
Fixpoint info_at (cur : tzentry) (transitions : list (Z * tzentry)) (t : Z)
  : tzentry :=
  match transitions with
  | [] => cur
  | (start, e) :: r => if start <=? t then info_at e r t else cur
  end.

(** [zone.fromutc(utc)]: the reading of the zone's clock at a UTC time. *)
Definition fromutc (z : zone) (utc : datetime) : result datetime :=
  match z with
  | ZoneUTC => Ok (replace_tzinfo utc (Some 0))
  | StaticTzInfo e =>
      d <- dt_add utc (utcoffset e) ;;
      Ok (replace_tzinfo d (Some (utcoffset e)))
  | DstTzInfo first transitions =>
      let inf := info_at first transitions (wall utc) in
      d <- dt_add utc (utcoffset inf) ;;
      Ok (replace_tzinfo d (Some (utcoffset inf)))
  end.

(** One round of the loop of [DstTzInfo.localize]: the entry in force a day
    before or after [dt] (read as UTC) is tried as the offset of [dt]; the
    candidate is kept when [normalize] leaves the clock reading unchanged. *)
Definition localize_candidate (first : tzentry)
    (transitions : list (Z * tzentry)) (dt : datetime) (delta : timedelta)
  : result (option tzentry) :=
  loc_dt <- dt_add dt delta ;;
  let inf := info_at first transitions (wall loc_dt) in
  utc <- dt_add dt (- utcoffset inf) ;;
  let inf' := info_at first transitions (wall utc) in
  loc_dt <- dt_add utc (utcoffset inf') ;;
  Ok (if wall loc_dt =? wall dt then Some inf' else None).

(** The set [possible_loc_dt]: two candidates are the same element when
    they denote the same instant, that is, have the same offset. *)
Definition possible_loc_dt (c1 c2 : option tzentry) : list tzentry :=
  match c1, c2 with
  | None, None => []
  | Some a, None => [a]
  | None, Some b => [b]
  | Some a, Some b => if utcoffset a =? utcoffset b then [a] else [a; b]
  end.

(** The end of [localize] for an ambiguous time and [is_dst=False]: keep the
    candidates that are not DST; of what is left, take the latest by UTC. *)
Definition resolve_ambiguous (a b : tzentry) : tzentry :=
  match negb (dst a =? 0), negb (dst b =? 0) with
  | false, true => a
  | true, false => b
  | _, _ => if utcoffset a <? utcoffset b then a else b
  end.

(** [DstTzInfo.localize(dt, is_dst=False)], as the entry attached to [dt].
    A time that never happened is localized six hours earlier and moved
    back; [fuel] counts these recursive calls. *)
Fixpoint localize_dst (fuel : nat) (first : tzentry)
    (transitions : list (Z * tzentry)) (dt : datetime) : result tzentry :=
  match fuel with
  | O => raise RuntimeError "maximum recursion depth exceeded"
  | S fuel' =>
      c1 <- localize_candidate first transitions dt (td_days (-1)) ;;
      c2 <- localize_candidate first transitions dt (td_days 1) ;;
      match possible_loc_dt c1 c2 with
      | [] =>
          earlier <- dt_add dt (- td_hours 6) ;;
          localize_dst fuel' first transitions earlier
      | [e] => Ok e
      | a :: b :: _ => Ok (resolve_ambiguous a b)
      end
  end.

(** Enough fuel for every time: each call moves six hours back and
    [dt_add] raises below [datetime.min]. *)
Definition localize_fuel (dt : datetime) : nat :=
  S (Z.to_nat (wall dt / td_hours 6)).

(** [zone.localize(dt)] *)
Definition localize (z : zone) (dt : datetime) : result datetime :=
  match tzinfo dt with
  | Some _ => raise ValueError "Not naive datetime (tzinfo is already set)"
  | None =>
      match z with
      | ZoneUTC => Ok (replace_tzinfo dt (Some 0))
      | StaticTzInfo e => Ok (replace_tzinfo dt (Some (utcoffset e)))
      | DstTzInfo first transitions =>
          e <- localize_dst (localize_fuel dt) first transitions dt ;;
          Ok (replace_tzinfo dt (Some (utcoffset e)))
      end
  end.

(* ================================================================== *)
(** * The runtime the wrapper runs in *)
(* ================================================================== *)

(** A request as [requests.request] receives it. *)
Record request := mkreq {
  req_method : string;
  req_url : string;
  req_headers : list (string * string);
  req_params : list (string * string);
  req_json : option pyval
}.

(** What [requests.request] does: it raises, or returns a response, whose
    [json()] in turn raises or returns the decoded body. *)
Inductive http_outcome :=
| RequestRaises (e : exn)
| Response (status_code : Z) (text : string) (json : result pyval).

(** The environment: the zone database [pytz] ships, the UTC offset of the
    system's local zone (which [astimezone] applies to a naive value), the
    clock, the remote service (which may answer by the requests seen so
    far), and the settings [CalApiConfig] reads. *)
Record runtime := mkrt {
  tzdb : string -> option zone;
  local_utcoffset : datetime -> result Z;
  clock : Z;
  remote : list request -> request -> http_outcome;
  api_key : string;
  base_url : string;
  event_type_id : option string
}.

(** [pytz.timezone(name)] *)
Definition pytz_timezone (rt : runtime) (name : string) : result zone :=
  if String.eqb (Str.upper name) "UTC" then Ok ZoneUTC
  else
    match tzdb rt name with
    | Some z => Ok z
    | None => raise UnknownTimeZoneError name
    end.

(** [datetime.now(pytz.UTC)] *)
Definition now_utc (rt : runtime) : datetime := mkdt (clock rt) (Some 0).

(** [d.astimezone(z)]: subtract the own offset (that of the system's zone
    for a naive value), then let the zone project the UTC time. *)
Definition astimezone (rt : runtime) (d : datetime) (z : zone)
  : result datetime :=
  myoffset <- (match tzinfo d with
               | Some off => Ok off
               | None => local_utcoffset rt d
               end) ;;
  utc <- dt_add d (- myoffset) ;;
  fromutc z utc.

(* ================================================================== *)
(** * cal_wrapper.py *)
(* ================================================================== *)

Inductive BookingStatus := ACCEPTED | PENDING | CANCELLED | RESCHEDULED.

Definition BookingStatus_value (s : BookingStatus) : string :=
  match s with
  | ACCEPTED => "accepted"
  | PENDING => "pending"
  | CANCELLED => "cancelled"
  | RESCHEDULED => "rescheduled"
  end.

Inductive FormatType := TIME_ONLY | DATE_TIME | FRIENDLY | DEFAULT.

Definition FormatType_value (f : FormatType) : string :=
  match f with
  | TIME_ONLY => "time_only"
  | DATE_TIME => "date_time"
  | FRIENDLY => "friendly"
  | DEFAULT => "datetime"
  end.

(** [FormatType(value)] *)
Definition FormatType_of_value (s : string) : result FormatType :=
  if String.eqb s "time_only" then Ok TIME_ONLY
  else if String.eqb s "date_time" then Ok DATE_TIME
  else if String.eqb s "friendly" then Ok FRIENDLY
  else if String.eqb s "datetime" then Ok DEFAULT
  else raise ValueError ("'" ++ s ++ "' is not a valid FormatType").

(** The dataclass [ApiResponse]; [None] in [data] is [PyNone]. *)
Record ApiResponse := mkresp {
  success : bool;
  data : pyval;
  error : option string;
  status_code : option Z
}.

(** A [str] method called on a value read from a payload. *)
Definition py_replace_Z (v : pyval) : result string :=
  match v with
  | PyStr s => Ok (Str.replace_char "Z" "+00:00" s)
  | _ => no_attribute v "replace"
  end.

Section Wrapper.

Variable rt : runtime.

(** ** class TimezoneHandler *)

Definition convert_utc_to_user_timezone (utc_datetime_str : pyval)
    (user_timezone : string) : result datetime :=
  try_except
    (replaced <- py_replace_Z utc_datetime_str ;;
     utc_dt <- fromisoformat replaced ;;
     if String.eqb user_timezone "UTC" then Ok utc_dt
     else
       user_tz <- pytz_timezone rt user_timezone ;;
       astimezone rt utc_dt user_tz)
    [UnknownTimeZoneError; ValueError]
    (fun _ => Ok (now_utc rt)).

Definition convert_user_time_to_utc (date_str time_str user_timezone : string)
  : result datetime :=
  try_except
    (let target_datetime_str := date_str ++ " " ++ time_str in
     target_dt <- strptime_Ymd_HM target_datetime_str ;;
     if String.eqb user_timezone "UTC" then
       Ok (replace_tzinfo target_dt (Some 0))
     else
       user_tz <- pytz_timezone rt user_timezone ;;
       target_dt_with_tz <- localize user_tz target_dt ;;
       astimezone rt target_dt_with_tz ZoneUTC)
    [UnknownTimeZoneError; ValueError]
    (fun _ => Ok (now_utc rt)).

Definition convert_iso_to_utc_api_format (start_time_iso user_timezone : string)
  : result string :=
  try_except
    (dt_object <- fromisoformat (Str.replace_char "Z" "+00:00" start_time_iso) ;;
     dt_object <-
       (match tzinfo dt_object with
        | None =>
            user_tz <- pytz_timezone rt user_timezone ;;
            localize user_tz dt_object
        | Some _ => Ok dt_object
        end) ;;
     utc <- astimezone rt dt_object ZoneUTC ;;
     let utc_time :=
       Str.drop_last 3 (strftime utc "%Y-%m-%dT%H:%M:%S.%fZ") ++ "Z" in
     Ok utc_time)
    [ValueError; UnknownTimeZoneError]
    (fun _ =>
       raise ValueError
         ("Invalid start time format '" ++ start_time_iso
          ++ "'. Please use ISO 8601 format.")).

Definition parse_utc_datetime_string (utc_datetime_str : pyval)
  : result datetime :=
  try_except
    (replaced <- py_replace_Z utc_datetime_str ;;
     fromisoformat replaced)
    [ValueError]
    (fun _ =>
       raise ValueError
         ("Invalid UTC datetime format: " ++ py_str utc_datetime_str)).

(** ** class DateTimeFormatter *)

Definition FORMAT_PATTERNS (f : FormatType) : string :=
  match f with
  | TIME_ONLY => "%H:%M"
  | DATE_TIME => "%Y-%m-%d %H:%M"
  | FRIENDLY => "%B %d, %Y at %I:%M %p"
  | DEFAULT => "%Y-%m-%d %H:%M"
  end.

(** The argument [format_type : Union[str, FormatType]]. *)
Inductive format_arg :=
| FmtStr (s : string)
| FmtEnum (f : FormatType).

Definition format_for_display (dt : datetime) (user_timezone : string)
    (format_type : format_arg) : result string :=
  try_except
    (format_type <- (match format_type with
                     | FmtStr s => FormatType_of_value s
                     | FmtEnum f => Ok f
                     end) ;;
     let pattern := FORMAT_PATTERNS format_type in
     Ok (strftime dt pattern))
    [ValueError; KeyError]
    (fun _ => Ok (dt_str dt)).

End Wrapper.

(** ** Code that talks to the remote API

    An [io] computation receives the requests issued so far and returns its
    outcome with the extended list. *)

Definition io (A : Type) : Type := list request -> result A * list request.

Definition io_ret {A} (a : A) : io A := fun log => (Ok a, log).

Definition io_raise {A} (e : exn) : io A := fun log => (Raise e, log).

Definition io_bind {A B} (m : io A) (k : A -> io B) : io B := fun log =>
  match m log with
  | (Ok a, log') => k a log'
  | (Raise e, log') => (Raise e, log')
  end.

Definition io_lift {A} (r : result A) : io A := fun log => (r, log).

Declare Scope io_scope.
Delimit Scope io_scope with io.
Notation "x <-- m ;; k" := (io_bind m (fun x => k))
  (at level 100, m at next level, right associativity) : io_scope.

(** [int(s)] of a string: optional surrounding blanks, an optional sign,
    and decimal digits. *)
Fixpoint strip_left (s : string) : string :=
  match s with
  | String c r => if Strptime.is_space c then strip_left r else s
  | EmptyString => EmptyString
  end.

Definition strip (s : string) : string :=
  let rev_s s := string_of_list_ascii (rev (list_ascii_of_string s)) in
  rev_s (strip_left (rev_s (strip_left s))).

Definition py_int (s : string) : result Z :=
  let bad := raise ValueError
               ("invalid literal for int() with base 10: " ++ repr_str s) in
  let digits t :=
    match Str.parse_digits t with
    | Some z => Ok z
    | None => bad
    end in
  match strip s with
  | String "-" t => z <- digits t ;; Ok (- z)
  | String "+" t => digits t
  | t => digits t
  end.

Section Client.

Variable rt : runtime.

(** ** class CalApiConfig *)

Definition DEFAULT_API_VERSION : string := "2024-08-13".
Definition SLOTS_API_VERSION : string := "2024-09-04".

Definition get_headers (api_version : option string)
  : list (string * string) :=
  [("Authorization", "Bearer " ++ api_key rt);
   ("Content-Type", "application/json");
   ("cal-api-version",
    match api_version with
    | Some v => if String.eqb v "" then DEFAULT_API_VERSION else v
    | None => DEFAULT_API_VERSION
    end)].

(** [bool(config.event_type_id)] *)
Definition event_type_id_set : bool :=
  match event_type_id rt with
  | Some s => negb (String.eqb s "")
  | None => false
  end.

(** ** class CalApiClient *)

(** [requests.request(method, url, headers=headers, **kwargs)] *)
Definition requests_request (r : request) : io http_outcome := fun log =>
  (Ok (remote rt log r), (log ++ [r])%list).

Definition _make_request (method endpoint : string)
    (api_version : option string) (params : list (string * string))
    (json : option pyval) : io ApiResponse :=
  let url := base_url rt ++ "/" ++ Str.lstrip_char "/" endpoint in
  let headers := get_headers api_version in
  (outcome <-- requests_request (mkreq method url headers params json) ;;
   match outcome with
   | Response code text body =>
       if 400 <=? code then
         let error_msg := "HTTP " ++ Str.of_Z code ++ ": " ++ text in
         io_ret (mkresp false PyNone (Some error_msg) (Some code))
       else
         match body with
         | Ok v => io_ret (mkresp true v None (Some code))
         | Raise e =>
             if isinstance e [RequestException] then
               io_ret (mkresp false PyNone (Some (exn_msg e)) None)
             else if isinstance e [ValueError] then
               io_ret (mkresp false PyNone
                         (Some ("Invalid JSON response: " ++ exn_msg e)) None)
             else io_raise e
         end
   | RequestRaises e =>
       if isinstance e [RequestException] then
         io_ret (mkresp false PyNone (Some (exn_msg e)) None)
       else if isinstance e [ValueError] then
         io_ret (mkresp false PyNone
                   (Some ("Invalid JSON response: " ++ exn_msg e)) None)
       else io_raise e
   end)%io.

Definition get_bookings (user_email : string) : io ApiResponse :=
  _make_request "GET" "bookings" None [("attendeeEmail", user_email)] None.

Definition client_get_available_slots (date event_type_id user_timezone : string)
  : io ApiResponse :=
  let start_time := date ++ "T00:00:00Z" in
  let end_time := date ++ "T23:59:59Z" in
  _make_request "GET" "slots" (Some SLOTS_API_VERSION)
    [("eventTypeId", event_type_id); ("start", start_time);
     ("end", end_time); ("format", "range"); ("timeZone", user_timezone)]
    None.

Definition client_create_booking (payload : pyval) : io ApiResponse :=
  _make_request "POST" "bookings" None [] (Some payload).

Definition client_cancel_booking (booking_uid : pyval) (reason : string)
  : io ApiResponse :=
  _make_request "POST" ("bookings/" ++ py_str booking_uid ++ "/cancel") None []
    (Some (PyDict [("cancellationReason", PyStr reason)])).

Definition client_reschedule_booking (booking_uid : pyval) (payload : pyval)
  : io ApiResponse :=
  _make_request "POST" ("bookings/" ++ py_str booking_uid ++ "/reschedule")
    None [] (Some payload).

(** ** class BookingMatcher *)

(** The body of the loop of [find_booking_by_time] for one booking:
    [Ok (Some b)] is [return booking], [Ok None] is [continue]. *)
Definition match_booking (target_dt_utc : datetime) (booking : pyval)
  : result (option pyval) :=
  status <- py_get booking "status" (PyStr "") ;;
  status <- py_lower status ;;
  if negb (String.eqb status (BookingStatus_value ACCEPTED)) then Ok None
  else
    booking_start <- py_get booking "start" (PyStr "") ;;
    if negb (truthy booking_start) then Ok None
    else
      try_except
        (booking_dt_utc <- parse_utc_datetime_string booking_start ;;
         let booking_time_truncated :=
           replace_second0_microsecond0 booking_dt_utc in
         let target_time_truncated :=
           replace_second0_microsecond0 target_dt_utc in
         if dt_eq booking_time_truncated target_time_truncated then
           Ok (Some booking)
         else Ok None)
        [ValueError; TypeError]
        (fun _ => Ok None).

Fixpoint scan_bookings (target_dt_utc : datetime) (bookings : list pyval)
  : result (option pyval) :=
  match bookings with
  | [] => Ok None
  | booking :: rest =>
      found <- match_booking target_dt_utc booking ;;
      match found with
      | Some b => Ok (Some b)
      | None => scan_bookings target_dt_utc rest
      end
  end.

Definition find_booking_by_time (bookings : list pyval)
    (target_date target_time user_timezone : string) : option pyval :=
  match
    (target_dt_utc <-
       convert_user_time_to_utc rt target_date target_time user_timezone ;;
     scan_bookings target_dt_utc bookings)
  with
  | Ok found => found
  | Raise _ => None
  end.

(** The body of the loop of [format_booking_list] for one booking. *)
Definition format_booking (user_timezone : string) (booking : pyval)
  : result string :=
  try_except_all
    (title <- py_get booking "title" (PyStr "Untitled") ;;
     start <- py_get booking "start" (PyStr "") ;;
     if negb (truthy start) then
       Ok ("- " ++ py_str title ++ ": No start time available")
     else
       booking_dt_user_tz <-
         convert_utc_to_user_timezone rt start user_timezone ;;
       display_time <-
         format_for_display booking_dt_user_tz user_timezone
           (FmtEnum DATE_TIME) ;;
       Ok ("- " ++ py_str title ++ ": " ++ display_time
           ++ " (" ++ user_timezone ++ ")"))
    (fun _ =>
       title <- py_get booking "title" (PyStr "Unknown") ;;
       start <- py_get booking "start" (PyStr "Unknown time") ;;
       Ok ("- " ++ py_str title ++ ": " ++ py_str start)).

Fixpoint map_result {A B} (f : A -> result B) (l : list A) : result (list B) :=
  match l with
  | [] => Ok []
  | a :: r =>
      b <- f a ;;
      bs <- map_result f r ;;
      Ok (b :: bs)
  end.

Definition format_booking_list (bookings : list pyval)
    (user_timezone : string) (limit : nat) : result (list string) :=
  map_result (format_booking user_timezone) (firstn limit bookings).

End Client.

Section Tools.

Variable rt : runtime.

Definition nl : string := String "010" EmptyString.

(** ** _get_upcoming_accepted_bookings *)

(** The body of the filtering loop for one booking: [true] when the booking
    is appended to [accepted_bookings]. *)
Definition upcoming_accepted (current_time_utc : datetime) (booking : pyval)
  : result bool :=
  status <- py_get booking "status" (PyStr "") ;;
  status <- py_lower status ;;
  if negb (String.eqb status (BookingStatus_value ACCEPTED)) then Ok false
  else
    booking_start <- py_get booking "start" (PyStr "") ;;
    if truthy booking_start then
      try_except_all
        (booking_dt_utc <- parse_utc_datetime_string booking_start ;;
         dt_gt booking_dt_utc current_time_utc)
        (fun _ => Ok true)
    else Ok false.

Fixpoint filter_result {A} (f : A -> result bool) (l : list A)
  : result (list A) :=
  match l with
  | [] => Ok []
  | a :: r =>
      keep <- f a ;;
      kept <- filter_result f r ;;
      Ok (if keep then a :: kept else kept)
  end.

(** The error text for a response whose payload does not say ["success"]. *)
Definition failure_details (payload : pyval) : result string :=
  if truthy payload then
    e <- py_get payload "error" (PyStr "Unknown error") ;;
    Ok (py_str e)
  else Ok "No data".

(** [not response.data or response.data.get("status") != "success"] *)
Definition not_success (payload : pyval) : result bool :=
  if negb (truthy payload) then Ok true
  else
    status <- py_get payload "status" PyNone ;;
    Ok (py_ne_str status "success").

Definition _get_upcoming_accepted_bookings (user_email : string)
  : io (option (list pyval) * option string) :=
  (response <-- get_bookings rt user_email ;;
   if negb (success response) then
     io_ret (None,
             Some ("Error fetching bookings: " ++ str_of_optional (error response)))
   else
     failed <-- io_lift (not_success (data response)) ;;
     if (failed : bool) then
       error_msg <-- io_lift (failure_details (data response)) ;;
       io_ret (None,
               Some ("Error: API returned failure. Details: " ++ error_msg))
     else
       all_bookings <-- io_lift (py_get (data response) "data" (PyList [])) ;;
       let current_time_utc := now_utc rt in
       bookings <-- io_lift (py_iter all_bookings) ;;
       accepted_bookings <--
         io_lift (filter_result (upcoming_accepted current_time_utc) bookings) ;;
       io_ret (Some accepted_bookings, None))%io.

(** ** The tools *)

Definition create_booking
    (start_time_iso user_name user_email title user_timezone : string)
  : io string :=
  (if negb (event_type_id_set rt) then
     io_ret "Error: EVENT_TYPE_ID is not configured. Please check your .env file."
   else
     match convert_iso_to_utc_api_format rt start_time_iso user_timezone with
     | Raise e =>
         if isinstance e [ValueError] then io_ret (exn_msg e) else io_raise e
     | Ok utc_time =>
         event_type <--
           io_lift (py_int (match event_type_id rt with
                            | Some s => s
                            | None => ""
                            end)) ;;
         let payload :=
           PyDict [("start", PyStr utc_time);
                   ("attendee",
                    PyDict [("name", PyStr user_name);
                            ("email", PyStr user_email);
                            ("timeZone", PyStr user_timezone)]);
                   ("eventTypeId", PyInt event_type)] in
         response <-- client_create_booking rt payload ;;
         if negb (success response) then
           io_ret ("Error: Booking creation failed. "
                   ++ str_of_optional (error response))
         else
           failed <-- io_lift (not_success (data response)) ;;
           if (failed : bool) then
             error_msg <-- io_lift (failure_details (data response)) ;;
             io_ret ("Error: Booking creation failed. API response: "
                     ++ error_msg)
           else
             booking_data <--
               io_lift (py_get (data response) "data" (PyDict [])) ;;
             booking_uid <--
               io_lift (py_get booking_data "uid" (PyStr "Unknown UID")) ;;
             io_lift
               (try_except_all
                  (dt_user_tz <-
                     convert_utc_to_user_timezone rt (PyStr start_time_iso)
                       user_timezone ;;
                   display_time <-
                     format_for_display dt_user_tz user_timezone
                       (FmtEnum FRIENDLY) ;;
                   Ok ("Success! Meeting '" ++ title ++ "' booked for "
                       ++ user_name ++ " on " ++ display_time ++ " ("
                       ++ user_timezone ++ "). Confirmation sent to "
                       ++ user_email ++ ". Booking UID: "
                       ++ py_str booking_uid))
                  (fun _ =>
                     Ok ("Success! Meeting '" ++ title ++ "' booked for "
                         ++ user_name ++ " at " ++ start_time_iso
                         ++ ". Confirmation sent to " ++ user_email
                         ++ ". Booking UID: " ++ py_str booking_uid)))
     end)%io.

(** [if error_msg:] on an [Optional[str]] *)
Definition truthy_opt (o : option string) : bool :=
  match o with
  | Some s => negb (String.eqb s "")
  | None => false
  end.

Definition no_match_message (date time user_timezone : string)
    (booking_list : list string) : string :=
  let available_list :=
    match booking_list with
    | [] => "None found"
    | _ => Str.join nl booking_list
    end in
  "No booking found for " ++ date ++ " at " ++ time ++ " (" ++ user_timezone
  ++ "). Your upcoming accepted bookings:" ++ nl ++ available_list.

Definition cancel_booking (user_email date time user_timezone : string)
  : io string :=
  (fetched <-- _get_upcoming_accepted_bookings user_email ;;
   let '(accepted_bookings, error_msg) := fetched in
   if truthy_opt error_msg then
     io_ret ("Error: Could not retrieve bookings. " ++ str_of_optional error_msg)
   else
     match accepted_bookings with
     | None | Some [] =>
         io_ret "No upcoming accepted bookings found for that email."
     | Some accepted_bookings =>
         let matching_booking :=
           find_booking_by_time rt accepted_bookings date time user_timezone in
         match matching_booking with
         | Some matching_booking =>
             if truthy matching_booking then
               booking_uid <-- io_lift (py_get matching_booking "uid" PyNone) ;;
               booking_title <--
                 io_lift (py_get matching_booking "title" (PyStr "Untitled")) ;;
               if negb (truthy booking_uid) then
                 io_ret "Error: Booking UID not found in booking data."
               else
                 cancel_response <--
                   client_cancel_booking rt booking_uid
                     "User requested cancellation via chatbot" ;;
                 if negb (success cancel_response) then
                   io_ret ("Error: Could not cancel the booking. "
                           ++ str_of_optional (error cancel_response))
                 else
                   failed <-- io_lift (not_success (data cancel_response)) ;;
                   if (failed : bool) then
                     error_msg <--
                       io_lift (failure_details (data cancel_response)) ;;
                     io_ret ("Error: Could not cancel the booking. API response: "
                             ++ error_msg)
                   else
                     io_lift
                       (try_except_all
                          (start <- py_getitem matching_booking "start" ;;
                           booking_dt_user_tz <-
                             convert_utc_to_user_timezone rt start user_timezone ;;
                           display_time <-
                             format_for_display booking_dt_user_tz
                               user_timezone (FmtEnum FRIENDLY) ;;
                           Ok ("Success! Booking '" ++ py_str booking_title
                               ++ "' scheduled for " ++ display_time ++ " ("
                               ++ user_timezone
                               ++ ") has been cancelled. Booking UID: "
                               ++ py_str booking_uid))
                          (fun _ =>
                             Ok ("Success! Booking '" ++ py_str booking_title
                                 ++ "' has been cancelled. Booking UID: "
                                 ++ py_str booking_uid)))
             else
               booking_list <--
                 io_lift (format_booking_list rt accepted_bookings
                            user_timezone 5) ;;
               io_ret (no_match_message date time user_timezone booking_list)
         | None =>
             booking_list <--
               io_lift (format_booking_list rt accepted_bookings
                          user_timezone 5) ;;
             io_ret (no_match_message date time user_timezone booking_list)
         end
     end)%io.

End Tools.

(** ** The other tools *)

(** [item in container] for a string [item]: a key of a dict, an element
    of a list, a substring of a string. *)
Fixpoint is_prefix (p s : string) : bool :=
  match p, s with
  | EmptyString, _ => true
  | String a p', String b s' => Ascii.eqb a b && is_prefix p' s'
  | String _ _, EmptyString => false
  end.

Fixpoint is_substring (p s : string) : bool :=
  is_prefix p s ||
  match s with
  | String _ s' => is_substring p s'
  | EmptyString => false
  end.

Definition py_contains (container : pyval) (item : string) : result bool :=
  match container with
  | PyDict items =>
      Ok (match dict_get items item with Some _ => true | None => false end)
  | PyList l =>
      Ok (existsb (fun v => match v with
                            | PyStr s => String.eqb s item
                            | _ => false
                            end) l)
  | PyStr s => Ok (is_substring item s)
  | _ => raise TypeError
           ("argument of type '" ++ type_name container ++ "' is not iterable")
  end.

(** [[f(i, x) for i, x in enumerate(l, start)]] *)
Fixpoint map_result_enumerate {A B} (f : Z -> A -> result B) (start : Z)
    (l : list A) : result (list B) :=
  match l with
  | [] => Ok []
  | a :: r =>
      b <- f start a ;;
      bs <- map_result_enumerate f (start + 1) r ;;
      Ok (b :: bs)
  end.

Section MoreTools.

Variable rt : runtime.

(** *** list_bookings *)

(** The body of the formatting loop of [list_bookings] for one booking. *)
Definition list_booking_line (user_timezone : string) (booking : pyval)
  : result string :=
  title <- py_get booking "title" (PyStr "Untitled") ;;
  start <- py_get booking "start" (PyStr "") ;;
  end_ <- py_get booking "end" (PyStr "") ;;
  uid <- py_get booking "uid" (PyStr "No UID") ;;
  try_except_all
    (start_dt_user_tz <- convert_utc_to_user_timezone rt start user_timezone ;;
     end_dt_user_tz <- convert_utc_to_user_timezone rt end_ user_timezone ;;
     start_formatted <-
       format_for_display start_dt_user_tz user_timezone (FmtEnum DATE_TIME) ;;
     end_formatted <-
       format_for_display end_dt_user_tz user_timezone (FmtEnum TIME_ONLY) ;;
     Ok ("- Title: " ++ py_str title ++ ", Start: " ++ start_formatted
         ++ ", End: " ++ end_formatted ++ " (" ++ user_timezone
         ++ "), Booking UID: " ++ py_str uid))
    (fun _ =>
       Ok ("- Title: " ++ py_str title ++ ", Start: " ++ py_str start
           ++ ", End: " ++ py_str end_ ++ ", Booking UID: " ++ py_str uid)).

Definition list_bookings (user_email user_timezone : string) : io string :=
  (fetched <-- _get_upcoming_accepted_bookings rt user_email ;;
   let '(accepted_bookings, error_msg) := fetched in
   if truthy_opt error_msg then io_ret (str_of_optional error_msg)
   else
     match accepted_bookings with
     | None | Some [] =>
         io_ret "No upcoming accepted bookings found for that email."
     | Some accepted_bookings =>
         formatted_bookings <--
           io_lift (map_result (list_booking_line user_timezone)
                      accepted_bookings) ;;
         io_ret ("Upcoming accepted bookings ("
                 ++ Str.of_Z (Z.of_nat (length accepted_bookings))
                 ++ " found) in " ++ user_timezone ++ ":" ++ nl
                 ++ Str.join nl formatted_bookings)
     end)%io.

(** *** get_available_slots *)

(** The body of the formatting loop of [get_available_slots] for the
    [i]-th slot. *)
Definition slot_line (user_timezone : string) (i : Z) (slot : pyval)
  : result string :=
  start <- py_get slot "start" (PyStr "") ;;
  end_ <- py_get slot "end" (PyStr "") ;;
  try_except_all
    (start_dt_user_tz <- convert_utc_to_user_timezone rt start user_timezone ;;
     end_dt_user_tz <- convert_utc_to_user_timezone rt end_ user_timezone ;;
     start_time <-
       format_for_display start_dt_user_tz user_timezone (FmtEnum TIME_ONLY) ;;
     end_time <-
       format_for_display end_dt_user_tz user_timezone (FmtEnum TIME_ONLY) ;;
     Ok (Str.of_Z i ++ ". " ++ start_time ++ " - " ++ end_time ++ " "
         ++ user_timezone))
    (fun _ => Ok (Str.of_Z i ++ ". " ++ py_str start ++ " - " ++ py_str end_)).

Definition no_slots_message (date : string) : string :=
  "No available slots found for " ++ date ++ ".".

Definition get_available_slots (date user_timezone : string) : io string :=
  (if negb (event_type_id_set rt) then
     io_ret "Error: EVENT_TYPE_ID is not configured. Please check your .env file."
   else
     response <--
       client_get_available_slots rt date
         (match event_type_id rt with Some s => s | None => "" end)
         user_timezone ;;
     if negb (success response) then
       io_ret ("Error fetching available slots: "
               ++ str_of_optional (error response))
     else
       failed <-- io_lift (not_success (data response)) ;;
       if (failed : bool) then
         error_msg <-- io_lift (failure_details (data response)) ;;
         io_ret ("Error: API returned failure. Details: " ++ error_msg)
       else
         slots_data <-- io_lift (py_get (data response) "data" (PyDict [])) ;;
         if negb (truthy slots_data) then io_ret (no_slots_message date)
         else
           present <-- io_lift (py_contains slots_data date) ;;
           if negb present then io_ret (no_slots_message date)
           else
             slots <-- io_lift (py_getitem slots_data date) ;;
             if negb (truthy slots) then io_ret (no_slots_message date)
             else
               items <-- io_lift (py_iter slots) ;;
               formatted_slots <--
                 io_lift (map_result_enumerate (slot_line user_timezone) 1
                            items) ;;
               io_ret ("Available slots for " ++ date ++ " (" ++ user_timezone
                       ++ "):" ++ nl ++ Str.join nl formatted_slots))%io.

(** *** reschedule_booking *)

(** The body of the loop that logs the available bookings when none
    matches; only its exceptions matter. *)
Definition debug_available_booking (booking : pyval) : result unit :=
  booking_start <- py_get booking "start" (PyStr "No start time") ;;
  try_except_all
    (booking_dt_utc <- parse_utc_datetime_string booking_start ;;
     booking_formatted <-
       format_for_display booking_dt_utc "UTC" (FmtEnum DATE_TIME) ;;
     title <- py_get booking "title" (PyStr "No title") ;;
     Ok tt)
    (fun _ =>
       title <- py_get booking "title" (PyStr "No title") ;;
       Ok tt).

(** The conversion of the new start time, with the values the debug log
    computes from it. *)
Definition convert_new_time (new_start_time_iso user_timezone : string)
  : result string :=
  new_utc_time <-
    convert_iso_to_utc_api_format rt new_start_time_iso user_timezone ;;
  new_dt_parsed <- parse_utc_datetime_string (PyStr new_utc_time) ;;
  shown <- convert_utc_to_user_timezone rt (PyStr new_utc_time) user_timezone ;;
  Ok new_utc_time.

Definition reschedule_payload (new_utc_time user_email : string) : pyval :=
  PyDict [("start", PyStr new_utc_time);
          ("rescheduledBy", PyStr user_email);
          ("reschedulingReason", PyStr "User requested reschedule via chatbot")].

Definition reschedule_booking
    (user_email current_date current_time new_start_time_iso
       user_timezone : string) : io string :=
  (fetched <-- _get_upcoming_accepted_bookings rt user_email ;;
   let '(accepted_bookings, error_msg) := fetched in
   if truthy_opt error_msg then
     io_ret ("Error: Could not retrieve bookings. " ++ str_of_optional error_msg)
   else
     match accepted_bookings with
     | None | Some [] =>
         io_ret "No upcoming accepted bookings found for that email."
     | Some accepted_bookings =>
         match
           (current_dt_utc <-
              convert_user_time_to_utc rt current_date current_time
                user_timezone ;;
            format_for_display current_dt_utc "UTC" (FmtEnum DATE_TIME))
         with
         | Raise e =>
             io_ret ("Error: Invalid current date/time format. " ++ exn_msg e)
         | Ok _ =>
             let no_match :=
               (logged <--
                  io_lift (map_result debug_available_booking
                             (firstn 5 accepted_bookings)) ;;
                booking_list <--
                  io_lift (format_booking_list rt accepted_bookings
                             user_timezone 5) ;;
                io_ret (no_match_message current_date current_time
                          user_timezone booking_list)) in
             match find_booking_by_time rt accepted_bookings current_date
                     current_time user_timezone with
             | None => no_match
             | Some matching_booking =>
                 if negb (truthy matching_booking) then no_match
                 else
                   match convert_new_time new_start_time_iso user_timezone with
                   | Raise e =>
                       if isinstance e [ValueError] then io_ret (exn_msg e)
                       else io_raise e
                   | Ok new_utc_time =>
                       booking_uid <--
                         io_lift (py_get matching_booking "uid" PyNone) ;;
                       booking_title <--
                         io_lift (py_get matching_booking "title"
                                    (PyStr "Untitled")) ;;
                       if negb (truthy booking_uid) then
                         io_ret "Error: Booking UID not found in booking data."
                       else
                         logged <--
                           io_lift (py_get matching_booking "start"
                                      (PyStr "Unknown")) ;;
                         reschedule_response <--
                           client_reschedule_booking rt booking_uid
                             (reschedule_payload new_utc_time user_email) ;;
                         if negb (success reschedule_response) then
                           io_ret ("Error: Could not reschedule the booking. "
                                   ++ str_of_optional
                                        (error reschedule_response))
                         else
                           failed <--
                             io_lift (not_success (data reschedule_response)) ;;
                           if (failed : bool) then
                             error_msg <--
                               io_lift (failure_details
                                          (data reschedule_response)) ;;
                             io_ret ("Error: Reschedule failed. API response: "
                                     ++ error_msg)
                           else
                             io_lift
                               (try_except_all
                                  (old_start <-
                                     py_getitem matching_booking "start" ;;
                                   old_booking_dt_user_tz <-
                                     convert_utc_to_user_timezone rt old_start
                                       user_timezone ;;
                                   old_display_time <-
                                     format_for_display old_booking_dt_user_tz
                                       user_timezone (FmtEnum FRIENDLY) ;;
                                   new_booking_dt_user_tz <-
                                     convert_utc_to_user_timezone rt
                                       (PyStr new_start_time_iso)
                                       user_timezone ;;
                                   new_display_time <-
                                     format_for_display new_booking_dt_user_tz
                                       user_timezone (FmtEnum FRIENDLY) ;;
                                   Ok ("✅ Successfully rescheduled '"
                                       ++ py_str booking_title ++ "'!" ++ nl
                                       ++ "From: " ++ old_display_time ++ " ("
                                       ++ user_timezone ++ ")" ++ nl
                                       ++ "To: " ++ new_display_time ++ " ("
                                       ++ user_timezone ++ ")" ++ nl
                                       ++ "Booking UID: "
                                       ++ py_str booking_uid))
                                  (fun _ =>
                                     Ok ("✅ Successfully rescheduled '"
                                         ++ py_str booking_title
                                         ++ "'! Booking UID: "
                                         ++ py_str booking_uid)))
                   end
             end
         end
     end)%io.

End MoreTools.

(** ** class CalApiConfig: construction

    [os.getenv] reads the environment, a partial map from names to
    strings. *)

Record CalApiConfig := mkconfig {
  cfg_api_key : option string;
  cfg_base_url : string;
  cfg_event_type_id : option string;
  cfg_user_email : option string
}.

Definition DEFAULT_BASE_URL : string := "https://api.cal.com/v2".

Definition getenv (env : string -> option string) (name : string)
    (default : string) : string :=
  match env name with
  | Some v => v
  | None => default
  end.

Definition _validate_config (self : CalApiConfig) : result unit :=
  if negb (truthy_opt (cfg_api_key self)) then
    raise ValueError "CAL_API_KEY environment variable is required"
  else Ok tt.

Definition CalApiConfig_init (env : string -> option string)
  : result CalApiConfig :=
  let self :=
    mkconfig (env "CAL_API_KEY")
             (getenv env "CAL_BASE_URL" DEFAULT_BASE_URL)
             (env "CAL_EVENT_TYPE_ID")
             (env "USER_EMAIL") in
  _ <- _validate_config self ;;
  Ok self.

Definition is_configured (self : CalApiConfig) : bool :=
  truthy_opt (cfg_api_key self) && truthy_opt (cfg_event_type_id self).

(* ================================================================== *)
(** * A concrete runtime *)
(* ================================================================== *)

(** An excerpt of the zone database, a server whose local zone is UTC, and
    a remote service that serves one stored payload for every request.
    [America/New_York] keeps its first entry (local mean time), the switch
    to standard time of 1883 and the transitions of 2024 to 2026; the
    entries in between are left out. *)

Module Sample.

Definition utc_wall (year month day hour minute : Z) : Z :=
  (Calendar.ymd2ord year month day - 1) * US_PER_DAY
  + hour * US_PER_HOUR + minute * US_PER_MINUTE.

Definition LMT : tzentry := mkentry (-17762 * US_PER_SECOND) 0 "LMT".
Definition EST : tzentry := mkentry (-18000 * US_PER_SECOND) 0 "EST".
Definition EDT : tzentry :=
  mkentry (-14400 * US_PER_SECOND) (3600 * US_PER_SECOND) "EDT".

Definition America_New_York : zone :=
  DstTzInfo LMT
    [(utc_wall 1883 11 18 17 0, EST);
     (utc_wall 2024 3 10 7 0, EDT);
     (utc_wall 2024 11 3 6 0, EST);
     (utc_wall 2025 3 9 7 0, EDT);
     (utc_wall 2025 11 2 6 0, EST);
     (utc_wall 2026 3 8 7 0, EDT);
     (utc_wall 2026 11 1 6 0, EST)].

(** [Etc/GMT+5]: five hours behind UTC all year. *)
Definition Etc_GMT_plus_5 : zone :=
  StaticTzInfo (mkentry (-18000 * US_PER_SECOND) 0 "-05").

Definition zones (name : string) : option zone :=
  if String.eqb name "America/New_York" then Some America_New_York
  else if String.eqb name "Etc/GMT+5" then Some Etc_GMT_plus_5
  else None.

(** A runtime whose clock reads 2025-07-01T00:00:00Z and whose remote
    service answers every request with status 200 and the body [body]. *)
Definition runtime_serving (body : result pyval) : runtime :=
  mkrt zones (fun _ => Ok 0) (utc_wall 2025 7 1 0 0)
       (fun _ _ => Response 200 "" body)
       "cal_test_key" "https://api.cal.com/v2" (Some "12345").

Definition rt0 : runtime := runtime_serving (Ok (PyDict [])).

(** A bookings payload as the API returns it. *)
Definition bookings_payload (bookings : list pyval) : pyval :=
  PyDict [("status", PyStr "success"); ("data", PyList bookings)].

Definition booking (uid : option string) (title status start : string)
  : pyval :=
  PyDict ((match uid with
           | Some u => [("uid", PyStr u)]
           | None => []
           end)
          ++ [("title", PyStr title); ("status", PyStr status);
              ("start", PyStr start)])%list.

(** The aware value for a UTC date and time. *)
Definition at_utc (year month day hour minute second microsecond : Z)
  : datetime :=
  mkdt (utc_wall year month day hour minute
        + second * US_PER_SECOND + microsecond) (Some 0).

(** Three accepted bookings a minute apart; the second starts 347 ms into
    its minute. *)
Definition early : pyval :=
  booking (Some "1") "Early" "accepted" "2025-07-24T17:59:00.000Z".
Definition hit : pyval :=
  booking (Some "2") "Hit" "accepted" "2025-07-24T18:00:00.347Z".
Definition late : pyval :=
  booking (Some "3") "Late" "accepted" "2025-07-24T18:01:00.000Z".

End Sample.

(* ================================================================== *)
(** * Vocabulary of the properties *)
(* ================================================================== *)

(** A booking as the data model has it: a dict whose [status] and [start],
    when present, are strings. *)
Definition str_or_absent (b : pyval) (key : string) : bool :=
  match b with
  | PyDict items =>
      match dict_get items key with
      | None | Some (PyStr _) => true
      | Some _ => false
      end
  | _ => false
  end.

Definition well_formed_booking (b : pyval) : bool :=
  str_or_absent b "status" && str_or_absent b "start".

(** The status of the booking, lower-cased, is ["accepted"]. *)
Definition accepted (b : pyval) : bool :=
  match py_get b "status" (PyStr "") with
  | Ok (PyStr s) => String.eqb (Str.lower s) "accepted"
  | _ => false
  end.

(** The non-empty start string of a booking. *)
Definition start_string (b : pyval) : option string :=
  match py_get b "start" (PyStr "") with
  | Ok (PyStr s) => if String.eqb s "" then None else Some s
  | _ => None
  end.

(** The start of a booking, when its start string parses. *)
Definition parsed_start (b : pyval) : option datetime :=
  match start_string b with
  | Some s =>
      match parse_utc_datetime_string (PyStr s) with
      | Ok d => Some d
      | Raise _ => None
      end
  | None => None
  end.

(** The UTC instant an aware value denotes, in microseconds. *)
Definition utc_instant (d : datetime) : option Z :=
  match tzinfo d with
  | Some off => Some (wall d - off)
  | None => None
  end.

(** The minute an instant falls in. *)
Definition minute_of (instant : Z) : Z := instant / US_PER_MINUTE.

(** The UTC offset is a whole number of minutes. *)
Definition whole_minute_offset (d : datetime) : bool :=
  match tzinfo d with
  | Some off => off mod US_PER_MINUTE =? 0
  | None => false
  end.

(** The booking has no usable [uid]: the key is absent or its value is
    falsy. *)
Definition missing_uid (b : pyval) : bool :=
  match py_get b "uid" PyNone with
  | Ok v => negb (truthy v)
  | Raise _ => false
  end.

(** The request by which [get_bookings] fetches the bookings of an
    attendee. *)
Definition bookings_request (rt : runtime) (user_email : string) : request :=
  mkreq "GET" (base_url rt ++ "/bookings") (get_headers rt None)
        [("attendeeEmail", user_email)] None.

(** What [_get_upcoming_accepted_bookings] keeps, in the words of its
    comments: an accepted booking with a start string that either cannot be
    read as an instant to compare with the clock (it does not parse, or it
    parses without an offset) or lies strictly after the clock. *)
Definition kept_as_upcoming (rt : runtime) (b : pyval) : bool :=
  accepted b &&
  match start_string b with
  | None => false
  | Some s =>
      match parse_utc_datetime_string (PyStr s) with
      | Raise _ => true
      | Ok d =>
          match utc_instant d with
          | None => true
          | Some t => clock rt <? t
          end
      end
  end.

(** [pytz] finds an offset of the zone under which the clock reading [dt]
    exists: the reading is not one skipped by a transition. *)
Definition exists_in_zone (z : zone) (dt : datetime) : bool :=
  match z with
  | DstTzInfo first transitions =>
      match localize_candidate first transitions dt (td_days (-1)),
            localize_candidate first transitions dt (td_days 1) with
      | Ok c1, Ok c2 =>
          match possible_loc_dt c1 c2 with
          | [] => false
          | _ => true
          end
      | _, _ => false
      end
  | _ => true
  end.

(** [fits first transitions w e]: the entry [e] is the one in force at the
    UTC time whose reading under [e] is [w]. *)
Definition fits (first : tzentry) (transitions : list (Z * tzentry))
    (w : Z) (e : tzentry) : Prop :=
  info_at first transitions (w - utcoffset e) = e /\
  0 <= w - utcoffset e < MAX_WALL.

(** The UTC offset of a zone at a UTC time. *)
Definition zone_offset_at (z : zone) (t : Z) : Z :=
  match z with
  | ZoneUTC => 0
  | StaticTzInfo e => utcoffset e
  | DstTzInfo first transitions => utcoffset (info_at first transitions t)
  end.

(** Every offset of the zone lies within a day. *)
Definition entry_bounded (e : tzentry) : bool :=
  (- US_PER_DAY <=? utcoffset e) && (utcoffset e <=? US_PER_DAY).

Definition zone_bounded (z : zone) : bool :=
  match z with
  | ZoneUTC => true
  | StaticTzInfo e => entry_bounded e
  | DstTzInfo first transitions =>
      entry_bounded first && forallb (fun te => entry_bounded (snd te)) transitions
  end.

(** The clock reading lies two days inside [datetime.min .. datetime.max]. *)
Definition inside_range (dt : datetime) : bool :=
  (2 * US_PER_DAY <=? wall dt) && (wall dt <? MAX_WALL - 2 * US_PER_DAY).

(** The envelope of an [ApiResponse]. *)
Definition envelope (r : ApiResponse) : Prop :=
  (success r = true -> error r = None /\ status_code r <> None) /\
  (success r = false -> error r <> None /\ data r = PyNone).

(** ** Vocabulary of the further properties *)

(** The test of [find_booking_by_time] on one booking: accepted, with a
    start that parses and equals the target once both are truncated to the
    minute. *)
Definition matches (target : datetime) (b : pyval) : bool :=
  accepted b &&
  match parsed_start b with
  | Some d =>
      dt_eq (replace_second0_microsecond0 d)
            (replace_second0_microsecond0 target)
  | None => false
  end.

(** The booking has a truthy [start]. *)
Definition start_truthy (b : pyval) : bool :=
  match py_get b "start" (PyStr "") with
  | Ok v => truthy v
  | Raise _ => false
  end.

Definition is_dict (v : pyval) : bool :=
  match v with
  | PyDict _ => true
  | _ => false
  end.

(** The requests the tools send. *)
Definition cancel_request (rt : runtime) (uid : pyval) : request :=
  mkreq "POST" (base_url rt ++ "/bookings/" ++ py_str uid ++ "/cancel")
        (get_headers rt None) []
        (Some (PyDict [("cancellationReason",
                        PyStr "User requested cancellation via chatbot")])).

Definition reschedule_request (rt : runtime) (uid : pyval) (payload : pyval)
  : request :=
  mkreq "POST" (base_url rt ++ "/bookings/" ++ py_str uid ++ "/reschedule")
        (get_headers rt None) [] (Some payload).

Definition create_request (rt : runtime) (payload : pyval) : request :=
  mkreq "POST" (base_url rt ++ "/bookings") (get_headers rt None) []
        (Some payload).

Definition create_payload (utc_time user_name user_email user_timezone : string)
    (event_type : Z) : pyval :=
  PyDict [("start", PyStr utc_time);
          ("attendee",
           PyDict [("name", PyStr user_name);
                   ("email", PyStr user_email);
                   ("timeZone", PyStr user_timezone)]);
          ("eventTypeId", PyInt event_type)].

(** The availability query: the slots version of the API and the whole
    UTC day. *)
Definition slots_request (rt : runtime) (date user_timezone : string)
  : request :=
  mkreq "GET" (base_url rt ++ "/slots")
        [("Authorization", "Bearer " ++ api_key rt);
         ("Content-Type", "application/json");
         ("cal-api-version", "2024-09-04")]
        [("eventTypeId",
          match event_type_id rt with Some s => s | None => "" end);
         ("start", date ++ "T00:00:00Z");
         ("end", date ++ "T23:59:59Z");
         ("format", "range");
         ("timeZone", user_timezone)]
        None.

(** Lines numbered from [start]: ["<i>. <text>"]. *)
Fixpoint numbered (start : Z) (texts : list string) : list string :=
  match texts with
  | [] => []
  | t :: r => (Str.of_Z start ++ ". " ++ t) :: numbered (start + 1) r
  end.

(** The header of [list_bookings]. *)
Definition bookings_header (count : nat) (user_timezone : string) : string :=
  "Upcoming accepted bookings (" ++ Str.of_Z (Z.of_nat count) ++ " found) in "
  ++ user_timezone ++ ":".

(** The message of the [ValueError] the write path raises. *)
Definition invalid_start_time (start_time_iso : string) : string :=
  "Invalid start time format '" ++ start_time_iso
  ++ "'. Please use ISO 8601 format.".

(** A computation that issues no request. *)
Definition quiet {A} (m : io A) : Prop := forall log, snd (m log) = log.

(** The remote service confirms the request [req], issued after the
    requests [log]: it answers below status 400 with a dict whose [status]
    is ["success"]. *)
Definition confirmed_by_api (rt : runtime) (log : list request)
    (req : request) : Prop :=
  exists code text items,
    remote rt log req = Response code text (Ok (PyDict items)) /\
    code < 400 /\
    dict_get items "status" = Some (PyStr "success").

(** Further concrete runtimes and payloads. *)
Module Scenario.

(** A remote service that answers every request with the given status,
    text and body. *)
Definition runtime_answering (code : Z) (text : string) (body : result pyval)
  : runtime :=
  mkrt Sample.zones (fun _ => Ok 0) (Sample.utc_wall 2025 7 1 0 0)
       (fun _ _ => Response code text body)
       "cal_test_key" "https://api.cal.com/v2" (Some "12345").

(** The runtime of [Sample.runtime_serving] without an event type. *)
Definition runtime_unconfigured : runtime :=
  mkrt Sample.zones (fun _ => Ok 0) (Sample.utc_wall 2025 7 1 0 0)
       (fun _ _ => Response 200 "" (Ok (PyDict [])))
       "cal_test_key" "https://api.cal.com/v2" None.

(** A second booking in the minute of [Sample.hit]. *)
Definition twin : pyval :=
  Sample.booking (Some "4") "Twin" "accepted" "2025-07-24T18:00:59.999Z".

(** A booking that starts thirty seconds after the clock of the sample
    runtimes. *)
Definition imminent : pyval :=
  Sample.booking (Some "5") "Imminent" "accepted" "2025-07-01T00:00:30.000Z".

Definition slot (start end_ : string) : pyval :=
  PyDict [("start", PyStr start); ("end", PyStr end_)].

Definition slots_payload (date : string) (slots : list pyval) : pyval :=
  PyDict [("status", PyStr "success");
          ("data", PyDict [(date, PyList slots)])].

End Scenario.

(* ================================================================== *)
(** * Properties *)
(* ================================================================== *)

(** ** Basic facts about the monads *)

Lemma bind_Ok {A B} (m : result A) (k : A -> result B) (b : B) :
  bind m k = Ok b -> exists a, m = Ok a /\ k a = Ok b.
Proof.
  destruct m as [a|e]; simpl; intros H; [eauto | discriminate].
Qed.

Lemma try_except_Ok {A} (body : result A) cs handler (a : A) :
  try_except body cs handler = Ok a ->
  body = Ok a \/
  exists e, body = Raise e /\ isinstance e cs = true /\ handler e = Ok a.
Proof.
  destruct body as [x|e]; simpl; intros H.
  - left; congruence.
  - destruct (isinstance e cs) eqn:E; [right; eauto | discriminate].
Qed.

(** ** DateTimeFormatter *)

(** C10. The string [format_for_display] returns does not depend on its
    [user_timezone] argument: two calls with the same datetime and format
    kind and different timezone names return the same string. *)
Theorem format_for_display_ignores_timezone :
  forall (dt : datetime) (tz1 tz2 : string) (format_type : format_arg),
    format_for_display dt tz1 format_type
    = format_for_display dt tz2 format_type.
Proof.
  intros dt tz1 tz2 format_type.
  unfold format_for_display.
  reflexivity.
Qed.

(** ** What the library parsers can raise *)

(** [fails_with c m]: if [m] raises, the exception is of class [c]. *)
Definition fails_with {A} (c : exn_class) (m : result A) : Prop :=
  forall e, m = Raise e -> exn_cls e = c.

Lemma fails_with_Ok {A} c (a : A) : fails_with c (Ok a).
Proof. intros e H; discriminate. Qed.

Lemma fails_with_raise {A} c msg : fails_with c (@raise A c msg).
Proof. intros e H; inversion H; reflexivity. Qed.

Lemma fails_with_bind {A B} c (m : result A) (k : A -> result B) :
  fails_with c m -> (forall a, fails_with c (k a)) -> fails_with c (bind m k).
Proof.
  intros Hm Hk e H. destruct m as [a|e']; simpl in H.
  - exact (Hk a e H).
  - apply Hm. inversion H. reflexivity.
Qed.

Lemma fails_with_if {A} c (b : bool) (x y : result A) :
  fails_with c x -> fails_with c y -> fails_with c (if b then x else y).
Proof. destruct b; auto. Qed.

Create HintDb raises.
#[local] Hint Resolve fails_with_Ok fails_with_raise : raises.

Ltac raises_step :=
  first
    [ apply fails_with_Ok
    | apply fails_with_raise
    | apply fails_with_bind; [| intros ?]
    | apply fails_with_if
    | match goal with
      | |- fails_with _ (match ?x with _ => _ end) => destruct x
      | |- fails_with _ (let '(_, _) := ?x in _) => destruct x
      end ].

Lemma fixed_digits_raises pos n s : fails_with ValueError (fixed_digits pos n s).
Proof. unfold fixed_digits, invalid_isoformat. repeat raises_step. Qed.

Lemma find_separator_raises s :
  fails_with ValueError (find_isoformat_datetime_separator s).
Proof.
  unfold find_isoformat_datetime_separator, invalid_isoformat.
  repeat raises_step.
Qed.

Lemma isoweek_to_gregorian_raises y w d :
  fails_with ValueError (Calendar.isoweek_to_gregorian y w d).
Proof. unfold Calendar.isoweek_to_gregorian. repeat raises_step. Qed.

Lemma parse_isoformat_date_raises s :
  fails_with ValueError (parse_isoformat_date s).
Proof.
  unfold parse_isoformat_date, invalid_isoformat.
  repeat first
    [ apply fixed_digits_raises | apply isoweek_to_gregorian_raises
    | raises_step ].
Qed.

Lemma timezone_raises off : fails_with ValueError (timezone off).
Proof. unfold timezone. repeat raises_step. Qed.

Lemma parse_isoformat_time_raises s :
  fails_with ValueError (parse_isoformat_time s).
Proof.
  unfold parse_isoformat_time, invalid_isoformat.
  repeat first [ apply timezone_raises | raises_step ].
Qed.

Lemma dt_new_raises y m d hh mm ss us tz :
  fails_with ValueError (dt_new y m d hh mm ss us tz).
Proof. unfold dt_new. repeat raises_step. Qed.

Lemma fromisoformat_raises s : fails_with ValueError (fromisoformat s).
Proof.
  unfold fromisoformat, invalid_isoformat.
  repeat first
    [ apply find_separator_raises | apply parse_isoformat_date_raises
    | apply parse_isoformat_time_raises | apply dt_new_raises
    | raises_step ].
Qed.

Lemma parse_utc_datetime_string_str s :
  fails_with ValueError (parse_utc_datetime_string (PyStr s)).
Proof.
  intros e. unfold parse_utc_datetime_string, py_replace_Z. cbn [bind].
  destruct (fromisoformat _) as [d|e'] eqn:E; cbn [try_except].
  - discriminate.
  - destruct (isinstance e' [ValueError]).
    + intros H; inversion H; reflexivity.
    + intros H; inversion H; subst. exact (fromisoformat_raises _ _ E).
Qed.

Lemma parse_utc_datetime_string_Ok v d :
  parse_utc_datetime_string v = Ok d -> exists s, v = PyStr s.
Proof.
  intros H. destruct v as [|b|z|s|l|items].
  4: eauto.
  all: cbn in H; discriminate.
Qed.

(** ** BookingMatcher.find_booking_by_time *)

(** When the loop body returns a booking, it is the booking at hand: it is
    accepted, its start string parses, and the truncated start equals the
    truncated target. *)
Lemma match_booking_Some target b b' :
  match_booking target b = Ok (Some b') ->
  b' = b /\ accepted b = true /\
  exists s bdt,
    start_string b = Some s /\
    parse_utc_datetime_string (PyStr s) = Ok bdt /\
    dt_eq (replace_second0_microsecond0 bdt)
          (replace_second0_microsecond0 target) = true.
Proof.
  unfold match_booking, accepted, start_string.
  destruct (py_get b "status" (PyStr "")) as [st|] eqn:Hst;
    cbn [bind]; [|discriminate].
  destruct st; cbn [py_lower no_attribute raise bind]; try discriminate.
  cbn [BookingStatus_value].
  destruct (String.eqb (Str.lower s) "accepted") eqn:Hacc;
    cbn [negb]; [|discriminate].
  destruct (py_get b "start" (PyStr "")) as [bs|] eqn:Hbs;
    cbn [bind]; [|discriminate].
  destruct (truthy bs) eqn:Htr; cbn [negb]; [|discriminate].
  intros H. apply try_except_Ok in H.
  destruct H as [H | (e & _ & _ & Hh)]; [|discriminate Hh].
  apply bind_Ok in H. destruct H as (bdt & Hp & H).
  destruct (dt_eq _ _) eqn:Heq; inversion H; subst b'.
  destruct (parse_utc_datetime_string_Ok _ _ Hp) as (s0 & ->).
  cbn [truthy] in Htr. apply negb_true_iff in Htr. rewrite Htr.
  repeat split; eauto.
Qed.

Lemma scan_bookings_Some target bookings b :
  scan_bookings target bookings = Ok (Some b) ->
  In b bookings /\ match_booking target b = Ok (Some b).
Proof.
  induction bookings as [|a rest IH]; cbn [scan_bookings]; [discriminate|].
  destruct (match_booking target a) as [[x|]|] eqn:E; cbn [bind].
  - intros H; inversion H; subst x.
    destruct (match_booking_Some _ _ _ E) as (-> & _).
    split; [left; reflexivity | exact E].
  - intros H. destruct (IH H) as (Hin & Hm). split; [right|]; assumption.
  - discriminate.
Qed.

Lemma find_booking_by_time_Some rt bookings d t tz b :
  find_booking_by_time rt bookings d t tz = Some b ->
  exists target,
    convert_user_time_to_utc rt d t tz = Ok target /\
    scan_bookings target bookings = Ok (Some b).
Proof.
  unfold find_booking_by_time.
  destruct (convert_user_time_to_utc rt d t tz) as [target|]; cbn [bind].
  - destruct (scan_bookings target bookings) as [found|] eqn:E;
      [|discriminate].
    intros ->. eauto.
  - discriminate.
Qed.

(** C7. [find_booking_by_time] never returns a booking whose status,
    compared case-insensitively, is not "accepted", whatever the start
    times are. *)
Theorem find_booking_by_time_only_accepted :
  forall rt bookings target_date target_time user_timezone b,
    find_booking_by_time rt bookings target_date target_time user_timezone
    = Some b ->
    exists status,
      py_get b "status" (PyStr "") = Ok (PyStr status) /\
      Str.lower status = BookingStatus_value ACCEPTED.
Proof.
  intros rt bookings d t tz b H.
  destruct (find_booking_by_time_Some _ _ _ _ _ _ H) as (target & _ & Hs).
  destruct (scan_bookings_Some _ _ _ Hs) as (_ & Hm).
  destruct (match_booking_Some _ _ _ Hm) as (_ & Hacc & _).
  unfold accepted in Hacc.
  destruct (py_get b "status" (PyStr "")) as [[| | |s| |]|]; try discriminate.
  exists s. split; [reflexivity|].
  apply String.eqb_eq. exact Hacc.
Qed.

Lemma find_booking_by_time_only_accepted_witness :
  exists status,
    py_get (Sample.booking (Some "123") "Test Meeting" "Accepted"
              "2025-07-24T18:00:00.000Z")
           "status" (PyStr "") = Ok (PyStr status) /\
    Str.lower status = BookingStatus_value ACCEPTED.
Proof.
  apply (find_booking_by_time_only_accepted Sample.rt0
           [Sample.booking (Some "9") "Other" "pending"
              "2025-07-24T18:00:00.000Z";
            Sample.booking (Some "123") "Test Meeting" "Accepted"
              "2025-07-24T18:00:00.000Z"]
           "2025-07-24" "14:00" "America/New_York").
  vm_compute. reflexivity.
Defined.

(** The target of a query is an aware value at offset zero. *)
Lemma convert_user_time_to_utc_aware rt d t tz target :
  convert_user_time_to_utc rt d t tz = Ok target -> tzinfo target = Some 0.
Proof.
  unfold convert_user_time_to_utc. intros H.
  apply try_except_Ok in H. destruct H as [H | (e & _ & _ & H)].
  - apply bind_Ok in H. destruct H as (target_dt & _ & H).
    destruct (String.eqb tz "UTC").
    + inversion H; reflexivity.
    + apply bind_Ok in H. destruct H as (user_tz & _ & H).
      apply bind_Ok in H. destruct H as (with_tz & _ & H).
      unfold astimezone in H.
      apply bind_Ok in H. destruct H as (myoffset & _ & H).
      apply bind_Ok in H. destruct H as (utc & _ & H).
      inversion H; reflexivity.
  - inversion H; reflexivity.
Qed.

Lemma floor_minute_shift wb off wq :
  off mod 60000000 = 0 ->
  (wb - off) / 60000000 = wq / 60000000 ->
  wb - wb mod 60000000 - off = wq - wq mod 60000000 - 0.
Proof.
  intros H1 H2. Z.to_euclidean_division_equations. lia.
Qed.

Lemma floor_minute_apart wb off wq :
  off mod 60000000 = 0 ->
  wb - off = wq - 60000000 \/ wb - off = wq + 60000000 ->
  wb - wb mod 60000000 - off <> wq - wq mod 60000000 - 0.
Proof.
  intros H1 H2. Z.to_euclidean_division_equations. lia.
Qed.

(** The loop body returns a booking that is accepted and starts in the
    minute of the target. *)
Lemma match_booking_hit target b start :
  tzinfo target = Some 0 ->
  accepted b = true ->
  parsed_start b = Some start ->
  whole_minute_offset start = true ->
  option_map minute_of (utc_instant start)
  = option_map minute_of (utc_instant target) ->
  match_booking target b = Ok (Some b).
Proof.
  unfold accepted, parsed_start, start_string, whole_minute_offset,
    utc_instant, match_booking.
  intros Htz Hacc Hps Hoff Hmin.
  destruct (py_get b "status" (PyStr "")) as [[| | |st| |]|]; try discriminate.
  cbn [py_lower bind BookingStatus_value]. rewrite Hacc. cbn [negb].
  destruct (py_get b "start" (PyStr "")) as [[| | |s| |]|]; try discriminate.
  cbn [bind truthy].
  destruct (String.eqb s "") eqn:Hs; [discriminate|]. cbn [negb].
  destruct (parse_utc_datetime_string (PyStr s)) as [bdt|] eqn:Hp;
    [|discriminate].
  inversion Hps; subst bdt. cbn [bind].
  unfold dt_eq, replace_second0_microsecond0. cbn [tzinfo wall].
  rewrite Htz in *. destruct (tzinfo start) as [off|]; [|discriminate].
  apply Z.eqb_eq in Hoff. cbn [option_map] in Hmin.
  inversion Hmin as [Hm]. unfold minute_of, US_PER_MINUTE in *.
  rewrite Z.sub_0_r in Hm.
  rewrite (floor_minute_shift _ _ _ Hoff Hm), Z.eqb_refl.
  reflexivity.
Qed.

(** A well-formed booking yields strings for [status] and [start]. *)
Lemma well_formed_booking_fields b :
  well_formed_booking b = true ->
  exists st s,
    py_get b "status" (PyStr "") = Ok (PyStr st) /\
    py_get b "start" (PyStr "") = Ok (PyStr s).
Proof.
  unfold well_formed_booking, str_or_absent.
  destruct b as [| | | | |items]; try discriminate.
  cbn [py_get]. intros H. apply andb_true_iff in H. destruct H as [Hst Hs].
  destruct (dict_get items "status") as [[| | |st| |]|]; try discriminate;
    destruct (dict_get items "start") as [[| | |s| |]|]; try discriminate;
    eauto.
Qed.

(** On a well-formed booking the loop body does not raise. *)
Lemma match_booking_well_formed target b :
  well_formed_booking b = true ->
  exists r, match_booking target b = Ok r.
Proof.
  intros H. destruct (well_formed_booking_fields b H) as (st & s & Hst & Hs).
  unfold match_booking. rewrite Hst. cbn [py_lower bind BookingStatus_value].
  destruct (String.eqb (Str.lower st) "accepted"); cbn [negb]; [|eauto].
  rewrite Hs. cbn [bind truthy].
  destruct (String.eqb s ""); cbn [negb]; [eauto|].
  destruct (parse_utc_datetime_string (PyStr s)) as [bdt|e] eqn:Hp;
    cbn [bind]; cbv zeta.
  - destruct (dt_eq _ _); cbn [try_except]; eauto.
  - cbn [try_except]. unfold isinstance. cbn [existsb].
    rewrite (parse_utc_datetime_string_str _ _ Hp). cbn. eauto.
Qed.

Lemma scan_bookings_finds target bookings b :
  Forall (fun x => well_formed_booking x = true) bookings ->
  In b bookings ->
  match_booking target b = Ok (Some b) ->
  exists found, scan_bookings target bookings = Ok (Some found).
Proof.
  induction 1 as [|a rest Ha _ IH]; intros Hin Hm; [contradiction|].
  cbn [scan_bookings].
  destruct (match_booking_well_formed target a Ha) as ([x|] & E);
    rewrite E; cbn [bind].
  - eauto.
  - destruct Hin as [-> | Hin]; [congruence | auto].
Qed.

(** C1. [find_booking_by_time] compares the parsed start of a booking and
    the UTC equivalent of the query after truncating both to the minute.
    Among well-formed bookings, an accepted booking whose start lies in the
    same minute as the query (it differs in seconds and below only) makes
    the search return a booking whose truncated start equals the truncated
    target; a booking whose start is one minute earlier or later than the
    query is never returned. *)
Theorem find_booking_by_time_minute_precision :
  forall rt bookings target_date target_time user_timezone target,
    convert_user_time_to_utc rt target_date target_time user_timezone
    = Ok target ->
    Forall (fun b => well_formed_booking b = true) bookings ->
    (forall b start,
        In b bookings ->
        accepted b = true ->
        parsed_start b = Some start ->
        whole_minute_offset start = true ->
        option_map minute_of (utc_instant start)
        = option_map minute_of (utc_instant target) ->
        exists found fstart,
          find_booking_by_time rt bookings target_date target_time
            user_timezone = Some found /\
          In found bookings /\
          parsed_start found = Some fstart /\
          dt_eq (replace_second0_microsecond0 fstart)
                (replace_second0_microsecond0 target) = true)
    /\
    (forall b start t_start t_target,
        parsed_start b = Some start ->
        whole_minute_offset start = true ->
        utc_instant start = Some t_start ->
        utc_instant target = Some t_target ->
        t_start = t_target - US_PER_MINUTE
        \/ t_start = t_target + US_PER_MINUTE ->
        find_booking_by_time rt bookings target_date target_time
          user_timezone <> Some b).
Proof.
  intros rt bookings d t tz target Hconv Hwf.
  pose proof (convert_user_time_to_utc_aware _ _ _ _ _ Hconv) as Htz.
  split.
  - intros b start Hin Hacc Hps Hoff Hmin.
    pose proof (match_booking_hit _ _ _ Htz Hacc Hps Hoff Hmin) as Hm.
    destruct (scan_bookings_finds _ _ _ Hwf Hin Hm) as (found & Hscan).
    destruct (scan_bookings_Some _ _ _ Hscan) as (Hfin & Hfm).
    destruct (match_booking_Some _ _ _ Hfm)
      as (_ & _ & s & fstart & Hss & Hp & Heq).
    exists found, fstart.
    unfold find_booking_by_time. rewrite Hconv. cbn [bind]. rewrite Hscan.
    repeat split; try assumption.
    unfold parsed_start. rewrite Hss, Hp. reflexivity.
  - intros b start t_start t_target Hps Hoff Hts Htt Hapart Hfind.
    destruct (find_booking_by_time_Some _ _ _ _ _ _ Hfind)
      as (target' & Hconv' & Hscan).
    rewrite Hconv in Hconv'. inversion Hconv'; subst target'.
    destruct (scan_bookings_Some _ _ _ Hscan) as (_ & Hm).
    destruct (match_booking_Some _ _ _ Hm)
      as (_ & _ & s & bdt & Hss & Hp & Heq).
    unfold parsed_start in Hps. rewrite Hss, Hp in Hps.
    inversion Hps; subst bdt.
    unfold whole_minute_offset, utc_instant in *.
    unfold dt_eq, replace_second0_microsecond0 in Heq. cbn [tzinfo wall] in Heq.
    rewrite Htz in *. destruct (tzinfo start) as [off|]; [|discriminate].
    apply Z.eqb_eq in Hoff, Heq.
    inversion Hts; inversion Htt; subst t_start t_target.
    unfold US_PER_MINUTE in *. rewrite Z.sub_0_r in Hapart.
    exact (floor_minute_apart _ _ _ Hoff Hapart Heq).
Qed.

Lemma find_booking_by_time_minute_precision_witness :
  let bookings := [Sample.early; Sample.hit; Sample.late] in
  let query := find_booking_by_time Sample.rt0 bookings "2025-07-24" "14:00"
                 "America/New_York" in
  (exists found fstart,
      query = Some found /\ In found bookings /\
      parsed_start found = Some fstart /\
      dt_eq (replace_second0_microsecond0 fstart)
            (replace_second0_microsecond0 (Sample.at_utc 2025 7 24 18 0 0 0))
      = true)
  /\ query <> Some Sample.early /\ query <> Some Sample.late.
Proof.
  intros bookings query.
  destruct (find_booking_by_time_minute_precision Sample.rt0 bookings
              "2025-07-24" "14:00" "America/New_York"
              (Sample.at_utc 2025 7 24 18 0 0 0)) as [A B].
  - vm_compute. reflexivity.
  - repeat constructor.
  - split; [|split].
    + apply (A Sample.hit (Sample.at_utc 2025 7 24 18 0 0 347000));
        try (vm_compute; reflexivity).
      right; left; reflexivity.
    + apply (B Sample.early (Sample.at_utc 2025 7 24 17 59 0 0)
               (wall (Sample.at_utc 2025 7 24 17 59 0 0))
               (wall (Sample.at_utc 2025 7 24 18 0 0 0)));
        try (vm_compute; reflexivity).
      left. vm_compute. reflexivity.
    + apply (B Sample.late (Sample.at_utc 2025 7 24 18 1 0 0)
               (wall (Sample.at_utc 2025 7 24 18 1 0 0))
               (wall (Sample.at_utc 2025 7 24 18 0 0 0)));
        try (vm_compute; reflexivity).
      right. vm_compute. reflexivity.
Defined.

(** ** CalApiClient._make_request *)

(** A response below 400 whose body decodes is handed on as it is. *)
Lemma make_request_decoded rt method endpoint api_version params json log
    code text v :
  remote rt log
    (mkreq method (base_url rt ++ "/" ++ Str.lstrip_char "/" endpoint)
       (get_headers rt api_version) params json)
  = Response code text (Ok v) ->
  code < 400 ->
  _make_request rt method endpoint api_version params json log
  = (Ok (mkresp true v None (Some code)),
     (log ++ [mkreq method (base_url rt ++ "/" ++ Str.lstrip_char "/" endpoint)
                (get_headers rt api_version) params json])%list).
Proof.
  intros Hr Hc. unfold _make_request, io_bind, requests_request.
  rewrite Hr. apply Z.leb_gt in Hc. rewrite Hc. reflexivity.
Qed.

(** C8 (as amended). Every [ApiResponse] that [_make_request] produces has
    the envelope shape: with [success] true the error is absent, the status
    code is present and [data] is whatever the body decoded to (which is
    [None] for the body [null]); with [success] false an error message is
    present and [data] is absent. *)
Theorem make_request_envelope :
  forall rt method endpoint api_version params json log r log',
    _make_request rt method endpoint api_version params json log
    = (Ok r, log') ->
    envelope r /\
    (success r = true ->
     exists code text,
       remote rt log
         (mkreq method (base_url rt ++ "/" ++ Str.lstrip_char "/" endpoint)
            (get_headers rt api_version) params json)
       = Response code text (Ok (data r)) /\
       status_code r = Some code /\ code < 400).
Proof.
  intros rt method endpoint api_version params json log r log'.
  unfold _make_request, io_bind, requests_request, envelope.
  destruct (remote rt log _) as [e | code text body] eqn:Hr.
  - destruct (isinstance e [RequestException]);
      [| destruct (isinstance e [ValueError])];
      unfold io_ret, io_raise; intros H; inversion H; subst; cbn;
      repeat split; intros; congruence.
  - destruct (400 <=? code) eqn:Hc.
    + unfold io_ret; intros H; inversion H; subst; cbn.
      repeat split; intros; congruence.
    + destruct body as [v | e].
      * unfold io_ret; intros H; inversion H; subst; cbn.
        apply Z.leb_gt in Hc.
        repeat split; intros; try congruence. eauto.
      * destruct (isinstance e [RequestException]);
          [| destruct (isinstance e [ValueError])];
          unfold io_ret, io_raise; intros H; inversion H; subst; cbn;
          repeat split; intros; congruence.
Qed.

Lemma make_request_envelope_witness :
  envelope (mkresp true (PyDict []) None (Some 200)).
Proof.
  apply (make_request_envelope Sample.rt0 "GET" "bookings" None [] None []
           (mkresp true (PyDict []) None (Some 200))
           [mkreq "GET" "https://api.cal.com/v2/bookings"
              (get_headers Sample.rt0 None) [] None]).
  vm_compute. reflexivity.
Defined.

(** C8, the claim as stated fails: the body [null] with status 200 gives a
    response with [success] true and no payload. *)
Lemma make_request_success_without_payload :
  exists r log,
    _make_request (Sample.runtime_serving (Ok PyNone))
      "GET" "bookings" None [] None [] = (Ok r, log) /\
    success r = true /\ data r = PyNone.
Proof.
  eexists. eexists. vm_compute. repeat split.
Qed.

(** ** _get_upcoming_accepted_bookings *)

Lemma filter_result_filter {A} (f : A -> result bool) (g : A -> bool) l :
  Forall (fun a => f a = Ok (g a)) l ->
  filter_result f l = Ok (filter g l).
Proof.
  induction 1 as [|a r Ha _ IH]; cbn [filter_result filter]; [reflexivity|].
  rewrite Ha, IH. cbn [bind]. destruct (g a); reflexivity.
Qed.

(** On a well-formed booking the filtering loop decides as
    [kept_as_upcoming] says. *)
Lemma upcoming_accepted_well_formed rt b :
  well_formed_booking b = true ->
  upcoming_accepted (now_utc rt) b = Ok (kept_as_upcoming rt b).
Proof.
  intros H. destruct (well_formed_booking_fields b H) as (st & s & Hst & Hs).
  unfold upcoming_accepted, kept_as_upcoming, accepted, start_string.
  rewrite Hst, Hs. cbn [py_lower bind BookingStatus_value truthy].
  destruct (String.eqb (Str.lower st) "accepted"); cbn [negb andb];
    [|reflexivity].
  destruct (String.eqb s ""); cbn [negb]; [reflexivity|].
  destruct (parse_utc_datetime_string (PyStr s)) as [d|e];
    cbn [bind try_except_all]; [|reflexivity].
  unfold dt_gt, utc_instant, now_utc. cbn [tzinfo wall].
  destruct (tzinfo d) as [off|]; cbn [raise try_except_all]; [|reflexivity].
  rewrite Z.sub_0_r. reflexivity.
Qed.

(** C3 (as amended). When the fetch succeeds and the payload says
    "success", [_get_upcoming_accepted_bookings] returns, in the order of
    the payload, exactly the well-formed bookings that [kept_as_upcoming]
    describes: status "accepted" (case-insensitive), a non-empty start
    string, and a start that is strictly after the clock or cannot be
    compared with it (it does not parse, or parses without an offset).  It
    issues the fetch and nothing else. *)
Theorem upcoming_accepted_bookings_filter :
  forall rt user_email log code text items all_bookings,
    remote rt log (bookings_request rt user_email)
    = Response code text (Ok (PyDict items)) ->
    code < 400 ->
    dict_get items "status" = Some (PyStr "success") ->
    dict_get items "data" = Some (PyList all_bookings) ->
    Forall (fun b => well_formed_booking b = true) all_bookings ->
    _get_upcoming_accepted_bookings rt user_email log
    = (Ok (Some (filter (kept_as_upcoming rt) all_bookings), None),
       (log ++ [bookings_request rt user_email])%list).
Proof.
  intros rt user_email log code text items all_bookings Hr Hc Hst Hdata Hwf.
  unfold _get_upcoming_accepted_bookings, get_bookings, io_bind.
  rewrite (make_request_decoded rt "GET" "bookings" None _ None log
             code text (PyDict items) Hr Hc).
  cbn [success data negb].
  assert (Hne : truthy (PyDict items) = true).
  { destruct items; [discriminate Hst | reflexivity]. }
  unfold not_success, io_lift. rewrite Hne. cbn [negb py_get bind].
  rewrite Hst, Hdata. cbn [py_ne_str py_iter].
  rewrite (String.eqb_refl "success"). cbn [negb].
  rewrite (filter_result_filter _ (kept_as_upcoming rt)).
  - reflexivity.
  - eapply Forall_impl; [|exact Hwf].
    intros b Hb. apply upcoming_accepted_well_formed. exact Hb.
Qed.

Lemma upcoming_accepted_bookings_filter_witness :
  let past :=
    Sample.booking (Some "p") "Past" "accepted" "2025-06-30T09:00:00.000Z" in
  let future :=
    Sample.booking (Some "f") "Future" "ACCEPTED" "2025-07-24T18:00:00.000Z" in
  let broken :=
    Sample.booking (Some "b") "Broken" "accepted" "invalid-datetime" in
  let pending :=
    Sample.booking (Some "q") "Pending" "pending" "2025-07-24T18:00:00.000Z" in
  let all_bookings := [past; future; broken; pending] in
  let rt := Sample.runtime_serving (Ok (Sample.bookings_payload all_bookings)) in
  fst (_get_upcoming_accepted_bookings rt "ann@example.com" [])
  = Ok (Some [future; broken], None).
Proof.
  intros past future broken pending all_bookings rt.
  rewrite (upcoming_accepted_bookings_filter rt "ann@example.com" [] 200 ""
             [("status", PyStr "success"); ("data", PyList all_bookings)]
             all_bookings).
  - vm_compute. reflexivity.
  - reflexivity.
  - lia.
  - reflexivity.
  - reflexivity.
  - repeat constructor.
Defined.

(** C3, the claim as stated fails: of two accepted bookings, the one whose
    start is the empty string (which does not parse) is dropped, and the
    one that started in 2020, written without an offset, is kept although
    the clock reads 2025. *)
Lemma upcoming_accepted_drops_empty_start :
  let no_start := Sample.booking (Some "1") "No start" "accepted" "" in
  let naive_past :=
    Sample.booking (Some "2") "Past" "accepted" "2020-01-01T09:00:00" in
  let rt :=
    Sample.runtime_serving
      (Ok (Sample.bookings_payload [no_start; naive_past])) in
  accepted no_start = true /\
  (exists e, parse_utc_datetime_string (PyStr "") = Raise e) /\
  (exists d, parse_utc_datetime_string (PyStr "2020-01-01T09:00:00") = Ok d /\
             wall d < clock rt) /\
  fst (_get_upcoming_accepted_bookings rt "ann@example.com" [])
  = Ok (Some [naive_past], None).
Proof.
  cbv zeta. split; [reflexivity|]. split; [|split].
  - eexists. vm_compute. reflexivity.
  - eexists. split; [vm_compute; reflexivity | vm_compute; reflexivity].
  - vm_compute. reflexivity.
Qed.

(** ** cancel_booking *)

(** [_make_request] issues exactly one request. *)
Lemma make_request_log rt method endpoint api_version params json log r log' :
  _make_request rt method endpoint api_version params json log = (r, log') ->
  log' = (log ++ [mkreq method
                    (base_url rt ++ "/" ++ Str.lstrip_char "/" endpoint)
                    (get_headers rt api_version) params json])%list.
Proof.
  unfold _make_request, io_bind, requests_request.
  destruct (remote rt log _) as [e | code text body].
  - destruct (isinstance e [RequestException]);
      [| destruct (isinstance e [ValueError])];
      unfold io_ret, io_raise; intros H; inversion H; reflexivity.
  - destruct (400 <=? code).
    + unfold io_ret; intros H; inversion H; reflexivity.
    + destruct body as [v | e].
      * unfold io_ret; intros H; inversion H; reflexivity.
      * destruct (isinstance e [RequestException]);
          [| destruct (isinstance e [ValueError])];
          unfold io_ret, io_raise; intros H; inversion H; reflexivity.
Qed.

(** The helper issues the fetch of the bookings and nothing else. *)
Lemma get_upcoming_accepted_bookings_log rt user_email log r log' :
  _get_upcoming_accepted_bookings rt user_email log = (r, log') ->
  log' = (log ++ [bookings_request rt user_email])%list.
Proof.
  unfold _get_upcoming_accepted_bookings, get_bookings, io_bind.
  destruct (_make_request rt "GET" "bookings" None _ None log)
    as [[response | e] log1] eqn:Hreq;
    apply make_request_log in Hreq; subst log1.
  - destruct (negb (success response)).
    + unfold io_ret. intros H; inversion H; reflexivity.
    + unfold io_lift, io_ret.
      destruct (not_success (data response)) as [[|] | e].
      * destruct (failure_details (data response));
          intros H; inversion H; reflexivity.
      * destruct (py_get (data response) "data" (PyList [])) as [v|];
          [|intros H; inversion H; reflexivity].
        destruct (py_iter v) as [l|]; [|intros H; inversion H; reflexivity].
        destruct (filter_result _ l); intros H; inversion H; reflexivity.
      * intros H; inversion H; reflexivity.
  - intros H; inversion H; reflexivity.
Qed.

(** An accepted booking is a dict with at least the key [status]. *)
Lemma accepted_truthy b : accepted b = true -> truthy b = true.
Proof.
  unfold accepted. destruct b as [| | | | |items]; try discriminate.
  destruct items; [discriminate | reflexivity].
Qed.

Lemma find_booking_by_time_In rt bookings d t tz b :
  find_booking_by_time rt bookings d t tz = Some b ->
  In b bookings /\ accepted b = true.
Proof.
  intros H.
  destruct (find_booking_by_time_Some _ _ _ _ _ _ H) as (target & _ & Hs).
  destruct (scan_bookings_Some _ _ _ Hs) as (Hin & Hm).
  destruct (match_booking_Some _ _ _ Hm) as (_ & Hacc & _).
  auto.
Qed.

(** C9. When the booking that matches the requested time has no [uid],
    [cancel_booking] returns the data-integrity error, which no "No booking
    found" message equals, and the only request it has issued is the fetch
    of the bookings: no cancellation is sent. *)
Theorem cancel_booking_missing_uid :
  forall rt user_email date time user_timezone log bookings log1 b,
    _get_upcoming_accepted_bookings rt user_email log
    = (Ok (Some bookings, None), log1) ->
    find_booking_by_time rt bookings date time user_timezone = Some b ->
    missing_uid b = true ->
    cancel_booking rt user_email date time user_timezone log
    = (Ok "Error: Booking UID not found in booking data.",
       (log ++ [bookings_request rt user_email])%list)
    /\ forall booking_list,
         no_match_message date time user_timezone booking_list
         <> "Error: Booking UID not found in booking data.".
Proof.
  intros rt user_email date time tz log bookings log1 b Hget Hfind Huid.
  split.
  - pose proof (get_upcoming_accepted_bookings_log _ _ _ _ _ Hget) as Hlog.
    subst log1.
    destruct (find_booking_by_time_In _ _ _ _ _ _ Hfind) as (Hin & Hacc).
    unfold cancel_booking, io_bind. rewrite Hget. cbn [truthy_opt].
    destruct bookings as [|b0 rest]; [contradiction|].
    rewrite Hfind, (accepted_truthy _ Hacc).
    unfold missing_uid in Huid. unfold io_lift, io_ret.
    destruct (py_get b "uid" PyNone) as [uid|]; [|discriminate].
    destruct b as [| | | | |items]; try discriminate.
    cbn [py_get]. rewrite Huid. reflexivity.
  - intros booking_list H. unfold no_match_message in H.
    cbn [String.append] in H. discriminate.
Qed.

Lemma cancel_booking_missing_uid_witness :
  let b :=
    Sample.booking None "Test Meeting" "accepted" "2025-07-24T18:00:00.000Z" in
  let rt := Sample.runtime_serving (Ok (Sample.bookings_payload [b])) in
  cancel_booking rt "ann@example.com" "2025-07-24" "14:00" "America/New_York" []
  = (Ok "Error: Booking UID not found in booking data.",
     [bookings_request rt "ann@example.com"]).
Proof.
  intros b rt.
  apply (cancel_booking_missing_uid rt "ann@example.com" "2025-07-24" "14:00"
           "America/New_York" [] [b] [bookings_request rt "ann@example.com"] b).
  - vm_compute. reflexivity.
  - vm_compute. reflexivity.
  - reflexivity.
Defined.

(** ** TimezoneHandler *)

(** C2 (the code departs from the claim). For the wire string
    [2025-07-24T18:00:00.000Z], [convert_iso_to_utc_api_format] returns
    [2025-07-24T18:00:00.0000Z]: the slice [[:-3]] is taken of a string that
    already ends in [Z], so four fractional digits are left where the fixed
    format [YYYY-MM-DDTHH:MM:SS.mmmZ] has three. *)
Theorem convert_iso_to_utc_api_format_four_digits :
  forall rt user_timezone,
    convert_iso_to_utc_api_format rt "2025-07-24T18:00:00.000Z" user_timezone
    = Ok "2025-07-24T18:00:00.0000Z".
Proof.
  intros rt user_timezone. vm_compute. reflexivity.
Qed.

(** C6 (the code departs from the claim). Both conversions let an
    [OverflowError] through when the projection leaves
    [datetime.min .. datetime.max]: the first instant of year 1 has no
    reading five hours behind UTC, and 23:00 on the last day of year 9999,
    five hours behind UTC, has no UTC reading.  The handlers catch
    [UnknownTimeZoneError] and [ValueError] only. *)
Theorem timezone_conversions_raise_overflow :
  forall rt,
    tzdb rt "Etc/GMT+5" = Some Sample.Etc_GMT_plus_5 ->
    convert_utc_to_user_timezone rt (PyStr "0001-01-01T00:00:00Z") "Etc/GMT+5"
    = Raise (Exn OverflowError "date value out of range")
    /\ convert_user_time_to_utc rt "9999-12-31" "23:00" "Etc/GMT+5"
       = Raise (Exn OverflowError "date value out of range").
Proof.
  intros rt Hz. split.
  - unfold convert_utc_to_user_timezone, pytz_timezone.
    replace (String.eqb "Etc/GMT+5" "UTC") with false by reflexivity.
    replace (String.eqb (Str.upper "Etc/GMT+5") "UTC") with false
      by reflexivity.
    rewrite Hz. vm_compute. reflexivity.
  - unfold convert_user_time_to_utc, pytz_timezone.
    replace (String.eqb "Etc/GMT+5" "UTC") with false by reflexivity.
    replace (String.eqb (Str.upper "Etc/GMT+5") "UTC") with false
      by reflexivity.
    rewrite Hz. vm_compute. reflexivity.
Qed.

Lemma timezone_conversions_raise_overflow_witness :
  convert_utc_to_user_timezone Sample.rt0 (PyStr "0001-01-01T00:00:00Z")
    "Etc/GMT+5"
  = Raise (Exn OverflowError "date value out of range")
  /\ convert_user_time_to_utc Sample.rt0 "9999-12-31" "23:00" "Etc/GMT+5"
     = Raise (Exn OverflowError "date value out of range").
Proof.
  apply (timezone_conversions_raise_overflow Sample.rt0). reflexivity.
Defined.

(** ** create_booking *)

(** C4 (the code departs from the claim). With an event type configured,
    [create_booking] called with the start time
    [0001-01-01T00:00:00+01:00] raises [OverflowError] across its boundary
    instead of returning a string: the conversion to UTC leaves the range
    of [datetime], and the tool catches [ValueError] only.  No request is
    issued. *)
Theorem create_booking_raises_overflow :
  forall rt user_name user_email title user_timezone log,
    event_type_id_set rt = true ->
    create_booking rt "0001-01-01T00:00:00+01:00" user_name user_email title
      user_timezone log
    = (Raise (Exn OverflowError "date value out of range"), log).
Proof.
  intros rt user_name user_email title tz log Hcfg.
  unfold create_booking. rewrite Hcfg. cbn [negb].
  replace (convert_iso_to_utc_api_format rt "0001-01-01T00:00:00+01:00" tz)
    with (@Raise string (Exn OverflowError "date value out of range"))
    by (vm_compute; reflexivity).
  reflexivity.
Qed.

Lemma create_booking_raises_overflow_witness :
  create_booking Sample.rt0 "0001-01-01T00:00:00+01:00" "Ann"
    "ann@example.com" "Sync" "UTC" []
  = (Raise (Exn OverflowError "date value out of range"), []).
Proof.
  apply (create_booking_raises_overflow Sample.rt0). reflexivity.
Defined.

(** ** The round trip local time -> UTC -> local time *)

Lemma dt_add_in_range d delta :
  0 <= wall d + delta < MAX_WALL ->
  dt_add d delta = Ok (mkdt (wall d + delta) (tzinfo d)).
Proof.
  intros [Hlo Hhi]. unfold dt_add.
  apply Z.leb_le in Hlo. apply Z.ltb_lt in Hhi. rewrite Hlo, Hhi.
  reflexivity.
Qed.

Lemma dt_add_Ok d delta d' :
  dt_add d delta = Ok d' ->
  d' = mkdt (wall d + delta) (tzinfo d) /\ 0 <= wall d + delta < MAX_WALL.
Proof.
  unfold dt_add.
  destruct (0 <=? wall d + delta) eqn:Hlo;
    destruct (wall d + delta <? MAX_WALL) eqn:Hhi;
    cbn [andb]; unfold raise; intros H; inversion H.
  apply Z.leb_le in Hlo. apply Z.ltb_lt in Hhi. auto.
Qed.

Lemma dt_new_tzinfo y m d hh mm ss us tz x :
  dt_new y m d hh mm ss us tz = Ok x -> tzinfo x = tz.
Proof.
  unfold dt_new, raise.
  repeat (match goal with
          | |- (if ?c then _ else _) = _ -> _ => destruct c; [discriminate|]
          end).
  intros H; inversion H; reflexivity.
Qed.

Lemma strptime_naive s d : strptime_Ymd_HM s = Ok d -> tzinfo d = None.
Proof.
  unfold strptime_Ymd_HM, raise.
  destruct (Strptime.regex s) as [|[[[[[y m] dd] h] mi] rest] l];
    [discriminate|].
  destruct rest; [|discriminate].
  apply dt_new_tzinfo.
Qed.

Lemma localize_candidate_fits first transitions dt delta e :
  localize_candidate first transitions dt delta = Ok (Some e) ->
  fits first transitions (wall dt) e.
Proof.
  unfold localize_candidate, fits. intros H.
  apply bind_Ok in H. destruct H as (l1 & _ & H).
  apply bind_Ok in H. destruct H as (u & Hu & H).
  apply bind_Ok in H. destruct H as (l2 & Hl2 & H).
  apply dt_add_Ok in Hu. destruct Hu as (-> & Hur).
  apply dt_add_Ok in Hl2. destruct Hl2 as (-> & _).
  cbn [wall] in *.
  destruct (_ =? wall dt) eqn:E; [|discriminate].
  apply Z.eqb_eq in E.
  set (inf := info_at first transitions (wall l1)) in *.
  assert (He : info_at first transitions (wall dt + - utcoffset inf) = e)
    by congruence.
  clear H.
  assert (Hoff : utcoffset e = utcoffset inf) by (rewrite <- He; lia).
  rewrite Hoff.
  replace (wall dt - utcoffset inf) with (wall dt + - utcoffset inf) by lia.
  split; [exact He | exact Hur].
Qed.

Lemma resolve_ambiguous_either a b :
  resolve_ambiguous a b = a \/ resolve_ambiguous a b = b.
Proof.
  unfold resolve_ambiguous.
  destruct (negb (dst a =? 0)), (negb (dst b =? 0)),
    (utcoffset a <? utcoffset b); auto.
Qed.

(** When the reading exists in the zone, [localize] attaches an entry that
    fits it. *)
Lemma localize_dst_fits first transitions dt :
  exists_in_zone (DstTzInfo first transitions) dt = true ->
  exists e,
    localize_dst (localize_fuel dt) first transitions dt = Ok e /\
    fits first transitions (wall dt) e.
Proof.
  unfold exists_in_zone, localize_fuel. cbn [localize_dst].
  destruct (localize_candidate first transitions dt (td_days (-1)))
    as [c1|] eqn:H1; [|discriminate].
  destruct (localize_candidate first transitions dt (td_days 1))
    as [c2|] eqn:H2; [|discriminate].
  cbn [bind].
  assert (F1 : forall e, c1 = Some e -> fits first transitions (wall dt) e).
  { intros e ->. exact (localize_candidate_fits _ _ _ _ _ H1). }
  assert (F2 : forall e, c2 = Some e -> fits first transitions (wall dt) e).
  { intros e ->. exact (localize_candidate_fits _ _ _ _ _ H2). }
  unfold possible_loc_dt.
  destruct c1 as [a|], c2 as [b|]; try discriminate; intros _.
  - destruct (utcoffset a =? utcoffset b).
    + eauto.
    + exists (resolve_ambiguous a b). split; [reflexivity|].
      destruct (resolve_ambiguous_either a b) as [-> | ->]; auto.
  - eauto.
  - eauto.
Qed.

(** [astimezone] on an aware value: its UTC time, read in the zone. *)
Lemma astimezone_aware rt d off z :
  tzinfo d = Some off ->
  0 <= wall d - off < MAX_WALL ->
  0 <= wall d - off + zone_offset_at z (wall d - off) < MAX_WALL ->
  exists r,
    astimezone rt d z = Ok r /\
    wall r = wall d - off + zone_offset_at z (wall d - off) /\
    tzinfo r = Some (zone_offset_at z (wall d - off)).
Proof.
  intros Htz Hu Hl. unfold astimezone. rewrite Htz. cbn [bind].
  rewrite dt_add_in_range by lia. cbn [bind].
  replace (wall d + - off) with (wall d - off) by lia.
  destruct z as [|e|first transitions]; cbn [fromutc zone_offset_at] in *.
  - eexists. split; [reflexivity|]. cbn [wall tzinfo replace_tzinfo].
    split; [lia | reflexivity].
  - rewrite dt_add_in_range by (cbn [wall]; lia). cbn [bind].
    eexists. split; [reflexivity|]. cbn [wall tzinfo replace_tzinfo].
    split; reflexivity.
  - cbn [wall]. rewrite dt_add_in_range by (cbn [wall]; lia). cbn [bind].
    eexists. split; [reflexivity|]. cbn [wall tzinfo replace_tzinfo].
    split; reflexivity.
Qed.

(** [localize] on a reading that exists in the zone: the offset it attaches
    is the offset of the zone at the UTC time the result denotes. *)
Lemma localize_offset z d0 :
  tzinfo d0 = None ->
  zone_bounded z = true ->
  inside_range d0 = true ->
  exists_in_zone z d0 = true ->
  exists o,
    localize z d0 = Ok (replace_tzinfo d0 (Some o)) /\
    zone_offset_at z (wall d0 - o) = o /\
    0 <= wall d0 - o < MAX_WALL.
Proof.
  intros Hn Hb Hr He. unfold localize. rewrite Hn.
  unfold inside_range in Hr. apply andb_true_iff in Hr.
  destruct Hr as [Hlo Hhi]. apply Z.leb_le in Hlo. apply Z.ltb_lt in Hhi.
  destruct z as [|e|first transitions]; cbn [zone_offset_at].
  - exists 0. split; [reflexivity|]. split; [reflexivity|].
    unfold US_PER_DAY in *. lia.
  - exists (utcoffset e). split; [reflexivity|]. split; [reflexivity|].
    cbn [zone_bounded] in Hb. unfold entry_bounded in Hb.
    apply andb_true_iff in Hb. destruct Hb as [B1 B2].
    apply Z.leb_le in B1, B2. unfold US_PER_DAY in *. lia.
  - destruct (localize_dst_fits _ _ _ He) as (e & Hl & Hinfo & Hrange).
    rewrite Hl. cbn [bind]. exists (utcoffset e).
    split; [reflexivity|]. rewrite Hinfo. split; [reflexivity | exact Hrange].
Qed.

(** C5 (as amended). For a date, a time and a timezone that parse and
    resolve, when the wall-clock reading is not one skipped by a transition
    of the zone and lies two days inside the range of [datetime],
    [convert_user_time_to_utc] returns a UTC value, and
    [convert_utc_to_user_timezone], given any wire string that denotes this
    value and the same timezone, returns the original wall-clock reading. *)
Theorem local_utc_round_trip :
  forall rt date_str time_str user_timezone d0 z,
    strptime_Ymd_HM (date_str ++ " " ++ time_str) = Ok d0 ->
    pytz_timezone rt user_timezone = Ok z ->
    zone_bounded z = true ->
    inside_range d0 = true ->
    exists_in_zone z d0 = true ->
    exists u,
      convert_user_time_to_utc rt date_str time_str user_timezone = Ok u /\
      tzinfo u = Some 0 /\
      forall s,
        fromisoformat (Str.replace_char "Z" "+00:00" s) = Ok u ->
        exists back,
          convert_utc_to_user_timezone rt (PyStr s) user_timezone = Ok back /\
          wall back = wall d0.
Proof.
  intros rt date_str time_str tz d0 z Hp Hz Hb Hr He.
  pose proof (strptime_naive _ _ Hp) as Hn.
  assert (Hrange : 0 <= wall d0 < MAX_WALL).
  { unfold inside_range in Hr. apply andb_true_iff in Hr.
    destruct Hr as [Hlo Hhi]. apply Z.leb_le in Hlo. apply Z.ltb_lt in Hhi.
    unfold US_PER_DAY in *. lia. }
  unfold convert_user_time_to_utc, convert_utc_to_user_timezone.
  rewrite Hp. cbn [bind py_replace_Z].
  destruct (String.eqb tz "UTC") eqn:E.
  - exists (replace_tzinfo d0 (Some 0)).
    split; [reflexivity|]. split; [reflexivity|].
    intros s Hs. rewrite Hs. cbn [bind try_except].
    eexists. split; reflexivity.
  - rewrite Hz. cbn [bind].
    destruct (localize_offset z d0 Hn Hb Hr He) as (o & Hl & Ho & Hor).
    rewrite Hl. cbn [bind].
    destruct (astimezone_aware rt (replace_tzinfo d0 (Some o)) o ZoneUTC)
      as (u & Hu & Hwu & Htu);
      [reflexivity | exact Hor | cbn [zone_offset_at wall replace_tzinfo]; lia|].
    cbn [wall replace_tzinfo zone_offset_at] in Hwu, Htu.
    exists u. rewrite Hu. split; [reflexivity|]. split; [exact Htu|].
    intros s Hs. rewrite Hs. cbn [bind].
    assert (Hwu' : wall u - 0 = wall d0 - o) by lia.
    destruct (astimezone_aware rt u 0 z Htu) as (back & Hback & Hwb & _).
    + rewrite Hwu'. exact Hor.
    + rewrite Hwu', Ho. lia.
    + rewrite Hback. cbn [try_except]. exists back.
      split; [reflexivity|]. rewrite Hwb, Hwu', Ho. lia.
Qed.

Lemma local_utc_round_trip_witness :
  exists u back,
    convert_user_time_to_utc Sample.rt0 "2025-07-24" "14:00"
      "America/New_York" = Ok u /\
    isoformat "T" u = "2025-07-24T18:00:00+00:00" /\
    convert_utc_to_user_timezone Sample.rt0 (PyStr (isoformat "T" u))
      "America/New_York" = Ok back /\
    (dt_year back, dt_month back, dt_day back, dt_hour back, dt_minute back)
    = (2025, 7, 24, 14, 0).
Proof.
  assert (Hp : strptime_Ymd_HM ("2025-07-24" ++ " " ++ "14:00")
               = Ok (mkdt (Sample.utc_wall 2025 7 24 14 0) None))
    by (vm_compute; reflexivity).
  assert (Hz : pytz_timezone Sample.rt0 "America/New_York"
               = Ok Sample.America_New_York) by reflexivity.
  assert (Hb : zone_bounded Sample.America_New_York = true)
    by (vm_compute; reflexivity).
  assert (Hr : inside_range (mkdt (Sample.utc_wall 2025 7 24 14 0) None)
               = true) by (vm_compute; reflexivity).
  assert (He : exists_in_zone Sample.America_New_York
                 (mkdt (Sample.utc_wall 2025 7 24 14 0) None) = true)
    by (vm_compute; reflexivity).
  destruct (local_utc_round_trip Sample.rt0 "2025-07-24" "14:00"
              "America/New_York" _ _ Hp Hz Hb Hr He)
    as (u & Hu & _ & Hback).
  assert (Hu' : convert_user_time_to_utc Sample.rt0 "2025-07-24" "14:00"
                  "America/New_York" = Ok (Sample.at_utc 2025 7 24 18 0 0 0))
    by (vm_compute; reflexivity).
  rewrite Hu' in Hu. inversion Hu; subst u. clear Hu.
  destruct (Hback (isoformat "T" (Sample.at_utc 2025 7 24 18 0 0 0)))
    as (back & Hconv & Hw); [vm_compute; reflexivity|].
  exists (Sample.at_utc 2025 7 24 18 0 0 0), back.
  split; [exact Hu'|]. split; [vm_compute; reflexivity|].
  split; [exact Hconv|].
  unfold dt_year, dt_month, dt_day, dt_hour, dt_minute, dt_ymd.
  rewrite Hw. vm_compute. reflexivity.
Defined.

(** C5, the claim as stated fails: 02:30 on 9 March 2025 does not exist in
    New York (the clocks go from 02:00 to 03:00); it is converted to
    07:30 UTC, which reads 03:30 in New York. *)
Lemma round_trip_fails_in_dst_gap :
  exists d0 u back,
    strptime_Ymd_HM ("2025-03-09" ++ " " ++ "02:30") = Ok d0 /\
    (dt_year d0, dt_month d0, dt_day d0, dt_hour d0, dt_minute d0)
    = (2025, 3, 9, 2, 30) /\
    convert_user_time_to_utc Sample.rt0 "2025-03-09" "02:30"
      "America/New_York" = Ok u /\
    isoformat "T" u = "2025-03-09T07:30:00+00:00" /\
    convert_utc_to_user_timezone Sample.rt0 (PyStr (isoformat "T" u))
      "America/New_York" = Ok back /\
    (dt_year back, dt_month back, dt_day back, dt_hour back, dt_minute back)
    = (2025, 3, 9, 3, 30).
Proof.
  do 3 eexists.
  split; [vm_compute; reflexivity|].
  split; [vm_compute; reflexivity|].
  split; [vm_compute; reflexivity|].
  split; [vm_compute; reflexivity|].
  split; [vm_compute; reflexivity|].
  vm_compute. reflexivity.
Qed.

(** ** The fallback of the read path

    What the handlers of the two conversions do cover: a string that does
    not parse and a timezone name the database does not know both yield the
    clock's reading. *)

Lemma convert_utc_to_user_timezone_unparseable rt s user_timezone e :
  fromisoformat (Str.replace_char "Z" "+00:00" s) = Raise e ->
  convert_utc_to_user_timezone rt (PyStr s) user_timezone = Ok (now_utc rt).
Proof.
  intros H. unfold convert_utc_to_user_timezone.
  cbn [py_replace_Z bind]. rewrite H. cbn [bind try_except].
  unfold isinstance. cbn [existsb].
  rewrite (fromisoformat_raises _ _ H). reflexivity.
Qed.

Lemma convert_utc_to_user_timezone_unknown_zone rt s user_timezone d :
  fromisoformat (Str.replace_char "Z" "+00:00" s) = Ok d ->
  String.eqb user_timezone "UTC" = false ->
  String.eqb (Str.upper user_timezone) "UTC" = false ->
  tzdb rt user_timezone = None ->
  convert_utc_to_user_timezone rt (PyStr s) user_timezone = Ok (now_utc rt).
Proof.
  intros Hp Hu Hup Hdb. unfold convert_utc_to_user_timezone, pytz_timezone.
  cbn [py_replace_Z bind]. rewrite Hp. cbn [bind].
  rewrite Hu, Hup, Hdb. reflexivity.
Qed.

Example convert_utc_to_user_timezone_invalid_datetime :
  convert_utc_to_user_timezone Sample.rt0 (PyStr "invalid-datetime") "UTC"
  = Ok (now_utc Sample.rt0).
Proof.
  eapply convert_utc_to_user_timezone_unparseable. vm_compute. reflexivity.
Qed.

(* ================================================================== *)
(** * Further properties *)
(* ================================================================== *)

(** ** Strings and loops *)

Lemma append_assoc_str (a b c : string) : (a ++ b) ++ c = a ++ (b ++ c).
Proof.
  induction a as [|x a IH]; cbn [String.append]; [reflexivity|].
  rewrite IH. reflexivity.
Qed.

Lemma length_append_str (a b : string) :
  String.length (a ++ b) = (String.length a + String.length b)%nat.
Proof.
  induction a as [|x a IH]; cbn [String.append String.length Nat.add];
    [reflexivity|].
  rewrite IH. reflexivity.
Qed.

Lemma map_result_Forall {A B} (f : A -> result B) (P : B -> Prop) l :
  Forall (fun a => exists b, f a = Ok b /\ P b) l ->
  exists bs,
    map_result f l = Ok bs /\ length bs = length l /\ Forall P bs.
Proof.
  induction 1 as [|a r (b & Hb & Pb) _ (bs & Hbs & Hlen & HP)];
    cbn [map_result].
  - exists []. repeat split. constructor.
  - rewrite Hb. cbn [bind]. rewrite Hbs. cbn [bind].
    exists (b :: bs). cbn [length]. repeat split; [congruence|].
    constructor; assumption.
Qed.

Lemma filter_result_Forall {A} (f : A -> result bool) (P : A -> Prop) l l' :
  (forall a, f a = Ok true -> P a) ->
  filter_result f l = Ok l' -> Forall P l'.
Proof.
  intros HP. revert l'.
  induction l as [|a r IH]; cbn [filter_result]; intros l' H.
  - inversion H. constructor.
  - apply bind_Ok in H. destruct H as (keep & Hk & H).
    apply bind_Ok in H. destruct H as (kept & Hkept & H).
    specialize (IH kept Hkept).
    destruct keep; inversion H; subst l'; [constructor; auto | exact IH].
Qed.

Lemma Forall_firstn {A} (P : A -> Prop) n l :
  Forall P l -> Forall P (firstn n l).
Proof.
  intros H. revert n.
  induction H as [|a r Ha _ IH]; intros [|n]; cbn [firstn]; auto.
Qed.

Lemma format_for_display_enum dt tz f :
  format_for_display dt tz (FmtEnum f) = Ok (strftime dt (FORMAT_PATTERNS f)).
Proof. reflexivity. Qed.

Lemma accepted_is_dict b : accepted b = true -> is_dict b = true.
Proof.
  unfold accepted. destruct b; try discriminate. reflexivity.
Qed.

(** ** BookingMatcher *)

(** On a well-formed booking the loop body of [find_booking_by_time]
    decides as [matches] says. *)
Lemma match_booking_matches target b :
  well_formed_booking b = true ->
  match_booking target b = Ok (if matches target b then Some b else None).
Proof.
  intros H. destruct (well_formed_booking_fields b H) as (st & s & Hst & Hs).
  unfold match_booking, matches, accepted, parsed_start, start_string.
  rewrite Hst, Hs. cbn [py_lower bind BookingStatus_value truthy].
  destruct (String.eqb (Str.lower st) "accepted"); cbn [negb andb];
    [|reflexivity].
  destruct (String.eqb s ""); cbn [negb]; [reflexivity|].
  destruct (parse_utc_datetime_string (PyStr s)) as [bdt|e] eqn:Hp;
    cbn [bind]; cbv zeta.
  - destruct (dt_eq _ _); reflexivity.
  - cbn [try_except]. unfold isinstance. cbn [existsb].
    rewrite (parse_utc_datetime_string_str _ _ Hp). reflexivity.
Qed.

Lemma scan_bookings_find target bookings :
  Forall (fun b => well_formed_booking b = true) bookings ->
  scan_bookings target bookings = Ok (find (matches target) bookings).
Proof.
  induction 1 as [|a rest Ha _ IH]; cbn [scan_bookings find]; [reflexivity|].
  rewrite (match_booking_matches target a Ha). cbn [bind].
  destruct (matches target a); [reflexivity | exact IH].
Qed.

(** X1. Among well-formed bookings [find_booking_by_time] returns the
    first booking, in the order of the list, that is accepted and whose
    start equals the target after truncation to the minute; it returns
    nothing when there is none. *)
Theorem find_booking_by_time_first_match :
  forall rt bookings target_date target_time user_timezone target,
    convert_user_time_to_utc rt target_date target_time user_timezone
    = Ok target ->
    Forall (fun b => well_formed_booking b = true) bookings ->
    find_booking_by_time rt bookings target_date target_time user_timezone
    = find (matches target) bookings.
Proof.
  intros rt bookings d t tz target Hc Hwf.
  unfold find_booking_by_time. rewrite Hc. cbn [bind].
  rewrite (scan_bookings_find _ _ Hwf). reflexivity.
Qed.

Lemma find_booking_by_time_first_match_witness :
  find_booking_by_time Sample.rt0
    [Sample.early; Sample.hit; Scenario.twin; Sample.late]
    "2025-07-24" "14:00" "America/New_York"
  = Some Sample.hit.
Proof.
  assert (Hc : convert_user_time_to_utc Sample.rt0 "2025-07-24" "14:00"
                 "America/New_York" = Ok (Sample.at_utc 2025 7 24 18 0 0 0))
    by (vm_compute; reflexivity).
  assert (Hwf : Forall (fun b => well_formed_booking b = true)
                  [Sample.early; Sample.hit; Scenario.twin; Sample.late])
    by (repeat constructor).
  rewrite (find_booking_by_time_first_match _ _ _ _ _ _ Hc Hwf).
  vm_compute. reflexivity.
Defined.

(** The loop body of [format_booking_list] renders every dict. *)
Lemma format_booking_dict rt tz b :
  is_dict b = true ->
  exists line, format_booking rt tz b = Ok line /\ is_prefix "- " line = true.
Proof.
  destruct b as [| | | | |items]; try discriminate. intros _.
  unfold format_booking. cbn [py_get bind].
  destruct (truthy _); cbn [negb].
  - destruct (convert_utc_to_user_timezone rt _ tz) as [d|e];
      cbn [bind try_except_all].
    + rewrite format_for_display_enum. cbn [bind try_except_all].
      eexists. split; reflexivity.
    + eexists. split; reflexivity.
  - cbn [try_except_all]. eexists. split; reflexivity.
Qed.

(** X2. [format_booking_list] renders the first [limit] bookings and no
    more: for bookings that are dicts it never fails, whatever their start
    strings are, and returns [min limit (len bookings)] lines, each
    starting with ["- "]. *)
Theorem format_booking_list_lines :
  forall rt bookings user_timezone limit,
    Forall (fun b => is_dict b = true) bookings ->
    exists lines,
      format_booking_list rt bookings user_timezone limit = Ok lines /\
      length lines = Nat.min limit (length bookings) /\
      Forall (fun line => is_prefix "- " line = true) lines.
Proof.
  intros rt bookings tz limit Hd. unfold format_booking_list.
  destruct (map_result_Forall (format_booking rt tz)
              (fun line => is_prefix "- " line = true)
              (firstn limit bookings)) as (lines & Hl & Hlen & HP).
  - eapply Forall_impl; [|exact (Forall_firstn _ limit _ Hd)].
    intros b Hb. apply format_booking_dict. exact Hb.
  - exists lines. rewrite Hlen, length_firstn. auto.
Qed.

Lemma format_booking_list_lines_witness :
  exists lines,
    format_booking_list Sample.rt0
      [Sample.early; Sample.hit; Scenario.twin; Sample.late;
       PyDict []; PyDict [("start", PyStr "invalid-datetime")];
       PyDict [("title", PyInt 7)]]
      "America/New_York" 5 = Ok lines /\
    length lines = 5%nat /\
    Forall (fun line => is_prefix "- " line = true) lines.
Proof.
  apply (format_booking_list_lines Sample.rt0
           [Sample.early; Sample.hit; Scenario.twin; Sample.late;
            PyDict []; PyDict [("start", PyStr "invalid-datetime")];
            PyDict [("title", PyInt 7)]]
           "America/New_York" 5).
  repeat constructor.
Defined.

(** ** _get_upcoming_accepted_bookings, for every payload *)

Lemma upcoming_accepted_true now b :
  upcoming_accepted now b = Ok true ->
  accepted b = true /\ start_truthy b = true.
Proof.
  unfold upcoming_accepted, accepted, start_truthy.
  destruct (py_get b "status" (PyStr "")) as [st|];
    cbn [bind]; [|discriminate].
  destruct st; cbn [py_lower no_attribute raise bind]; try discriminate.
  cbn [BookingStatus_value].
  destruct (String.eqb (Str.lower s) "accepted"); cbn [negb];
    [|discriminate].
  destruct (py_get b "start" (PyStr "")) as [bs|];
    cbn [bind]; [|discriminate].
  destruct (truthy bs); [auto | discriminate].
Qed.

(** What the helper can return: a list of accepted bookings with a truthy
    start and no message, or no list and a message. *)
Lemma get_upcoming_accepted_bookings_cases rt user_email log r log' :
  _get_upcoming_accepted_bookings rt user_email log = (r, log') ->
  match r with
  | Ok (Some l, None) =>
      Forall (fun b => accepted b = true /\ start_truthy b = true) l
  | Ok (None, Some m) => m <> ""
  | Ok _ => False
  | Raise _ => True
  end.
Proof.
  unfold _get_upcoming_accepted_bookings, get_bookings, io_bind.
  destruct (_make_request rt "GET" "bookings" None _ None log)
    as [[response | e] log1]; [|intros H; inversion H; exact I].
  destruct (negb (success response)).
  - unfold io_ret. intros H; inversion H. discriminate.
  - unfold io_lift, io_ret.
    destruct (not_success (data response)) as [[|] | e];
      [| |intros H; inversion H; exact I].
    + destruct (failure_details (data response));
        intros H; inversion H; [discriminate | exact I].
    + destruct (py_get (data response) "data" (PyList [])) as [v|];
        [|intros H; inversion H; exact I].
      destruct (py_iter v) as [l|]; [|intros H; inversion H; exact I].
      destruct (filter_result _ l) as [kept|] eqn:Hf;
        intros H; inversion H; [|exact I].
      eapply filter_result_Forall; [|exact Hf].
      intros b Hb. exact (upcoming_accepted_true _ _ Hb).
Qed.

(** X3. Whatever the remote service answers, when
    [_get_upcoming_accepted_bookings] returns, exactly one component of the
    pair is set: a list of bookings with no message, or no list with a
    non-empty message. *)
Theorem get_upcoming_accepted_bookings_pair :
  forall rt user_email log accepted_bookings error_msg log',
    _get_upcoming_accepted_bookings rt user_email log
    = (Ok (accepted_bookings, error_msg), log') ->
    (exists l, accepted_bookings = Some l /\ error_msg = None) \/
    (accepted_bookings = None /\
     exists m, error_msg = Some m /\ m <> "").
Proof.
  intros rt user_email log a e log' H.
  pose proof (get_upcoming_accepted_bookings_cases _ _ _ _ _ H) as Hc.
  cbn in Hc. destruct a as [l|], e as [m|]; try contradiction.
  - left. eauto.
  - right. eauto.
Qed.

Lemma get_upcoming_accepted_bookings_pair_witness :
  (exists l, Some [Sample.hit] = Some l /\ @None string = None) \/
  (Some [Sample.hit] = None /\
   exists m, @None string = Some m /\ m <> "").
Proof.
  apply (get_upcoming_accepted_bookings_pair
           (Sample.runtime_serving
              (Ok (Sample.bookings_payload [Sample.hit])))
           "ann@example.com" [] (Some [Sample.hit]) None
           [bookings_request Sample.rt0 "ann@example.com"]).
  vm_compute. reflexivity.
Defined.

(** X4. Whatever the payload holds, every booking that
    [_get_upcoming_accepted_bookings] returns has a status that lower-cases
    to "accepted" and a non-empty start: bookings of any other status and
    bookings without a start never reach the tools. *)
Theorem get_upcoming_accepted_bookings_sound :
  forall rt user_email log l error_msg log',
    _get_upcoming_accepted_bookings rt user_email log
    = (Ok (Some l, error_msg), log') ->
    Forall (fun b => accepted b = true /\ start_truthy b = true) l.
Proof.
  intros rt user_email log l e log' H.
  pose proof (get_upcoming_accepted_bookings_cases _ _ _ _ _ H) as Hc.
  cbn in Hc. destruct e; [contradiction | exact Hc].
Qed.

Lemma get_upcoming_accepted_bookings_sound_witness :
  Forall (fun b => accepted b = true /\ start_truthy b = true)
    [Sample.hit; PyDict [("status", PyStr "Accepted"); ("start", PyInt 5)]].
Proof.
  apply (get_upcoming_accepted_bookings_sound
           (Sample.runtime_serving
              (Ok (Sample.bookings_payload
                     [PyDict [("status", PyStr "cancelled");
                              ("start", PyStr "2025-07-24T18:00:00.000Z")];
                      Sample.hit;
                      PyDict [("status", PyStr "accepted")];
                      PyDict [("status", PyStr "Accepted");
                              ("start", PyInt 5)]])))
           "ann@example.com" [] _ None
           [bookings_request Sample.rt0 "ann@example.com"]).
  vm_compute. reflexivity.
Defined.

(** ** Failures of the fetch *)

(** A status of 400 or more is a failure that keeps the status and the
    text of the response; the body is not decoded. *)
Lemma make_request_http_error rt method endpoint api_version params json log
    code text body :
  remote rt log
    (mkreq method (base_url rt ++ "/" ++ Str.lstrip_char "/" endpoint)
       (get_headers rt api_version) params json)
  = Response code text body ->
  400 <= code ->
  _make_request rt method endpoint api_version params json log
  = (Ok (mkresp false PyNone
           (Some ("HTTP " ++ Str.of_Z code ++ ": " ++ text)) (Some code)),
     (log ++ [mkreq method (base_url rt ++ "/" ++ Str.lstrip_char "/" endpoint)
                (get_headers rt api_version) params json])%list).
Proof.
  intros Hr Hc. unfold _make_request, io_bind, requests_request.
  rewrite Hr. apply Z.leb_le in Hc. rewrite Hc. reflexivity.
Qed.

Lemma get_upcoming_accepted_bookings_http_error rt user_email log
    code text body :
  remote rt log (bookings_request rt user_email) = Response code text body ->
  400 <= code ->
  _get_upcoming_accepted_bookings rt user_email log
  = (Ok (None,
         Some ("Error fetching bookings: HTTP " ++ Str.of_Z code ++ ": "
               ++ text)),
     (log ++ [bookings_request rt user_email])%list).
Proof.
  intros Hr Hc. unfold _get_upcoming_accepted_bookings, get_bookings, io_bind.
  rewrite (make_request_http_error rt "GET" "bookings" None _ None log
             code text body Hr Hc).
  reflexivity.
Qed.

(** X5. When the fetch of the bookings is answered with a status of 400 or
    more, each tool that starts with the fetch stops after this one
    request and reports the status and the text of the response:
    [list_bookings] returns the fetch error as it is, [cancel_booking] and
    [reschedule_booking] put "Error: Could not retrieve bookings." in front
    of it. *)
Theorem fetch_http_error_reported :
  forall rt user_email log code text body,
    remote rt log (bookings_request rt user_email) = Response code text body ->
    400 <= code ->
    let msg := "Error fetching bookings: HTTP " ++ Str.of_Z code ++ ": "
               ++ text in
    let log' := (log ++ [bookings_request rt user_email])%list in
    (forall tz, list_bookings rt user_email tz log = (Ok msg, log')) /\
    (forall d t tz,
        cancel_booking rt user_email d t tz log
        = (Ok ("Error: Could not retrieve bookings. " ++ msg), log')) /\
    (forall d t new_time tz,
        reschedule_booking rt user_email d t new_time tz log
        = (Ok ("Error: Could not retrieve bookings. " ++ msg), log')).
Proof.
  intros rt user_email log code text body Hr Hc msg log'.
  pose proof (get_upcoming_accepted_bookings_http_error _ _ _ _ _ _ Hr Hc)
    as Hh.
  repeat split; intros;
    unfold list_bookings, cancel_booking, reschedule_booking, io_bind;
    rewrite Hh; reflexivity.
Qed.

Lemma fetch_http_error_reported_witness :
  list_bookings (Scenario.runtime_answering 503 "Service Unavailable"
                   (Ok PyNone))
    "ann@example.com" "UTC" []
  = (Ok "Error fetching bookings: HTTP 503: Service Unavailable",
     [bookings_request Sample.rt0 "ann@example.com"]).
Proof.
  apply (fetch_http_error_reported
           (Scenario.runtime_answering 503 "Service Unavailable" (Ok PyNone))
           "ann@example.com" [] 503 "Service Unavailable" (Ok PyNone)).
  - reflexivity.
  - lia.
Defined.

(** ** list_bookings *)

Lemma try_except_all_total {A} (body : result A) handler :
  (forall e, exists a, handler e = Ok a) ->
  exists a, try_except_all body handler = Ok a.
Proof.
  intros H. destruct body as [a|e]; cbn [try_except_all]; eauto.
Qed.

Lemma list_booking_line_dict rt tz b :
  is_dict b = true -> exists line, list_booking_line rt tz b = Ok line /\ True.
Proof.
  destruct b as [| | | | |items]; try discriminate. intros _.
  unfold list_booking_line. cbn [py_get bind].
  destruct (try_except_all_total
              (start_dt <- convert_utc_to_user_timezone rt
                 match dict_get items "start" with
                 | Some x => x
                 | None => PyStr ""
                 end tz ;;
               end_dt <- convert_utc_to_user_timezone rt
                 match dict_get items "end" with
                 | Some x => x
                 | None => PyStr ""
                 end tz ;;
               start_formatted <-
                 format_for_display start_dt tz (FmtEnum DATE_TIME) ;;
               end_formatted <-
                 format_for_display end_dt tz (FmtEnum TIME_ONLY) ;;
               Ok ("- Title: "
                   ++ py_str match dict_get items "title" with
                             | Some x => x
                             | None => PyStr "Untitled"
                             end
                   ++ ", Start: " ++ start_formatted ++ ", End: "
                   ++ end_formatted ++ " (" ++ tz ++ "), Booking UID: "
                   ++ py_str match dict_get items "uid" with
                             | Some x => x
                             | None => PyStr "No UID"
                             end))
              (fun _ =>
                 Ok ("- Title: "
                     ++ py_str match dict_get items "title" with
                               | Some x => x
                               | None => PyStr "Untitled"
                               end
                     ++ ", Start: "
                     ++ py_str match dict_get items "start" with
                               | Some x => x
                               | None => PyStr ""
                               end
                     ++ ", End: "
                     ++ py_str match dict_get items "end" with
                               | Some x => x
                               | None => PyStr ""
                               end
                     ++ ", Booking UID: "
                     ++ py_str match dict_get items "uid" with
                               | Some x => x
                               | None => PyStr "No UID"
                               end))) as (line & Hl).
  - intros e. eauto.
  - exists line. split; [exact Hl | exact I].
Qed.

(** X6. After a fetch that returned the list [l], [list_bookings] issues
    no further request and does not fail: for the empty list it returns the
    "none found" message, otherwise the header with the count [len l]
    followed by exactly one line per booking. *)
Theorem list_bookings_count :
  forall rt user_email user_timezone log l log1,
    _get_upcoming_accepted_bookings rt user_email log
    = (Ok (Some l, None), log1) ->
    (l = [] ->
     list_bookings rt user_email user_timezone log
     = (Ok "No upcoming accepted bookings found for that email.", log1)) /\
    (l <> [] ->
     exists lines,
       list_bookings rt user_email user_timezone log
       = (Ok (bookings_header (length l) user_timezone ++ nl
              ++ Str.join nl lines), log1) /\
       length lines = length l).
Proof.
  intros rt user_email tz log l log1 H.
  pose proof (get_upcoming_accepted_bookings_cases _ _ _ _ _ H) as Hs.
  cbn in Hs.
  unfold list_bookings, io_bind. rewrite H. cbn [truthy_opt].
  split.
  - intros ->. reflexivity.
  - intros Hne.
    destruct (map_result_Forall (list_booking_line rt tz) (fun _ => True) l)
      as (lines & Hl & Hlen & _).
    { eapply Forall_impl; [|exact Hs].
      intros b [Hacc _]. apply list_booking_line_dict.
      apply accepted_is_dict. exact Hacc. }
    exists lines. split; [|exact Hlen].
    destruct l as [|b0 rest]; [contradiction|].
    unfold io_lift, io_ret. rewrite Hl.
    unfold bookings_header. rewrite !append_assoc_str. reflexivity.
Qed.

Lemma list_bookings_count_witness :
  exists lines,
    list_bookings
      (Sample.runtime_serving
         (Ok (Sample.bookings_payload
                [Sample.hit; PyDict [("status", PyStr "pending")];
                 Sample.late])))
      "ann@example.com" "America/New_York" []
    = (Ok (bookings_header 2 "America/New_York" ++ nl ++ Str.join nl lines),
       [bookings_request Sample.rt0 "ann@example.com"]) /\
    length lines = 2%nat.
Proof.
  assert (H : _get_upcoming_accepted_bookings
                (Sample.runtime_serving
                   (Ok (Sample.bookings_payload
                          [Sample.hit; PyDict [("status", PyStr "pending")];
                           Sample.late])))
                "ann@example.com" []
              = (Ok (Some [Sample.hit; Sample.late], None),
                 [bookings_request Sample.rt0 "ann@example.com"]))
    by (vm_compute; reflexivity).
  destruct (list_bookings_count _ _ "America/New_York" _ _ _ H) as [_ Hne].
  apply Hne. discriminate.
Defined.

(** ** Which requests the tools issue *)

Lemma quiet_ret {A} (a : A) : quiet (io_ret a).
Proof. intros log. reflexivity. Qed.

Lemma quiet_raise {A} e : quiet (@io_raise A e).
Proof. intros log. reflexivity. Qed.

Lemma quiet_lift {A} (r : result A) : quiet (io_lift r).
Proof. intros log. reflexivity. Qed.

Lemma quiet_bind {A B} (m : io A) (k : A -> io B) :
  quiet m -> (forall a, quiet (k a)) -> quiet (io_bind m k).
Proof.
  intros Hm Hk log. unfold io_bind. specialize (Hm log).
  destruct (m log) as [[a|e] log1]; cbn [snd] in Hm; subst log1.
  - apply Hk.
  - reflexivity.
Qed.

Ltac quiet_tac :=
  repeat first
    [ apply quiet_ret | apply quiet_lift | apply quiet_raise
    | apply quiet_bind; [|intros ?]
    | match goal with
      | |- quiet (if ?b then _ else _) => destruct b
      | |- quiet (match ?x with _ => _ end) => destruct x
      end ].

(** A request followed by code that issues none. *)
Lemma io_bind_one_request {A B} (m : io A) (k : A -> io B) log req r log' :
  (forall r1 l1, m log = (r1, l1) -> l1 = (log ++ [req])%list) ->
  (forall a, quiet (k a)) ->
  io_bind m k log = (r, log') -> log' = (log ++ [req])%list.
Proof.
  intros Hm Hk. unfold io_bind.
  destruct (m log) as [[a|e] l1]; intros H.
  - rewrite <- (Hm _ _ eq_refl). pose proof (Hk a l1) as Hq.
    rewrite H in Hq. exact Hq.
  - inversion H. subst. exact (Hm _ _ eq_refl).
Qed.

Lemma quiet_log {A} (m : io A) log r log' :
  quiet m -> m log = (r, log') -> log' = log.
Proof. intros Hq H. specialize (Hq log). rewrite H in Hq. exact Hq. Qed.

Lemma cancel_tail_quiet rt (b : pyval) tz title uid resp :
  quiet
    (if negb (success resp) then
       io_ret ("Error: Could not cancel the booking. "
               ++ str_of_optional (error resp))
     else
       io_bind (io_lift (not_success (data resp))) (fun failed : bool =>
       if failed then
         io_bind (io_lift (failure_details (data resp))) (fun error_msg =>
         io_ret ("Error: Could not cancel the booking. API response: "
                 ++ error_msg))
       else
         io_lift
           (try_except_all
              (bind (py_getitem b "start") (fun start =>
               bind (convert_utc_to_user_timezone rt start tz) (fun d =>
               bind (format_for_display d tz (FmtEnum FRIENDLY)) (fun display_time =>
               Ok ("Success! Booking '" ++ py_str title
                   ++ "' scheduled for " ++ display_time ++ " ("
                   ++ tz
                   ++ ") has been cancelled. Booking UID: "
                   ++ py_str uid)))))
              (fun _ =>
                 Ok ("Success! Booking '" ++ py_str title
                     ++ "' has been cancelled. Booking UID: "
                     ++ py_str uid))))).
Proof. quiet_tac. Qed.

(** X7. Whatever the remote service answers and however the call ends,
    [cancel_booking] issues either the fetch of the bookings alone, or the
    fetch followed by exactly one cancellation; the cancellation is
    addressed to the non-empty [uid] of the booking that
    [find_booking_by_time] picked among the fetched bookings, which is one
    of them and is accepted. *)
Theorem cancel_booking_requests :
  forall rt user_email date time user_timezone log r log',
    cancel_booking rt user_email date time user_timezone log = (r, log') ->
    log' = (log ++ [bookings_request rt user_email])%list \/
    exists l b uid,
      _get_upcoming_accepted_bookings rt user_email log
      = (Ok (Some l, None), (log ++ [bookings_request rt user_email])%list) /\
      find_booking_by_time rt l date time user_timezone = Some b /\
      In b l /\ accepted b = true /\
      py_get b "uid" PyNone = Ok uid /\ truthy uid = true /\
      log' = (log ++ [bookings_request rt user_email;
                      cancel_request rt uid])%list.
Proof.
  intros rt user_email date time tz log r log'.
  unfold cancel_booking. unfold io_bind at 1.
  destruct (_get_upcoming_accepted_bookings rt user_email log)
    as [[[a e]|exn] log1] eqn:Hf.
  2:{ intros H. inversion H. subst. left.
      exact (get_upcoming_accepted_bookings_log _ _ _ _ _ Hf). }
  pose proof (get_upcoming_accepted_bookings_log _ _ _ _ _ Hf) as Hlog.
  subst log1.
  destruct (truthy_opt e) eqn:He.
  { intros H. inversion H. auto. }
  destruct a as [[|b0 rest]|]; try (intros H; inversion H; auto; fail).
  pose proof (get_upcoming_accepted_bookings_cases _ _ _ _ _ Hf) as Hc.
  cbn in Hc. destruct e as [m|]; [contradiction|]. clear Hc He.
  destruct (find_booking_by_time rt (b0 :: rest) date time tz)
    as [b|] eqn:Hfind.
  2:{ intros H. left. eapply quiet_log; [|exact H]. quiet_tac. }
  destruct (find_booking_by_time_In _ _ _ _ _ _ Hfind) as [Hin Hacc].
  rewrite (accepted_truthy _ Hacc).
  unfold io_bind at 1, io_lift at 1.
  destruct (py_get b "uid" PyNone) as [uid|exn] eqn:Huid.
  2:{ intros H. inversion H. auto. }
  unfold io_bind at 1, io_lift at 1.
  destruct (py_get b "title" (PyStr "Untitled")) as [title|exn] eqn:Htitle.
  2:{ intros H. inversion H. auto. }
  destruct (truthy uid) eqn:Ht; cbn [negb].
  2:{ intros H. inversion H. auto. }
  intros H. right. exists (b0 :: rest), b, uid.
  repeat split; try assumption.
  change (log ++ [bookings_request rt user_email; cancel_request rt uid])%list
    with (log ++ [bookings_request rt user_email] ++ [cancel_request rt uid])%list.
  rewrite app_assoc.
  eapply io_bind_one_request; [| |exact H].
  - intros r1 l1 Hr. unfold client_cancel_booking in Hr.
    apply make_request_log in Hr. exact Hr.
  - intros resp. apply cancel_tail_quiet.
Qed.

Lemma cancel_booking_requests_witness :
  [bookings_request Sample.rt0 "ann@example.com";
   cancel_request Sample.rt0 (PyStr "2")]
  = ([] ++ [bookings_request Sample.rt0 "ann@example.com"])%list \/
  exists l b uid,
    _get_upcoming_accepted_bookings
      (Sample.runtime_serving
         (Ok (Sample.bookings_payload [Sample.early; Sample.hit])))
      "ann@example.com" []
    = (Ok (Some l, None),
       ([] ++ [bookings_request Sample.rt0 "ann@example.com"])%list) /\
    find_booking_by_time Sample.rt0 l "2025-07-24" "14:00" "America/New_York"
    = Some b /\
    In b l /\ accepted b = true /\
    py_get b "uid" PyNone = Ok uid /\ truthy uid = true /\
    [bookings_request Sample.rt0 "ann@example.com";
     cancel_request Sample.rt0 (PyStr "2")]
    = ([] ++ [bookings_request Sample.rt0 "ann@example.com";
              cancel_request Sample.rt0 uid])%list.
Proof.
  apply (cancel_booking_requests
           (Sample.runtime_serving
              (Ok (Sample.bookings_payload [Sample.early; Sample.hit])))
           "ann@example.com" "2025-07-24" "14:00" "America/New_York" []
           (Ok ("Success! Booking 'Hit' scheduled for July 24, 2025 at "
                ++ "02:00 PM (America/New_York) has been cancelled. "
                ++ "Booking UID: 2"))).
  vm_compute. reflexivity.
Defined.


Lemma debug_available_booking_dict b :
  is_dict b = true -> exists u, debug_available_booking b = Ok u /\ True.
Proof.
  destruct b as [| | | | |items]; try discriminate. intros _.
  unfold debug_available_booking. cbn [py_get bind].
  destruct (parse_utc_datetime_string _) as [d|e]; cbn [bind].
  - rewrite format_for_display_enum. cbn [bind try_except_all]. eauto.
  - cbn [try_except_all]. eauto.
Qed.

Lemma accepted_all_dicts l :
  Forall (fun b => accepted b = true /\ start_truthy b = true) l ->
  Forall (fun b => is_dict b = true) l.
Proof.
  intros H. eapply Forall_impl; [|exact H].
  intros b [Hb _]. exact (accepted_is_dict b Hb).
Qed.

Lemma format_booking_list_dicts rt l tz limit :
  Forall (fun b => is_dict b = true) l ->
  exists lines,
    format_booking_list rt l tz limit = Ok lines /\
    length lines = Nat.min limit (length l).
Proof.
  intros Hd. unfold format_booking_list.
  destruct (map_result_Forall (format_booking rt tz)
              (fun line => is_prefix "- " line = true)
              (firstn limit l)) as (lines & Hl & Hlen & _).
  - eapply Forall_impl; [|exact (Forall_firstn _ limit _ Hd)].
    intros b Hb. apply format_booking_dict. exact Hb.
  - exists lines. rewrite Hlen, length_firstn. auto.
Qed.

(** X8. When no fetched booking matches the date and time, both
    [cancel_booking] and [reschedule_booking] answer with the same message:
    it lists the first five fetched bookings at most, one line each, and no
    request is issued beyond the fetch.  For [reschedule_booking] this
    holds when the current date and time convert; [cancel_booking] answers
    so in every case. *)
Theorem no_match_reported :
  forall rt user_email date time user_timezone log l log1,
    _get_upcoming_accepted_bookings rt user_email log
    = (Ok (Some l, None), log1) ->
    l <> [] ->
    find_booking_by_time rt l date time user_timezone = None ->
    exists lines,
      format_booking_list rt l user_timezone 5 = Ok lines /\
      length lines = Nat.min 5 (length l) /\
      cancel_booking rt user_email date time user_timezone log
      = (Ok (no_match_message date time user_timezone lines), log1) /\
      forall target new_start_time_iso,
        convert_user_time_to_utc rt date time user_timezone = Ok target ->
        reschedule_booking rt user_email date time new_start_time_iso
          user_timezone log
        = (Ok (no_match_message date time user_timezone lines), log1).
Proof.
  intros rt user_email date time tz log l log1 Hf Hne Hfind.
  pose proof (get_upcoming_accepted_bookings_cases _ _ _ _ _ Hf) as Hc.
  cbn in Hc. apply accepted_all_dicts in Hc.
  destruct (format_booking_list_dicts rt l tz 5 Hc) as (lines & Hl & Hlen).
  exists lines. repeat split; try assumption.
  - unfold cancel_booking, io_bind. rewrite Hf. cbn [truthy_opt].
    destruct l as [|b0 rest]; [contradiction|].
    rewrite Hfind. unfold io_lift. rewrite Hl. reflexivity.
  - intros target new Hconv.
    unfold reschedule_booking, io_bind. rewrite Hf. cbn [truthy_opt].
    destruct l as [|b0 rest]; [contradiction|].
    rewrite Hconv. cbn [bind]. rewrite format_for_display_enum.
    rewrite Hfind. unfold io_lift.
    destruct (map_result_Forall debug_available_booking (fun _ => True)
                (firstn 5 (b0 :: rest))) as (us & Hus & _).
    { eapply Forall_impl; [|exact (Forall_firstn _ 5 _ Hc)].
      intros b Hb. exact (debug_available_booking_dict b Hb). }
    rewrite Hus. rewrite Hl. reflexivity.
Qed.

Lemma no_match_reported_witness :
  exists lines,
    format_booking_list
      (Sample.runtime_serving
         (Ok (Sample.bookings_payload [Sample.early; Sample.hit])))
      [Sample.early; Sample.hit] "America/New_York" 5 = Ok lines /\
    length lines = Nat.min 5 2 /\
    cancel_booking
      (Sample.runtime_serving
         (Ok (Sample.bookings_payload [Sample.early; Sample.hit])))
      "ann@example.com" "2025-07-24" "15:00" "America/New_York" []
    = (Ok (no_match_message "2025-07-24" "15:00" "America/New_York" lines),
       [bookings_request Sample.rt0 "ann@example.com"]) /\
    forall target new_start_time_iso,
      convert_user_time_to_utc
        (Sample.runtime_serving
           (Ok (Sample.bookings_payload [Sample.early; Sample.hit])))
        "2025-07-24" "15:00" "America/New_York" = Ok target ->
      reschedule_booking
        (Sample.runtime_serving
           (Ok (Sample.bookings_payload [Sample.early; Sample.hit])))
        "ann@example.com" "2025-07-24" "15:00" new_start_time_iso
        "America/New_York" []
      = (Ok (no_match_message "2025-07-24" "15:00" "America/New_York" lines),
         [bookings_request Sample.rt0 "ann@example.com"]).
Proof.
  apply (no_match_reported
           (Sample.runtime_serving
              (Ok (Sample.bookings_payload [Sample.early; Sample.hit])))
           "ann@example.com" "2025-07-24" "15:00" "America/New_York" []
           [Sample.early; Sample.hit]
           [bookings_request Sample.rt0 "ann@example.com"]).
  - vm_compute. reflexivity.
  - discriminate.
  - vm_compute. reflexivity.
Defined.


Lemma reschedule_tail_quiet rt (b : pyval) tz new title uid resp :
  quiet
    (if negb (success resp) then
       io_ret ("Error: Could not reschedule the booking. "
               ++ str_of_optional (error resp))
     else
       io_bind (io_lift (not_success (data resp))) (fun failed : bool =>
       if failed then
         io_bind (io_lift (failure_details (data resp))) (fun error_msg =>
         io_ret ("Error: Reschedule failed. API response: " ++ error_msg))
       else
         io_lift
           (try_except_all
              (bind (py_getitem b "start") (fun old_start =>
               bind (convert_utc_to_user_timezone rt old_start tz) (fun d =>
               bind (format_for_display d tz (FmtEnum FRIENDLY))
                 (fun old_display_time =>
               bind (convert_utc_to_user_timezone rt (PyStr new) tz) (fun d' =>
               bind (format_for_display d' tz (FmtEnum FRIENDLY))
                 (fun new_display_time =>
               Ok ("✅ Successfully rescheduled '"
                   ++ py_str title ++ "'!" ++ nl
                   ++ "From: " ++ old_display_time ++ " ("
                   ++ tz ++ ")" ++ nl
                   ++ "To: " ++ new_display_time ++ " ("
                   ++ tz ++ ")" ++ nl
                   ++ "Booking UID: "
                   ++ py_str uid)))))))
              (fun _ =>
                 Ok ("✅ Successfully rescheduled '"
                     ++ py_str title
                     ++ "'! Booking UID: "
                     ++ py_str uid))))).
Proof. quiet_tac. Qed.

(** X9. Whatever the remote service answers and however the call ends,
    [reschedule_booking] issues either the fetch of the bookings alone, or
    the fetch followed by exactly one reschedule request; that request is
    addressed to the non-empty [uid] of the accepted booking that
    [find_booking_by_time] picked, and carries the new start as
    [convert_iso_to_utc_api_format] returned it together with the user's
    email.  In particular no reschedule is sent when the new time does not
    convert. *)
Theorem reschedule_booking_requests :
  forall rt user_email current_date current_time new_start_time_iso
         user_timezone log r log',
    reschedule_booking rt user_email current_date current_time
      new_start_time_iso user_timezone log = (r, log') ->
    log' = (log ++ [bookings_request rt user_email])%list \/
    exists l b uid new_utc_time,
      _get_upcoming_accepted_bookings rt user_email log
      = (Ok (Some l, None), (log ++ [bookings_request rt user_email])%list) /\
      find_booking_by_time rt l current_date current_time user_timezone
      = Some b /\
      In b l /\ accepted b = true /\
      py_get b "uid" PyNone = Ok uid /\ truthy uid = true /\
      convert_iso_to_utc_api_format rt new_start_time_iso user_timezone
      = Ok new_utc_time /\
      log' = (log ++ [bookings_request rt user_email;
                      reschedule_request rt uid
                        (reschedule_payload new_utc_time user_email)])%list.
Proof.
  intros rt user_email date time new tz log r log'.
  unfold reschedule_booking. unfold io_bind at 1.
  destruct (_get_upcoming_accepted_bookings rt user_email log)
    as [[[a e]|exn] log1] eqn:Hf.
  2:{ intros H. inversion H. subst. left.
      exact (get_upcoming_accepted_bookings_log _ _ _ _ _ Hf). }
  pose proof (get_upcoming_accepted_bookings_log _ _ _ _ _ Hf) as Hlog.
  subst log1.
  destruct (truthy_opt e) eqn:He.
  { intros H. inversion H. auto. }
  destruct a as [[|b0 rest]|]; try (intros H; inversion H; auto; fail).
  pose proof (get_upcoming_accepted_bookings_cases _ _ _ _ _ Hf) as Hc.
  cbn in Hc. destruct e as [m|]; [contradiction|]. clear Hc He.
  destruct (bind (convert_user_time_to_utc rt date time tz) _) as [shown|exn].
  2:{ intros H. inversion H. auto. }
  destruct (find_booking_by_time rt (b0 :: rest) date time tz)
    as [b|] eqn:Hfind.
  2:{ intros H. left. eapply quiet_log; [|exact H]. quiet_tac. }
  destruct (find_booking_by_time_In _ _ _ _ _ _ Hfind) as [Hin Hacc].
  rewrite (accepted_truthy _ Hacc). cbn [negb].
  unfold convert_new_time.
  destruct (convert_iso_to_utc_api_format rt new tz) as [new_utc|exn] eqn:Hnew;
    cbn [bind].
  2:{ intros H. left. eapply quiet_log; [|exact H]. quiet_tac. }
  destruct (bind (parse_utc_datetime_string (PyStr new_utc)) _) as [x|exn] eqn:Hx.
  2:{ intros H. left. eapply quiet_log; [|exact H]. quiet_tac. }
  assert (x = new_utc) as ->.
  { apply bind_Ok in Hx. destruct Hx as (d1 & _ & Hx).
    apply bind_Ok in Hx. destruct Hx as (d2 & _ & Hx). congruence. }
  unfold io_bind at 1, io_lift at 1.
  destruct (py_get b "uid" PyNone) as [uid|exn] eqn:Huid.
  2:{ intros H. inversion H. auto. }
  unfold io_bind at 1, io_lift at 1.
  destruct (py_get b "title" (PyStr "Untitled")) as [title|exn] eqn:Htitle.
  2:{ intros H. inversion H. auto. }
  destruct (truthy uid) eqn:Ht; cbn [negb].
  2:{ intros H. inversion H. auto. }
  unfold io_bind at 1, io_lift at 1.
  destruct (py_get b "start" (PyStr "Unknown")) as [st|exn] eqn:Hst.
  2:{ intros H. inversion H. auto. }
  intros H. right. exists (b0 :: rest), b, uid, new_utc.
  repeat split; try assumption.
  change (log ++ [bookings_request rt user_email;
                  reschedule_request rt uid
                    (reschedule_payload new_utc user_email)])%list
    with (log ++ [bookings_request rt user_email]
              ++ [reschedule_request rt uid
                    (reschedule_payload new_utc user_email)])%list.
  rewrite app_assoc.
  eapply io_bind_one_request; [| |exact H].
  - intros r1 l1 Hr. unfold client_reschedule_booking in Hr.
    apply make_request_log in Hr. exact Hr.
  - intros resp. apply reschedule_tail_quiet.
Qed.

Lemma reschedule_booking_requests_witness :
  [bookings_request Sample.rt0 "ann@example.com";
   reschedule_request Sample.rt0 (PyStr "2")
     (reschedule_payload "2025-07-25T14:00:00.0000Z" "ann@example.com")]
  = ([] ++ [bookings_request Sample.rt0 "ann@example.com"])%list \/
  exists l b uid new_utc_time,
    _get_upcoming_accepted_bookings
      (Sample.runtime_serving
         (Ok (Sample.bookings_payload [Sample.early; Sample.hit])))
      "ann@example.com" []
    = (Ok (Some l, None),
       ([] ++ [bookings_request Sample.rt0 "ann@example.com"])%list) /\
    find_booking_by_time Sample.rt0 l "2025-07-24" "14:00" "America/New_York"
    = Some b /\
    In b l /\ accepted b = true /\
    py_get b "uid" PyNone = Ok uid /\ truthy uid = true /\
    convert_iso_to_utc_api_format Sample.rt0 "2025-07-25T10:00:00"
      "America/New_York" = Ok new_utc_time /\
    [bookings_request Sample.rt0 "ann@example.com";
     reschedule_request Sample.rt0 (PyStr "2")
       (reschedule_payload "2025-07-25T14:00:00.0000Z" "ann@example.com")]
    = ([] ++ [bookings_request Sample.rt0 "ann@example.com";
              reschedule_request Sample.rt0 uid
                (reschedule_payload new_utc_time "ann@example.com")])%list.
Proof.
  apply (reschedule_booking_requests
           (Sample.runtime_serving
              (Ok (Sample.bookings_payload [Sample.early; Sample.hit])))
           "ann@example.com" "2025-07-24" "14:00" "2025-07-25T10:00:00"
           "America/New_York" []
           (Ok ("✅ Successfully rescheduled 'Hit'!" ++ nl
                ++ "From: July 24, 2025 at 02:00 PM (America/New_York)" ++ nl
                ++ "To: July 25, 2025 at 06:00 AM (America/New_York)" ++ nl
                ++ "Booking UID: 2"))).
  vm_compute. reflexivity.
Defined.

(** ** create_booking and get_available_slots *)





(** X11. Without an event type (the setting is absent or empty),
    [create_booking] and [get_available_slots] return the configuration
    error for every input and issue no request. *)
Theorem unconfigured_event_type :
  forall rt,
    event_type_id rt = None \/ event_type_id rt = Some "" ->
    forall log,
      (forall start_time_iso user_name user_email title user_timezone,
          create_booking rt start_time_iso user_name user_email title
            user_timezone log
          = (Ok "Error: EVENT_TYPE_ID is not configured. Please check your .env file.",
             log)) /\
      (forall date user_timezone,
          get_available_slots rt date user_timezone log
          = (Ok "Error: EVENT_TYPE_ID is not configured. Please check your .env file.",
             log)).
Proof.
  intros rt H log.
  assert (Hset : event_type_id_set rt = false).
  { unfold event_type_id_set. destruct H as [-> | ->]; reflexivity. }
  split; intros; unfold create_booking, get_available_slots;
    rewrite Hset; reflexivity.
Qed.

Lemma unconfigured_event_type_witness :
  (forall start_time_iso user_name user_email title user_timezone,
      create_booking Scenario.runtime_unconfigured start_time_iso user_name
        user_email title user_timezone []
      = (Ok "Error: EVENT_TYPE_ID is not configured. Please check your .env file.",
         [])) /\
  (forall date user_timezone,
      get_available_slots Scenario.runtime_unconfigured date user_timezone []
      = (Ok "Error: EVENT_TYPE_ID is not configured. Please check your .env file.",
         [])).
Proof.
  apply (unconfigured_event_type Scenario.runtime_unconfigured).
  left. reflexivity.
Defined.


Lemma pytz_timezone_raises rt name e :
  pytz_timezone rt name = Raise e -> exn_cls e = UnknownTimeZoneError.
Proof.
  unfold pytz_timezone. destruct (String.eqb _ _); [discriminate|].
  destruct (tzdb rt name); [discriminate|].
  intros H. inversion H. reflexivity.
Qed.

(** X12. With an event type configured, a start time that
    [datetime.fromisoformat] rejects, or one without an offset given with a
    time zone name [pytz] does not know, makes [create_booking] return the
    "Invalid start time format" message for that input; no request is
    issued, so nothing is booked. *)
Theorem create_booking_invalid_start :
  forall rt start_time_iso user_name user_email title user_timezone log,
    event_type_id_set rt = true ->
    (exists e,
        fromisoformat (Str.replace_char "Z" "+00:00" start_time_iso)
        = Raise e) \/
    (exists d e,
        fromisoformat (Str.replace_char "Z" "+00:00" start_time_iso) = Ok d /\
        tzinfo d = None /\
        pytz_timezone rt user_timezone = Raise e) ->
    create_booking rt start_time_iso user_name user_email title user_timezone
      log
    = (Ok (invalid_start_time start_time_iso), log).
Proof.
  intros rt s name email title tz log Hset Hbad.
  unfold create_booking. rewrite Hset. cbn [negb].
  assert (Hc : convert_iso_to_utc_api_format rt s tz
               = Raise (Exn ValueError (invalid_start_time s))).
  { unfold convert_iso_to_utc_api_format.
    destruct Hbad as [(e & He) | (d & e & Hd & Hn & He)].
    - rewrite He. cbn [bind try_except]. unfold isinstance. cbn [existsb].
      rewrite (fromisoformat_raises _ _ He). reflexivity.
    - rewrite Hd. cbn [bind]. rewrite Hn, He. cbn [bind try_except].
      unfold isinstance. cbn [existsb].
      rewrite (pytz_timezone_raises _ _ _ He). reflexivity. }
  rewrite Hc. reflexivity.
Qed.

Lemma create_booking_invalid_start_witness :
  create_booking Sample.rt0 "tomorrow at 3" "Ann" "ann@example.com" "Intro"
    "America/New_York" []
  = (Ok (invalid_start_time "tomorrow at 3"), []).
Proof.
  destruct (fromisoformat (Str.replace_char "Z" "+00:00" "tomorrow at 3"))
    as [d|e] eqn:E.
  - vm_compute in E. discriminate E.
  - apply (create_booking_invalid_start Sample.rt0 "tomorrow at 3").
    + reflexivity.
    + left. exists e. exact E.
Defined.


Lemma slots_request_eq rt date tz s :
  event_type_id rt = Some s ->
  mkreq "GET" (base_url rt ++ "/" ++ Str.lstrip_char "/" "slots")
    (get_headers rt (Some SLOTS_API_VERSION))
    [("eventTypeId", s); ("start", date ++ "T00:00:00Z");
     ("end", date ++ "T23:59:59Z"); ("format", "range"); ("timeZone", tz)]
    None
  = slots_request rt date tz.
Proof. intros H. unfold slots_request. rewrite H. reflexivity. Qed.

Lemma slots_tail_quiet rt date tz resp :
  quiet
    (if negb (success resp) then
       io_ret ("Error fetching available slots: "
               ++ str_of_optional (error resp))
     else
       io_bind (io_lift (not_success (data resp))) (fun failed : bool =>
       if failed then
         io_bind (io_lift (failure_details (data resp))) (fun error_msg =>
         io_ret ("Error: API returned failure. Details: " ++ error_msg))
       else
         io_bind (io_lift (py_get (data resp) "data" (PyDict [])))
           (fun slots_data =>
         if negb (truthy slots_data) then io_ret (no_slots_message date)
         else
           io_bind (io_lift (py_contains slots_data date)) (fun present : bool =>
           if negb present then io_ret (no_slots_message date)
           else
             io_bind (io_lift (py_getitem slots_data date)) (fun slots =>
             if negb (truthy slots) then io_ret (no_slots_message date)
             else
               io_bind (io_lift (py_iter slots)) (fun items =>
               io_bind
                 (io_lift (map_result_enumerate (slot_line rt tz) 1 items))
                 (fun formatted_slots =>
               io_ret ("Available slots for " ++ date ++ " (" ++ tz
                       ++ "):" ++ nl ++ Str.join nl formatted_slots)))))))).
Proof. quiet_tac. Qed.

(** X13. With an event type configured, [get_available_slots] issues
    exactly one request however the call ends: a GET to [/slots] under API
    version 2024-09-04 for the configured event type, asking for the range
    from 00:00:00Z to 23:59:59Z of the given date in the given time zone.
    Without an event type it issues none. *)
Theorem get_available_slots_requests :
  forall rt date user_timezone log r log',
    get_available_slots rt date user_timezone log = (r, log') ->
    log' = if event_type_id_set rt
           then (log ++ [slots_request rt date user_timezone])%list
           else log.
Proof.
  intros rt date tz log r log'. unfold get_available_slots.
  destruct (event_type_id_set rt) eqn:Hset; cbn [negb].
  2:{ intros H. inversion H. reflexivity. }
  unfold event_type_id_set in Hset.
  destruct (event_type_id rt) as [id|] eqn:Hid; [|discriminate].
  intros H.
  eapply io_bind_one_request; [| |exact H].
  - intros r1 l1 Hr. unfold client_get_available_slots in Hr.
    apply make_request_log in Hr.
    rewrite (slots_request_eq rt date tz id Hid) in Hr. exact Hr.
  - intros resp. apply slots_tail_quiet.
Qed.

Lemma get_available_slots_requests_witness :
  [slots_request Sample.rt0 "2025-07-25" "America/New_York"]
  = if event_type_id_set Sample.rt0
    then ([] ++ [slots_request Sample.rt0 "2025-07-25" "America/New_York"])%list
    else [].
Proof.
  apply (get_available_slots_requests
           (Sample.runtime_serving
              (Ok (Scenario.slots_payload "2025-07-25"
                     [Scenario.slot "2025-07-25T14:00:00.000Z"
                        "2025-07-25T14:30:00.000Z";
                      Scenario.slot "soon" "later"])))
           "2025-07-25" "America/New_York" []
           (Ok ("Available slots for 2025-07-25 (America/New_York):" ++ nl
                ++ "1. 10:00 - 10:30 America/New_York" ++ nl
                ++ "2. 00:00 - 00:00 America/New_York"))).
  vm_compute. reflexivity.
Defined.


Lemma slot_line_dict rt tz i slot :
  is_dict slot = true ->
  exists text, slot_line rt tz i slot = Ok (Str.of_Z i ++ ". " ++ text).
Proof.
  destruct slot as [| | | | |items]; try discriminate. intros _.
  unfold slot_line. cbn [py_get bind].
  destruct (convert_utc_to_user_timezone rt _ tz) as [d1|e];
    cbn [bind try_except_all]; [|eauto].
  destruct (convert_utc_to_user_timezone rt _ tz) as [d2|e];
    cbn [bind try_except_all]; [|eauto].
  rewrite !format_for_display_enum. cbn [bind try_except_all]. eauto.
Qed.

Lemma map_result_enumerate_numbered rt tz l :
  Forall (fun s => is_dict s = true) l ->
  forall start,
  exists texts,
    map_result_enumerate (slot_line rt tz) start l = Ok (numbered start texts)
    /\ length texts = length l.
Proof.
  induction 1 as [|a r Ha _ IH]; intros start; cbn [map_result_enumerate].
  - exists []. split; reflexivity.
  - destruct (slot_line_dict rt tz start a Ha) as (t & Ht).
    destruct (IH (start + 1)) as (ts & Hts & Hlen).
    rewrite Ht. cbn [bind]. rewrite Hts. cbn [bind].
    exists (t :: ts). cbn [numbered length]. split; [reflexivity | congruence].
Qed.

(** X14. When the slots query is answered below status 400 with a body
    that says "success" and holds the days in a dict: if the requested date
    is not a key of it, or its list is empty, [get_available_slots] returns
    the "No available slots" message; otherwise it returns the header and
    one line per slot, numbered from 1 in the order of the answer, as many
    lines as there are slots. *)
Theorem get_available_slots_listing :
  forall rt date user_timezone log code text items days,
    event_type_id_set rt = true ->
    remote rt log (slots_request rt date user_timezone)
    = Response code text (Ok (PyDict items)) ->
    code < 400 ->
    dict_get items "status" = Some (PyStr "success") ->
    dict_get items "data" = Some (PyDict days) ->
    let log' := (log ++ [slots_request rt date user_timezone])%list in
    (dict_get days date = None \/ dict_get days date = Some (PyList []) ->
     get_available_slots rt date user_timezone log
     = (Ok (no_slots_message date), log')) /\
    (forall slots,
        dict_get days date = Some (PyList slots) ->
        slots <> [] ->
        Forall (fun s => is_dict s = true) slots ->
        exists texts,
          length texts = length slots /\
          get_available_slots rt date user_timezone log
          = (Ok ("Available slots for " ++ date ++ " (" ++ user_timezone
                 ++ "):" ++ nl ++ Str.join nl (numbered 1 texts)), log')).
Proof.
  intros rt date tz log code text items days Hset Hr Hc Hst Hdata log'.
  assert (Hstart :
    get_available_slots rt date tz log
    = (io_bind (io_lift (py_get (PyDict items) "data" (PyDict [])))
         (fun slots_data =>
         if negb (truthy slots_data) then io_ret (no_slots_message date)
         else
           io_bind (io_lift (py_contains slots_data date)) (fun present : bool =>
           if negb present then io_ret (no_slots_message date)
           else
             io_bind (io_lift (py_getitem slots_data date)) (fun slots =>
             if negb (truthy slots) then io_ret (no_slots_message date)
             else
               io_bind (io_lift (py_iter slots)) (fun items =>
               io_bind
                 (io_lift (map_result_enumerate (slot_line rt tz) 1 items))
                 (fun formatted_slots =>
               io_ret ("Available slots for " ++ date ++ " (" ++ tz
                       ++ "):" ++ nl ++ Str.join nl formatted_slots)))))))
        log').
  { unfold get_available_slots. rewrite Hset. cbn [negb].
    unfold event_type_id_set in Hset.
    destruct (event_type_id rt) as [id|] eqn:Hid; [|discriminate].
    unfold io_bind at 1. unfold client_get_available_slots.
    rewrite (make_request_decoded rt "GET" "slots" (Some SLOTS_API_VERSION)
               _ None log code text (PyDict items)).
    2:{ rewrite (slots_request_eq rt date tz id Hid). exact Hr. }
    2:{ exact Hc. }
    rewrite (slots_request_eq rt date tz id Hid).
    cbn [success negb data].
    unfold io_bind at 1, io_lift at 1.
    assert (Hns : not_success (PyDict items) = Ok false).
    { unfold not_success. destruct items as [|kv items']; [discriminate|].
      cbn [truthy negb py_get bind]. rewrite Hst. reflexivity. }
    rewrite Hns. reflexivity. }
  rewrite Hstart. unfold io_bind at 1, io_lift at 1. cbn [py_get].
  rewrite Hdata.
  split.
  - intros Hnone. destruct days as [|kv days'].
    + reflexivity.
    + cbn [truthy negb]. unfold io_bind at 1, io_lift at 1.
      cbn [py_contains].
      destruct Hnone as [Hn | Hn]; rewrite Hn; cbn [negb]; [reflexivity|].
      unfold io_bind, io_lift. cbn [py_getitem]. rewrite Hn. reflexivity.
  - intros slots Hd Hne Hdicts.
    destruct (map_result_enumerate_numbered rt tz slots Hdicts 1)
      as (texts & Ht & Hlen).
    exists texts. split; [exact Hlen|].
    destruct days as [|kv days']; [discriminate|].
    cbn [truthy negb]. unfold io_bind, io_lift.
    cbn [py_contains py_getitem]. rewrite Hd. cbn [negb].
    destruct slots as [|s0 rest]; [contradiction|].
    cbn [truthy negb py_iter]. rewrite Ht. reflexivity.
Qed.

Lemma get_available_slots_listing_witness :
  exists texts,
    length texts = 2%nat /\
    get_available_slots
      (Sample.runtime_serving
              (Ok (Scenario.slots_payload "2025-07-25"
                     [Scenario.slot "2025-07-25T14:00:00.000Z"
                        "2025-07-25T14:30:00.000Z";
                      Scenario.slot "soon" "later"])))
      "2025-07-25" "America/New_York" []
    = (Ok ("Available slots for 2025-07-25 (America/New_York):" ++ nl
           ++ Str.join nl (numbered 1 texts)),
       [slots_request Sample.rt0 "2025-07-25" "America/New_York"]).
Proof.
  destruct (get_available_slots_listing
              (Sample.runtime_serving
              (Ok (Scenario.slots_payload "2025-07-25"
                     [Scenario.slot "2025-07-25T14:00:00.000Z"
                        "2025-07-25T14:30:00.000Z";
                      Scenario.slot "soon" "later"])))
              "2025-07-25" "America/New_York" [] 200 ""
              [("status", PyStr "success");
               ("data",
                PyDict [("2025-07-25",
                         PyList [Scenario.slot "2025-07-25T14:00:00.000Z"
                                   "2025-07-25T14:30:00.000Z";
                                 Scenario.slot "soon" "later"])])]
              [("2025-07-25",
                PyList [Scenario.slot "2025-07-25T14:00:00.000Z"
                          "2025-07-25T14:30:00.000Z";
                        Scenario.slot "soon" "later"])]
              eq_refl eq_refl ltac:(lia) eq_refl eq_refl) as [_ H].
  apply (H [Scenario.slot "2025-07-25T14:00:00.000Z"
              "2025-07-25T14:30:00.000Z";
            Scenario.slot "soon" "later"]).
  - reflexivity.
  - discriminate.
  - repeat constructor.
Defined.

(** ** TimezoneHandler *)

(** X15. [convert_utc_to_user_timezone] keeps the instant: for a string
    that parses with an offset and a zone [pytz] knows (other than the
    literal "UTC", which returns the parsed value as it is), the result
    denotes the same UTC instant as the input and carries the offset the
    zone has at that instant, as long as both the UTC reading and the
    zone's reading lie within [datetime]'s range. *)
Theorem convert_utc_to_user_timezone_instant :
  forall rt s user_timezone d off z,
    fromisoformat (Str.replace_char "Z" "+00:00" s) = Ok d ->
    tzinfo d = Some off ->
    String.eqb user_timezone "UTC" = false ->
    pytz_timezone rt user_timezone = Ok z ->
    0 <= wall d - off < MAX_WALL ->
    0 <= wall d - off + zone_offset_at z (wall d - off) < MAX_WALL ->
    exists r,
      convert_utc_to_user_timezone rt (PyStr s) user_timezone = Ok r /\
      utc_instant r = utc_instant d /\
      tzinfo r = Some (zone_offset_at z (wall d - off)).
Proof.
  intros rt s tz d off z Hp Htz Hne Hz Hu Hl.
  destruct (astimezone_aware rt d off z Htz Hu Hl) as (r & Hr & Hw & Ht).
  exists r. unfold convert_utc_to_user_timezone.
  cbn [py_replace_Z bind]. rewrite Hp. cbn [bind]. rewrite Hne, Hz.
  cbn [bind]. rewrite Hr. cbn [try_except].
  split; [reflexivity|]. split; [|exact Ht].
  unfold utc_instant. rewrite Ht, Htz, Hw. f_equal. lia.
Qed.

Lemma convert_utc_to_user_timezone_instant_witness :
  exists r,
    convert_utc_to_user_timezone Sample.rt0
      (PyStr "2025-07-24T18:00:00.347Z") "America/New_York" = Ok r /\
    utc_instant r = utc_instant (Sample.at_utc 2025 7 24 18 0 0 347000) /\
    tzinfo r
    = Some (zone_offset_at Sample.America_New_York
              (wall (Sample.at_utc 2025 7 24 18 0 0 347000) - 0)).
Proof.
  apply (convert_utc_to_user_timezone_instant Sample.rt0
           "2025-07-24T18:00:00.347Z" "America/New_York"
           (Sample.at_utc 2025 7 24 18 0 0 347000) 0
           Sample.America_New_York).
  - vm_compute. reflexivity.
  - reflexivity.
  - reflexivity.
  - vm_compute. reflexivity.
  - split; [apply Z.leb_le | apply Z.ltb_lt]; vm_compute; reflexivity.
  - split; [apply Z.leb_le | apply Z.ltb_lt]; vm_compute; reflexivity.
Defined.


Lemma strptime_Ymd_HM_raises s : fails_with ValueError (strptime_Ymd_HM s).
Proof.
  unfold strptime_Ymd_HM.
  destruct (Strptime.regex s) as [|[[[[[y m] d] h] mi] rest] l].
  - apply fails_with_raise.
  - destruct rest; [apply dt_new_raises | apply fails_with_raise].
Qed.

Lemma convert_user_time_to_utc_unparseable rt d t tz e :
  strptime_Ymd_HM (d ++ " " ++ t) = Raise e ->
  convert_user_time_to_utc rt d t tz = Ok (now_utc rt).
Proof.
  intros H. unfold convert_user_time_to_utc. cbv zeta.
  rewrite H. cbn [bind try_except]. unfold isinstance. cbn [existsb].
  rewrite (strptime_Ymd_HM_raises _ _ H). reflexivity.
Qed.

Lemma convert_user_time_to_utc_unknown_zone rt d t tz e :
  String.eqb tz "UTC" = false ->
  pytz_timezone rt tz = Raise e ->
  convert_user_time_to_utc rt d t tz = Ok (now_utc rt).
Proof.
  intros Hne Hz.
  destruct (strptime_Ymd_HM (d ++ " " ++ t)) as [dt|e'] eqn:Hp.
  - unfold convert_user_time_to_utc. cbv zeta. rewrite Hp. cbn [bind].
    rewrite Hne, Hz. cbn [bind try_except]. unfold isinstance.
    cbn [existsb]. rewrite (pytz_timezone_raises _ _ _ Hz). reflexivity.
  - exact (convert_user_time_to_utc_unparseable rt d t tz e' Hp).
Qed.

(** X16. With a time zone name [pytz] does not know, both read-path
    conversions return the clock's current time in UTC for every input,
    without an error: [convert_utc_to_user_timezone] for every string,
    whether it parses or not, and [convert_user_time_to_utc] for every date
    and time. *)
Theorem unknown_zone_yields_clock :
  forall rt user_timezone e,
    String.eqb user_timezone "UTC" = false ->
    pytz_timezone rt user_timezone = Raise e ->
    (forall s,
        convert_utc_to_user_timezone rt (PyStr s) user_timezone
        = Ok (now_utc rt)) /\
    (forall date_str time_str,
        convert_user_time_to_utc rt date_str time_str user_timezone
        = Ok (now_utc rt)).
Proof.
  intros rt tz e Hne Hz. split.
  - intros s.
    destruct (fromisoformat (Str.replace_char "Z" "+00:00" s)) as [d|e']
      eqn:Hp.
    + unfold convert_utc_to_user_timezone. cbn [py_replace_Z bind].
      rewrite Hp. cbn [bind]. rewrite Hne, Hz. cbn [bind try_except].
      unfold isinstance. cbn [existsb].
      rewrite (pytz_timezone_raises _ _ _ Hz). reflexivity.
    + exact (convert_utc_to_user_timezone_unparseable rt s tz e' Hp).
  - intros d t. exact (convert_user_time_to_utc_unknown_zone rt d t tz e Hne Hz).
Qed.

Lemma unknown_zone_yields_clock_witness :
  (forall s,
      convert_utc_to_user_timezone Sample.rt0 (PyStr s) "Mars/Olympus"
      = Ok (now_utc Sample.rt0)) /\
  (forall date_str time_str,
      convert_user_time_to_utc Sample.rt0 date_str time_str "Mars/Olympus"
      = Ok (now_utc Sample.rt0)).
Proof.
  apply (unknown_zone_yields_clock Sample.rt0 "Mars/Olympus"
           (Exn UnknownTimeZoneError "Mars/Olympus")).
  - reflexivity.
  - vm_compute. reflexivity.
Defined.


(** X17. When the date and time do not match [%Y-%m-%d %H:%M], or the
    time zone name is unknown, [find_booking_by_time] does not report the
    bad input: it searches for the clock's current minute instead, and
    returns the first accepted booking that starts in it. *)
Theorem find_booking_by_time_fallback_target :
  forall rt bookings target_date target_time user_timezone,
    (exists e,
        strptime_Ymd_HM (target_date ++ " " ++ target_time) = Raise e) \/
    (String.eqb user_timezone "UTC" = false /\
     exists e, pytz_timezone rt user_timezone = Raise e) ->
    Forall (fun b => well_formed_booking b = true) bookings ->
    find_booking_by_time rt bookings target_date target_time user_timezone
    = find (matches (now_utc rt)) bookings.
Proof.
  intros rt bookings d t tz Hbad Hwf.
  assert (Hc : convert_user_time_to_utc rt d t tz = Ok (now_utc rt)).
  { destruct Hbad as [(e & He) | (Hne & e & He)].
    - exact (convert_user_time_to_utc_unparseable rt d t tz e He).
    - exact (convert_user_time_to_utc_unknown_zone rt d t tz e Hne He). }
  unfold find_booking_by_time. rewrite Hc. cbn [bind].
  rewrite (scan_bookings_find _ _ Hwf). reflexivity.
Qed.

Lemma find_booking_by_time_fallback_target_witness :
  find_booking_by_time Sample.rt0 [Sample.hit; Scenario.imminent]
    "24/07/2025" "2pm" "America/New_York"
  = Some Scenario.imminent.
Proof.
  destruct (strptime_Ymd_HM ("24/07/2025" ++ " " ++ "2pm")) as [d|e] eqn:E.
  - vm_compute in E. discriminate E.
  - rewrite (find_booking_by_time_fallback_target Sample.rt0
               [Sample.hit; Scenario.imminent] "24/07/2025" "2pm"
               "America/New_York").
    + vm_compute. reflexivity.
    + left. exists e. exact E.
    + repeat constructor.
Defined.

(** ** The format of the write path *)

Lemma length_string_of_list_ascii l :
  String.length (string_of_list_ascii l) = length l.
Proof.
  induction l as [|a l IH]; cbn [string_of_list_ascii String.length length];
    congruence.
Qed.

Lemma rev_digits_length k :
  forall fuel z,
    (1 <= k)%nat -> 0 <= z < 10 ^ Z.of_nat k ->
    (length (Str.rev_digits fuel z) <= k)%nat.
Proof.
  induction k as [|k IH]; intros fuel z Hk Hz; [lia|].
  destruct fuel as [|f]; cbn [Str.rev_digits length]; [lia|].
  destruct (z <? 10) eqn:E; cbn [length]; [lia|].
  apply Z.ltb_ge in E.
  destruct k as [|k'].
  - cbn in Hz. lia.
  - apply le_n_S. apply IH; [lia|].
    rewrite Nat2Z.inj_succ, Z.pow_succ_r in Hz by lia.
    split; [apply Z.div_pos; lia|].
    apply Z.div_lt_upper_bound; lia.
Qed.

Lemma length_zeros n : String.length (Str.zeros n) = n.
Proof. induction n as [|n IH]; cbn [Str.zeros String.length]; congruence. Qed.

Lemma zpad6_length z :
  0 <= z < 1000000 -> String.length (Str.zpad 6 z) = 6%nat.
Proof.
  intros Hz. unfold Str.zpad. cbv zeta. rewrite length_append_str, length_zeros.
  assert (String.length (Str.of_nonneg z) <= 6)%nat; [|lia].
  unfold Str.of_nonneg. rewrite length_string_of_list_ascii, length_rev.
  apply rev_digits_length; [lia|]. cbn. lia.
Qed.

Lemma take_app_length a n b :
  Str.take (String.length a + n) (a ++ b) = a ++ Str.take n b.
Proof.
  induction a as [|x a IH];
    cbn [String.length Nat.add String.append Str.take]; [reflexivity|].
  rewrite IH. reflexivity.
Qed.

Lemma take_app_short n a b :
  (n <= String.length a)%nat -> Str.take n (a ++ b) = Str.take n a.
Proof.
  revert a. induction n as [|n IH]; intros a H.
  - destruct a; reflexivity.
  - destruct a as [|x a]; cbn [String.length] in H; [lia|].
    cbn [String.append Str.take]. rewrite IH by lia. reflexivity.
Qed.

Lemma length_take n s :
  (n <= String.length s)%nat -> String.length (Str.take n s) = n.
Proof.
  revert s. induction n as [|n IH]; intros s H.
  - destruct s; reflexivity.
  - destruct s as [|x s]; cbn [String.length] in H; [lia|].
    cbn [Str.take String.length]. rewrite IH by lia. reflexivity.
Qed.

(** The format of the write path, cut before the fraction. *)
Lemma strftime_api_split d :
  strftime d "%Y-%m-%dT%H:%M:%S.%fZ"
  = strftime d "%Y-%m-%dT%H:%M:%S." ++ Str.zpad 6 (dt_microsecond d) ++ "Z".
Proof.
  cbn [strftime].
  change (directive d "f") with (Str.zpad 6 (dt_microsecond d)).
  repeat (rewrite append_assoc_str; cbn [String.append]).
  reflexivity.
Qed.

Lemma api_format_cut d :
  Str.drop_last 3 (strftime d "%Y-%m-%dT%H:%M:%S.%fZ")
  = strftime d "%Y-%m-%dT%H:%M:%S."
    ++ Str.take 4 (Str.zpad 6 (dt_microsecond d)) /\
  String.length (Str.take 4 (Str.zpad 6 (dt_microsecond d))) = 4%nat.
Proof.
  assert (Hlen : String.length (Str.zpad 6 (dt_microsecond d)) = 6%nat).
  { apply zpad6_length. unfold dt_microsecond, US_PER_SECOND.
    apply Z.mod_pos_bound. lia. }
  split; [|apply length_take; lia].
  rewrite strftime_api_split. unfold Str.drop_last.
  rewrite !length_append_str, Hlen. cbn [String.length].
  replace (String.length (strftime d "%Y-%m-%dT%H:%M:%S.") + (6 + 1) - 3)%nat
    with (String.length (strftime d "%Y-%m-%dT%H:%M:%S.") + 4)%nat by lia.
  rewrite take_app_length. f_equal. apply take_app_short. lia.
Qed.

Lemma astimezone_utc rt d utc :
  astimezone rt d ZoneUTC = Ok utc ->
  tzinfo utc = Some 0 /\
  forall off, tzinfo d = Some off -> wall utc = wall d - off.
Proof.
  unfold astimezone. intros H.
  apply bind_Ok in H. destruct H as (myoffset & Hoff & H).
  apply bind_Ok in H. destruct H as (u & Hu & H).
  apply dt_add_Ok in Hu. destruct Hu as [-> _].
  cbn [fromutc replace_tzinfo wall] in H. inversion H. subst utc.
  split; [reflexivity|]. intros off Htz. rewrite Htz in Hoff.
  inversion Hoff. subst. unfold replace_tzinfo. cbn [wall]. lia.
Qed.

(** X18. Every string [convert_iso_to_utc_api_format] returns has the
    same shape: the UTC date and time to the second, a dot, four
    fractional digits (the first four of the six microsecond digits) and
    "Z".  The time is that of a value with offset zero which, for an input
    written with an offset, denotes the input's instant. *)
Theorem convert_iso_to_utc_api_format_shape :
  forall rt start_time_iso user_timezone utc_time,
    convert_iso_to_utc_api_format rt start_time_iso user_timezone
    = Ok utc_time ->
    exists d utc,
      fromisoformat (Str.replace_char "Z" "+00:00" start_time_iso) = Ok d /\
      tzinfo utc = Some 0 /\
      (forall off, tzinfo d = Some off -> wall utc = wall d - off) /\
      utc_time
      = strftime utc "%Y-%m-%dT%H:%M:%S."
        ++ Str.take 4 (Str.zpad 6 (dt_microsecond utc)) ++ "Z" /\
      String.length (Str.take 4 (Str.zpad 6 (dt_microsecond utc))) = 4%nat.
Proof.
  intros rt s tz out H. unfold convert_iso_to_utc_api_format in H.
  apply try_except_Ok in H.
  destruct H as [H | (e & _ & _ & H)]; [|discriminate].
  apply bind_Ok in H. destruct H as (d & Hd & H).
  apply bind_Ok in H. destruct H as (d' & Hd' & H).
  apply bind_Ok in H. destruct H as (utc & Hutc & H).
  cbv zeta in H. injection H as Hout.
  destruct (astimezone_utc rt d' utc Hutc) as [Htz Hw].
  destruct (api_format_cut utc) as [Hcut Hlen].
  exists d, utc. split; [exact Hd|]. split; [exact Htz|].
  split.
  - intros off Hoff. rewrite Hoff in Hd'. inversion Hd'. subst d'.
    exact (Hw off Hoff).
  - split; [|exact Hlen].
    change (Str.drop_last 3 (strftime utc "%Y-%m-%dT%H:%M:%S.%fZ") ++ "Z"
            = out) in Hout.
    rewrite <- Hout, Hcut. rewrite append_assoc_str.
    reflexivity.
Qed.

Lemma convert_iso_to_utc_api_format_shape_witness :
  exists d utc,
    fromisoformat (Str.replace_char "Z" "+00:00" "2025-07-24T20:00:00.347+02:00")
    = Ok d /\
    tzinfo utc = Some 0 /\
    (forall off, tzinfo d = Some off -> wall utc = wall d - off) /\
    "2025-07-24T18:00:00.3470Z"
    = strftime utc "%Y-%m-%dT%H:%M:%S."
      ++ Str.take 4 (Str.zpad 6 (dt_microsecond utc)) ++ "Z" /\
    String.length (Str.take 4 (Str.zpad 6 (dt_microsecond utc))) = 4%nat.
Proof.
  apply (convert_iso_to_utc_api_format_shape Sample.rt0
           "2025-07-24T20:00:00.347+02:00" "America/New_York").
  vm_compute. reflexivity.
Defined.

(** ** DateTimeFormatter, for kinds given as strings *)

(** X19. A format kind given as a string selects the pattern of the enum
    member with that value; any other string is no error: the value is
    rendered as [str(dt)]. *)
Theorem format_for_display_kinds :
  forall dt user_timezone,
    (forall f,
        format_for_display dt user_timezone (FmtStr (FormatType_value f))
        = Ok (strftime dt (FORMAT_PATTERNS f))) /\
    (forall s,
        (forall f, s <> FormatType_value f) ->
        format_for_display dt user_timezone (FmtStr s) = Ok (dt_str dt)).
Proof.
  intros dt tz. split.
  - intros f. destruct f; reflexivity.
  - intros s Hs. unfold format_for_display, FormatType_of_value.
    pose proof (Hs TIME_ONLY) as H1. pose proof (Hs DATE_TIME) as H2.
    pose proof (Hs FRIENDLY) as H3. pose proof (Hs DEFAULT) as H4.
    cbn [FormatType_value] in *.
    apply String.eqb_neq in H1, H2, H3, H4. rewrite H1, H2, H3, H4.
    reflexivity.
Qed.

Lemma format_for_display_kinds_witness :
  format_for_display (Sample.at_utc 2025 7 24 18 0 0 0) "UTC" (FmtStr "iso")
  = Ok (dt_str (Sample.at_utc 2025 7 24 18 0 0 0)).
Proof.
  apply (format_for_display_kinds (Sample.at_utc 2025 7 24 18 0 0 0) "UTC").
  intros f. destruct f; discriminate.
Defined.


(** ** CalApiConfig *)

(** X20. [CalApiConfig()] succeeds exactly when [CAL_API_KEY] is set to a
    non-empty string; otherwise it raises the [ValueError] that names the
    variable.  A constructed configuration holds that key, the base URL of
    the environment or the default one, and the event type of the
    environment; its [is_configured] says whether the event type is set,
    which is what the tools test. *)
Theorem CalApiConfig_init_spec :
  forall env,
    match CalApiConfig_init env with
    | Ok self =>
        (exists key, env "CAL_API_KEY" = Some key /\ key <> "" /\
                     cfg_api_key self = Some key) /\
        cfg_base_url self
        = match env "CAL_BASE_URL" with
          | Some url => url
          | None => "https://api.cal.com/v2"
          end /\
        cfg_event_type_id self = env "CAL_EVENT_TYPE_ID" /\
        is_configured self = truthy_opt (env "CAL_EVENT_TYPE_ID")
    | Raise e =>
        e = Exn ValueError "CAL_API_KEY environment variable is required" /\
        (env "CAL_API_KEY" = None \/ env "CAL_API_KEY" = Some "")
    end.
Proof.
  intros env. unfold CalApiConfig_init, _validate_config, is_configured.
  cbv zeta. cbn [cfg_api_key cfg_base_url cfg_event_type_id].
  destruct (env "CAL_API_KEY") as [key|] eqn:Hk; cbn [truthy_opt negb].
  - destruct (String.eqb key "") eqn:E; cbn [negb bind raise].
    + apply String.eqb_eq in E. subst key. split; [reflexivity | auto].
    + apply String.eqb_neq in E.
      cbn [cfg_api_key cfg_base_url cfg_event_type_id truthy_opt].
      rewrite (proj2 (String.eqb_neq key "") E). cbn [negb andb].
      repeat split. exists key. auto.
  - cbn [bind raise]. split; [reflexivity | auto].
Qed.

(** ** _make_request: what it normalises *)

(** X21. [_make_request] ignores a leading slash of the endpoint, and an
    empty API version selects the default version like no version. *)
Theorem make_request_normalises :
  forall rt method endpoint params json,
    _make_request rt method ("/" ++ endpoint) None params json
    = _make_request rt method endpoint None params json /\
    _make_request rt method endpoint (Some "") params json
    = _make_request rt method endpoint None params json.
Proof.
  intros. split; reflexivity.
Qed.

(** ** Payloads that are not what the tools expect *)

Lemma filter_result_raises {A} (f : A -> result bool) pre v post e :
  Forall (fun a => exists k, f a = Ok k) pre ->
  f v = Raise e ->
  filter_result f (pre ++ v :: post) = Raise e.
Proof.
  intros Hpre Hv. induction Hpre as [|a r (k & Hk) _ IH];
    cbn [app filter_result].
  - rewrite Hv. reflexivity.
  - rewrite Hk. cbn [bind]. rewrite IH. reflexivity.
Qed.

Lemma upcoming_accepted_non_dict now v :
  is_dict v = false ->
  upcoming_accepted now v
  = Raise (Exn AttributeError
             ("'" ++ type_name v ++ "' object has no attribute 'get'")).
Proof.
  destruct v; try discriminate; reflexivity.
Qed.

(** X22. The tools do not guard against a bookings list that holds
    something other than a dict: at the first such element, after
    well-formed bookings only, [_get_upcoming_accepted_bookings] raises
    [AttributeError], and [list_bookings], [cancel_booking] and
    [reschedule_booking] raise it to their caller instead of returning a
    message. *)
Theorem bookings_non_dict_raises :
  forall rt user_email log code text items pre v post,
    remote rt log (bookings_request rt user_email)
    = Response code text (Ok (PyDict items)) ->
    code < 400 ->
    dict_get items "status" = Some (PyStr "success") ->
    dict_get items "data" = Some (PyList (pre ++ v :: post)) ->
    Forall (fun b => well_formed_booking b = true) pre ->
    is_dict v = false ->
    let e := Exn AttributeError
               ("'" ++ type_name v ++ "' object has no attribute 'get'") in
    let log' := (log ++ [bookings_request rt user_email])%list in
    _get_upcoming_accepted_bookings rt user_email log = (Raise e, log') /\
    (forall tz, list_bookings rt user_email tz log = (Raise e, log')) /\
    (forall d t tz, cancel_booking rt user_email d t tz log = (Raise e, log')) /\
    (forall d t new_time tz,
        reschedule_booking rt user_email d t new_time tz log
        = (Raise e, log')).
Proof.
  intros rt user_email log code text items pre v post Hr Hc Hst Hdata Hwf Hv
         e log'.
  assert (H : _get_upcoming_accepted_bookings rt user_email log
              = (Raise e, log')).
  { unfold _get_upcoming_accepted_bookings, get_bookings, io_bind.
    rewrite (make_request_decoded rt "GET" "bookings" None _ None log
               code text (PyDict items) Hr Hc).
    cbn [success negb data]. unfold io_lift, io_ret.
    assert (Hns : not_success (PyDict items) = Ok false).
    { unfold not_success. destruct items as [|kv items']; [discriminate|].
      cbn [truthy negb py_get bind]. rewrite Hst. reflexivity. }
    rewrite Hns. cbn [py_get]. rewrite Hdata. cbn [py_iter].
    rewrite (filter_result_raises (upcoming_accepted (now_utc rt))
               pre v post e).
    - reflexivity.
    - eapply Forall_impl; [|exact Hwf]. intros b Hb.
      rewrite (upcoming_accepted_well_formed rt b Hb). eauto.
    - exact (upcoming_accepted_non_dict _ v Hv). }
  split; [exact H|].
  repeat split; intros;
    unfold list_bookings, cancel_booking, reschedule_booking, io_bind;
    rewrite H; reflexivity.
Qed.

Lemma bookings_non_dict_raises_witness :
  list_bookings
    (Sample.runtime_serving
       (Ok (Sample.bookings_payload [Sample.hit; PyStr "oops"; Sample.late])))
    "ann@example.com" "UTC" []
  = (Raise (Exn AttributeError "'str' object has no attribute 'get'"),
     [bookings_request Sample.rt0 "ann@example.com"]).
Proof.
  apply (bookings_non_dict_raises
           (Sample.runtime_serving
              (Ok (Sample.bookings_payload
                     [Sample.hit; PyStr "oops"; Sample.late])))
           "ann@example.com" [] 200 ""
           [("status", PyStr "success");
            ("data", PyList [Sample.hit; PyStr "oops"; Sample.late])]
           [Sample.hit] (PyStr "oops") [Sample.late]).
  - reflexivity.
  - lia.
  - reflexivity.
  - reflexivity.
  - repeat constructor.
  - reflexivity.
Defined.


(** X23. A fetch answered below status 400 is still reported as a failure
    when the body is empty ([null], an empty dict or list): the helper
    returns no list and the message with the details "No data"; and when
    the body is a dict whose status is not "success", the details are the
    body's [error], or "Unknown error" when it has none. *)
Theorem fetch_failure_payload_reported :
  forall rt user_email log code text v,
    remote rt log (bookings_request rt user_email)
    = Response code text (Ok v) ->
    code < 400 ->
    let log' := (log ++ [bookings_request rt user_email])%list in
    (truthy v = false ->
     _get_upcoming_accepted_bookings rt user_email log
     = (Ok (None, Some "Error: API returned failure. Details: No data"),
        log')) /\
    (forall items,
        v = PyDict items ->
        items <> [] ->
        dict_get items "status" <> Some (PyStr "success") ->
        _get_upcoming_accepted_bookings rt user_email log
        = (Ok (None,
               Some ("Error: API returned failure. Details: "
                     ++ py_str match dict_get items "error" with
                               | Some x => x
                               | None => PyStr "Unknown error"
                               end)),
           log')).
Proof.
  intros rt user_email log code text v Hr Hc log'.
  assert (Hstart :
    _get_upcoming_accepted_bookings rt user_email log
    = io_bind (io_lift (not_success v)) (fun failed : bool =>
        if failed then
          io_bind (io_lift (failure_details v)) (fun error_msg =>
          io_ret (None,
                  Some ("Error: API returned failure. Details: " ++ error_msg)))
        else
          io_bind (io_lift (py_get v "data" (PyList []))) (fun all_bookings =>
          io_bind (io_lift (py_iter all_bookings)) (fun bookings =>
          io_bind (io_lift (filter_result (upcoming_accepted (now_utc rt))
                              bookings)) (fun accepted_bookings =>
          io_ret (Some accepted_bookings, None))))) log').
  { unfold _get_upcoming_accepted_bookings, get_bookings.
    unfold io_bind at 1.
    rewrite (make_request_decoded rt "GET" "bookings" None _ None log
               code text v Hr Hc).
    reflexivity. }
  rewrite Hstart. split.
  - intros Hf. unfold io_bind, io_lift, io_ret, not_success, failure_details.
    rewrite Hf. reflexivity.
  - intros items -> Hne Hst.
    unfold io_bind, io_lift, io_ret, not_success, failure_details.
    destruct items as [|kv items']; [contradiction|].
    cbn [truthy negb py_get bind].
    assert (Hn : py_ne_str match dict_get (kv :: items') "status" with
                           | Some x => x
                           | None => PyNone
                           end "success" = true).
    { destruct (dict_get (kv :: items') "status") as [x|]; [|reflexivity].
      destruct x; try reflexivity. cbn [py_ne_str].
      destruct (String.eqb s "success") eqn:E; [|reflexivity].
      apply String.eqb_eq in E. subst s. contradiction. }
    rewrite Hn. reflexivity.
Qed.

Lemma fetch_failure_payload_reported_witness :
  _get_upcoming_accepted_bookings (Sample.runtime_serving (Ok PyNone))
    "ann@example.com" []
  = (Ok (None, Some "Error: API returned failure. Details: No data"),
     [bookings_request Sample.rt0 "ann@example.com"]).
Proof.
  apply (fetch_failure_payload_reported (Sample.runtime_serving (Ok PyNone))
           "ann@example.com" [] 200 "" PyNone).
  - reflexivity.
  - lia.
  - reflexivity.
Defined.

(** ** reschedule_booking: times that do not convert *)

Lemma convert_iso_to_utc_api_format_rejects rt s tz :
  (exists e, fromisoformat (Str.replace_char "Z" "+00:00" s) = Raise e) \/
  (exists d e,
      fromisoformat (Str.replace_char "Z" "+00:00" s) = Ok d /\
      tzinfo d = None /\
      pytz_timezone rt tz = Raise e) ->
  convert_iso_to_utc_api_format rt s tz
  = Raise (Exn ValueError (invalid_start_time s)).
Proof.
  intros Hbad. unfold convert_iso_to_utc_api_format.
  destruct Hbad as [(e & He) | (d & e & Hd & Hn & He)].
  - rewrite He. cbn [bind try_except]. unfold isinstance. cbn [existsb].
    rewrite (fromisoformat_raises _ _ He). reflexivity.
  - rewrite Hd. cbn [bind]. rewrite Hn, He. cbn [bind try_except].
    unfold isinstance. cbn [existsb].
    rewrite (pytz_timezone_raises _ _ _ He). reflexivity.
Qed.

(** X24. When a booking matches but the new start time is one
    [datetime.fromisoformat] rejects, or has no offset while the time zone
    name is unknown, [reschedule_booking] returns the "Invalid start time
    format" message for the new time and issues no request beyond the
    fetch: the booking stays as it is. *)
Theorem reschedule_booking_invalid_new_time :
  forall rt user_email current_date current_time new_start_time_iso
         user_timezone log l log1 b,
    _get_upcoming_accepted_bookings rt user_email log
    = (Ok (Some l, None), log1) ->
    find_booking_by_time rt l current_date current_time user_timezone
    = Some b ->
    (exists e,
        fromisoformat (Str.replace_char "Z" "+00:00" new_start_time_iso)
        = Raise e) \/
    (exists d e,
        fromisoformat (Str.replace_char "Z" "+00:00" new_start_time_iso)
        = Ok d /\
        tzinfo d = None /\
        pytz_timezone rt user_timezone = Raise e) ->
    reschedule_booking rt user_email current_date current_time
      new_start_time_iso user_timezone log
    = (Ok (invalid_start_time new_start_time_iso), log1).
Proof.
  intros rt user_email date time new tz log l log1 b Hf Hfind Hbad.
  destruct (find_booking_by_time_Some _ _ _ _ _ _ Hfind)
    as (target & Hconv & _).
  destruct (find_booking_by_time_In _ _ _ _ _ _ Hfind) as [Hin Hacc].
  unfold reschedule_booking, io_bind. rewrite Hf. cbn [truthy_opt].
  destruct l as [|b0 rest]; [contradiction|].
  rewrite Hconv. cbn [bind]. rewrite format_for_display_enum.
  rewrite Hfind. rewrite (accepted_truthy _ Hacc). cbn [negb].
  unfold convert_new_time.
  rewrite (convert_iso_to_utc_api_format_rejects rt new tz Hbad).
  reflexivity.
Qed.

Lemma reschedule_booking_invalid_new_time_witness :
  reschedule_booking
    (Sample.runtime_serving
       (Ok (Sample.bookings_payload [Sample.early; Sample.hit])))
    "ann@example.com" "2025-07-24" "14:00" "next friday" "America/New_York" []
  = (Ok (invalid_start_time "next friday"),
     [bookings_request Sample.rt0 "ann@example.com"]).
Proof.
  destruct (fromisoformat (Str.replace_char "Z" "+00:00" "next friday"))
    as [d|e] eqn:E.
  - vm_compute in E. discriminate E.
  - apply (reschedule_booking_invalid_new_time
             (Sample.runtime_serving
                (Ok (Sample.bookings_payload [Sample.early; Sample.hit])))
             "ann@example.com" "2025-07-24" "14:00" "next friday"
             "America/New_York" [] [Sample.early; Sample.hit]
             [bookings_request Sample.rt0 "ann@example.com"] Sample.hit).
    + vm_compute. reflexivity.
    + vm_compute. reflexivity.
    + left. exists e. exact E.
Defined.


(** X25. [reschedule_booking] answers "Error: Invalid current date/time
    format." only when the conversion of the current date and time raises,
    and then with the text of the exception and no further request.  Such
    an exception is never the [ValueError] of a malformed date or the error
    of an unknown zone, which the conversion handles itself. *)
Theorem reschedule_booking_current_time_raises :
  forall rt user_email current_date current_time new_start_time_iso
         user_timezone log l log1 e,
    _get_upcoming_accepted_bookings rt user_email log
    = (Ok (Some l, None), log1) ->
    l <> [] ->
    convert_user_time_to_utc rt current_date current_time user_timezone
    = Raise e ->
    reschedule_booking rt user_email current_date current_time
      new_start_time_iso user_timezone log
    = (Ok ("Error: Invalid current date/time format. " ++ exn_msg e), log1) /\
    isinstance e [UnknownTimeZoneError; ValueError] = false.
Proof.
  intros rt user_email date time new tz log l log1 e Hf Hne Hconv.
  split.
  - unfold reschedule_booking, io_bind. rewrite Hf. cbn [truthy_opt].
    destruct l as [|b0 rest]; [contradiction|].
    rewrite Hconv. reflexivity.
  - unfold convert_user_time_to_utc in Hconv.
    match type of Hconv with
    | try_except ?body _ _ = _ => destruct body as [x|e'] eqn:Hb
    end; cbn [try_except] in Hconv; [discriminate|].
    destruct (isinstance e' [UnknownTimeZoneError; ValueError]) eqn:Hi;
      [discriminate|].
    inversion Hconv. subst e'. exact Hi.
Qed.

Lemma reschedule_booking_current_time_raises_witness :
  reschedule_booking
    (Sample.runtime_serving
       (Ok (Sample.bookings_payload [Sample.early; Sample.hit])))
    "ann@example.com" "9999-12-31" "23:00" "2025-07-25T10:00:00" "Etc/GMT+5"
    []
  = (Ok ("Error: Invalid current date/time format. "
         ++ exn_msg (Exn OverflowError "date value out of range")),
     [bookings_request Sample.rt0 "ann@example.com"]) /\
  isinstance (Exn OverflowError "date value out of range")
    [UnknownTimeZoneError; ValueError] = false.
Proof.
  apply (reschedule_booking_current_time_raises
           (Sample.runtime_serving
              (Ok (Sample.bookings_payload [Sample.early; Sample.hit])))
           "ann@example.com" "9999-12-31" "23:00" "2025-07-25T10:00:00"
           "Etc/GMT+5" [] [Sample.early; Sample.hit]).
  - vm_compute. reflexivity.
  - discriminate.
  - vm_compute. reflexivity.
Defined.

(** ** When the tools report success *)

Lemma make_request_success rt method endpoint api_version params json log
    resp log' :
  _make_request rt method endpoint api_version params json log
  = (Ok resp, log') ->
  success resp = true ->
  exists code text,
    remote rt log
      (mkreq method (base_url rt ++ "/" ++ Str.lstrip_char "/" endpoint)
         (get_headers rt api_version) params json)
    = Response code text (Ok (data resp)) /\
    code < 400.
Proof.
  unfold _make_request, io_bind, requests_request. cbv zeta.
  destruct (remote rt log _) as [e | code text body].
  - destruct (isinstance e [RequestException]);
      [|destruct (isinstance e [ValueError])];
      intros H Hs; inversion H; subst; discriminate.
  - destruct (400 <=? code) eqn:Hc.
    + intros H Hs; inversion H; subst; discriminate.
    + apply Z.leb_gt in Hc. destruct body as [v|e].
      * intros H _. inversion H. subst. cbn [data]. eauto.
      * destruct (isinstance e [RequestException]);
          [|destruct (isinstance e [ValueError])];
          intros H Hs; inversion H; subst; discriminate.
Qed.

Lemma not_success_false v :
  not_success v = Ok false ->
  exists items, v = PyDict items /\
                dict_get items "status" = Some (PyStr "success").
Proof.
  unfold not_success. destruct (truthy v); cbn [negb]; [|discriminate].
  destruct v as [| | | | |items]; try discriminate.
  cbn [py_get bind]. intros H. exists items. split; [reflexivity|].
  destruct (dict_get items "status") as [[| | |s| |]|];
    cbn [py_ne_str] in H; try discriminate.
  destruct (String.eqb s "success") eqn:E; [|discriminate].
  apply String.eqb_eq in E. subst s. reflexivity.
Qed.

Lemma confirmed_by_api_intro rt method endpoint api_version params json log
    resp log' :
  _make_request rt method endpoint api_version params json log
  = (Ok resp, log') ->
  success resp = true ->
  not_success (data resp) = Ok false ->
  confirmed_by_api rt log
    (mkreq method (base_url rt ++ "/" ++ Str.lstrip_char "/" endpoint)
       (get_headers rt api_version) params json).
Proof.
  intros H Hs Hn.
  destruct (make_request_success _ _ _ _ _ _ _ _ _ H Hs)
    as (code & text & Hr & Hc).
  destruct (not_success_false _ Hn) as (items & Hv & Hst).
  rewrite Hv in Hr. exists code, text, items. auto.
Qed.

Ltac not_success_message H Hp :=
  inversion H; subst; cbn in Hp; discriminate Hp.

(** X26. [cancel_booking] returns a message that starts with "Success!"
    only when the remote service confirmed the cancellation: the call
    issued the fetch and then one cancellation, and that cancellation was
    answered below status 400 with a body whose status is "success". *)
Theorem cancel_booking_success_sound :
  forall rt user_email date time user_timezone log msg log',
    cancel_booking rt user_email date time user_timezone log
    = (Ok msg, log') ->
    is_prefix "Success!" msg = true ->
    exists uid,
      confirmed_by_api rt (log ++ [bookings_request rt user_email])%list
        (cancel_request rt uid) /\
      log' = (log ++ [bookings_request rt user_email;
                      cancel_request rt uid])%list.
Proof.
  intros rt user_email date time tz log msg log'.
  unfold cancel_booking. unfold io_bind at 1.
  destruct (_get_upcoming_accepted_bookings rt user_email log)
    as [[[a e]|exn] log1] eqn:Hf; [|discriminate].
  pose proof (get_upcoming_accepted_bookings_log _ _ _ _ _ Hf) as Hlog.
  subst log1.
  destruct (truthy_opt e) eqn:He.
  { intros H Hp. unfold io_ret in H. not_success_message H Hp. }
  destruct a as [[|b0 rest]|];
    try (intros H Hp; unfold io_ret in H; not_success_message H Hp).
  destruct (find_booking_by_time rt (b0 :: rest) date time tz)
    as [b|] eqn:Hfind.
  2:{ unfold io_bind, io_lift, io_ret.
      destruct (format_booking_list _ _ _ _); [|discriminate].
      intros H Hp. unfold no_match_message in H. not_success_message H Hp. }
  destruct (find_booking_by_time_In _ _ _ _ _ _ Hfind) as [Hin Hacc].
  rewrite (accepted_truthy _ Hacc).
  unfold io_bind at 1, io_lift at 1.
  destruct (py_get b "uid" PyNone) as [uid|exn] eqn:Huid; [|discriminate].
  unfold io_bind at 1, io_lift at 1.
  destruct (py_get b "title" (PyStr "Untitled")) as [title|exn] eqn:Htitle;
    [|discriminate].
  destruct (truthy uid) eqn:Ht; cbn [negb].
  2:{ intros H Hp. unfold io_ret in H. not_success_message H Hp. }
  unfold io_bind at 1.
  destruct (client_cancel_booking rt uid _ _) as [[resp|exn] log2] eqn:Hreq;
    [|discriminate].
  pose proof Hreq as Hlog2. unfold client_cancel_booking in Hlog2.
  apply make_request_log in Hlog2.
  destruct (success resp) eqn:Hs; cbn [negb].
  2:{ intros H Hp. unfold io_ret in H. not_success_message H Hp. }
  unfold io_bind at 1, io_lift at 1.
  destruct (not_success (data resp)) as [[|]|exn] eqn:Hn; [| |discriminate].
  { unfold io_bind, io_lift, io_ret.
    destruct (failure_details (data resp)); [|discriminate].
    intros H Hp. not_success_message H Hp. }
  intros H _. exists uid. split.
  - exact (confirmed_by_api_intro _ _ _ _ _ _ _ _ _ Hreq Hs Hn).
  - unfold io_lift in H. inversion H. subst log'. rewrite Hlog2.
    rewrite <- app_assoc. reflexivity.
Qed.

Lemma cancel_booking_success_sound_witness :
  exists uid,
    confirmed_by_api
      (Sample.runtime_serving
         (Ok (Sample.bookings_payload [Sample.early; Sample.hit])))
      ([] ++ [bookings_request Sample.rt0 "ann@example.com"])%list
      (cancel_request Sample.rt0 uid) /\
    [bookings_request Sample.rt0 "ann@example.com";
     cancel_request Sample.rt0 (PyStr "2")]
    = ([] ++ [bookings_request Sample.rt0 "ann@example.com";
              cancel_request Sample.rt0 uid])%list.
Proof.
  apply (cancel_booking_success_sound
           (Sample.runtime_serving
              (Ok (Sample.bookings_payload [Sample.early; Sample.hit])))
           "ann@example.com" "2025-07-24" "14:00" "America/New_York" []
           ("Success! Booking 'Hit' scheduled for July 24, 2025 at "
            ++ "02:00 PM (America/New_York) has been cancelled. "
            ++ "Booking UID: 2")).
  - vm_compute. reflexivity.
  - reflexivity.
Defined.


Lemma convert_iso_to_utc_api_format_ValueError rt s tz e :
  convert_iso_to_utc_api_format rt s tz = Raise e ->
  isinstance e [ValueError] = true ->
  e = Exn ValueError (invalid_start_time s).
Proof.
  unfold convert_iso_to_utc_api_format.
  match goal with
  | |- try_except ?body _ _ = _ -> _ => destruct body as [x|e']
  end; cbn [try_except]; [discriminate|].
  destruct (isinstance e' [ValueError; UnknownTimeZoneError]) eqn:Hi.
  - intros H _. inversion H. reflexivity.
  - intros H He. inversion H. subst e'.
    unfold isinstance in *. cbn [existsb] in *.
    destruct (subclass (exn_cls e) ValueError); discriminate.
Qed.

(** X27. [create_booking] returns a message that starts with "Success!"
    only when the start time converted and the remote service confirmed
    the one booking request the call issued, whose payload holds the
    converted start. *)
Theorem create_booking_success_sound :
  forall rt start_time_iso user_name user_email title user_timezone
         log msg log',
    create_booking rt start_time_iso user_name user_email title user_timezone
      log = (Ok msg, log') ->
    is_prefix "Success!" msg = true ->
    exists utc_time event_type,
      convert_iso_to_utc_api_format rt start_time_iso user_timezone
      = Ok utc_time /\
      confirmed_by_api rt log
        (create_request rt
           (create_payload utc_time user_name user_email user_timezone
              event_type)) /\
      log' = (log ++ [create_request rt
                        (create_payload utc_time user_name user_email
                           user_timezone event_type)])%list.
Proof.
  intros rt s name email title tz log msg log'.
  unfold create_booking.
  destruct (event_type_id_set rt) eqn:Hset; cbn [negb].
  2:{ intros H Hp. unfold io_ret in H. not_success_message H Hp. }
  destruct (convert_iso_to_utc_api_format rt s tz) as [utc|e] eqn:Hconv.
  2:{ destruct (isinstance e [ValueError]) eqn:Hi; [|discriminate].
      rewrite (convert_iso_to_utc_api_format_ValueError _ _ _ _ Hconv Hi).
      intros H Hp. unfold io_ret, invalid_start_time in H.
      not_success_message H Hp. }
  unfold io_bind at 1, io_lift at 1.
  destruct (py_int _) as [n|e] eqn:Hn; [|discriminate].
  unfold io_bind at 1.
  destruct (client_create_booking rt _ _) as [[resp|exn] log2] eqn:Hreq;
    [|discriminate].
  pose proof Hreq as Hlog2. unfold client_create_booking in Hlog2.
  apply make_request_log in Hlog2.
  destruct (success resp) eqn:Hs; cbn [negb].
  2:{ intros H Hp. unfold io_ret in H. not_success_message H Hp. }
  unfold io_bind at 1, io_lift at 1.
  destruct (not_success (data resp)) as [[|]|exn] eqn:Hns; [| |discriminate].
  { unfold io_bind, io_lift, io_ret.
    destruct (failure_details (data resp)); [|discriminate].
    intros H Hp. not_success_message H Hp. }
  intros H _. exists utc, n. split; [reflexivity|]. split.
  - exact (confirmed_by_api_intro _ _ _ _ _ _ _ _ _ Hreq Hs Hns).
  - assert (Hq : log' = log2).
    { eapply quiet_log; [|exact H]. quiet_tac. }
    rewrite Hq, Hlog2. reflexivity.
Qed.

Lemma create_booking_success_sound_witness :
  exists utc_time event_type,
    convert_iso_to_utc_api_format
      (Sample.runtime_serving
         (Ok (PyDict [("status", PyStr "success");
                      ("data", PyDict [("uid", PyStr "abc")])])))
      "2025-07-25T10:00:00" "America/New_York" = Ok utc_time /\
    confirmed_by_api
      (Sample.runtime_serving
         (Ok (PyDict [("status", PyStr "success");
                      ("data", PyDict [("uid", PyStr "abc")])])))
      []
      (create_request Sample.rt0
         (create_payload utc_time "Ann" "ann@example.com" "America/New_York"
            event_type)) /\
    [create_request Sample.rt0
       (create_payload "2025-07-25T14:00:00.0000Z" "Ann" "ann@example.com"
          "America/New_York" 12345)]
    = ([] ++ [create_request Sample.rt0
                (create_payload utc_time "Ann" "ann@example.com"
                   "America/New_York" event_type)])%list.
Proof.
  apply (create_booking_success_sound
           (Sample.runtime_serving
              (Ok (PyDict [("status", PyStr "success");
                           ("data", PyDict [("uid", PyStr "abc")])])))
           "2025-07-25T10:00:00" "Ann" "ann@example.com" "Intro"
           "America/New_York" []
           ("Success! Meeting 'Intro' booked for Ann on July 25, 2025 "
            ++ "at 06:00 AM (America/New_York). Confirmation sent to "
            ++ "ann@example.com. Booking UID: abc")).
  - vm_compute. reflexivity.
  - reflexivity.
Defined.


Lemma parse_utc_datetime_string_message s e :
  parse_utc_datetime_string (PyStr s) = Raise e ->
  e = Exn ValueError ("Invalid UTC datetime format: " ++ s).
Proof.
  unfold parse_utc_datetime_string. cbn [py_replace_Z bind].
  destruct (fromisoformat _) as [d|e'] eqn:Hp; cbn [try_except];
    [discriminate|].
  unfold isinstance. cbn [existsb].
  rewrite (fromisoformat_raises _ _ Hp). cbn.
  intros H. inversion H. reflexivity.
Qed.

Lemma convert_utc_to_user_timezone_not_ValueError rt v tz e :
  convert_utc_to_user_timezone rt v tz = Raise e ->
  isinstance e [ValueError] = false.
Proof.
  unfold convert_utc_to_user_timezone.
  match goal with
  | |- try_except ?body _ _ = _ -> _ => destruct body as [x|e']
  end; cbn [try_except]; [discriminate|].
  destruct (isinstance e' [UnknownTimeZoneError; ValueError]) eqn:Hi;
    [discriminate|].
  intros H. inversion H. subst e'.
  unfold isinstance in *. cbn [existsb] in *.
  destruct (subclass (exn_cls e) ValueError);
    [rewrite orb_true_r in Hi; discriminate | reflexivity].
Qed.

Lemma convert_new_time_ValueError rt new tz e :
  convert_new_time rt new tz = Raise e ->
  isinstance e [ValueError] = true ->
  e = Exn ValueError (invalid_start_time new) \/
  exists s, e = Exn ValueError ("Invalid UTC datetime format: " ++ s).
Proof.
  unfold convert_new_time.
  destruct (convert_iso_to_utc_api_format rt new tz) as [utc|e1] eqn:H1;
    cbn [bind].
  2:{ intros H Hi. inversion H. subst e1. left.
      exact (convert_iso_to_utc_api_format_ValueError _ _ _ _ H1 Hi). }
  destruct (parse_utc_datetime_string (PyStr utc)) as [d|e2] eqn:H2;
    cbn [bind].
  2:{ intros H _. inversion H. subst e2. right. exists utc.
      exact (parse_utc_datetime_string_message _ _ H2). }
  destruct (convert_utc_to_user_timezone rt (PyStr utc) tz) as [d'|e3] eqn:H3;
    cbn [bind]; [discriminate|].
  intros H Hi. inversion H. subst e3.
  rewrite (convert_utc_to_user_timezone_not_ValueError _ _ _ _ H3) in Hi.
  discriminate.
Qed.

(** X28. [reschedule_booking] returns a message that starts with the
    check mark of its success message only when the new time converted and
    the remote service confirmed the one reschedule request the call
    issued after the fetch, whose payload holds the converted new start. *)
Theorem reschedule_booking_success_sound :
  forall rt user_email current_date current_time new_start_time_iso
         user_timezone log msg log',
    reschedule_booking rt user_email current_date current_time
      new_start_time_iso user_timezone log = (Ok msg, log') ->
    is_prefix "✅" msg = true ->
    exists uid new_utc_time,
      convert_iso_to_utc_api_format rt new_start_time_iso user_timezone
      = Ok new_utc_time /\
      confirmed_by_api rt (log ++ [bookings_request rt user_email])%list
        (reschedule_request rt uid
           (reschedule_payload new_utc_time user_email)) /\
      log' = (log ++ [bookings_request rt user_email;
                      reschedule_request rt uid
                        (reschedule_payload new_utc_time user_email)])%list.
Proof.
  intros rt user_email date time new tz log msg log'.
  unfold reschedule_booking. unfold io_bind at 1.
  destruct (_get_upcoming_accepted_bookings rt user_email log)
    as [[[a e]|exn] log1] eqn:Hf; [|discriminate].
  pose proof (get_upcoming_accepted_bookings_log _ _ _ _ _ Hf) as Hlog.
  subst log1.
  destruct (truthy_opt e) eqn:He.
  { intros H Hp. unfold io_ret in H. not_success_message H Hp. }
  destruct a as [[|b0 rest]|];
    try (intros H Hp; unfold io_ret in H; not_success_message H Hp).
  destruct (bind (convert_user_time_to_utc rt date time tz) _) as [shown|exn].
  2:{ intros H Hp. unfold io_ret in H. not_success_message H Hp. }
  assert (Hno : forall m l',
    io_bind (io_lift (map_result debug_available_booking
                        (firstn 5 (b0 :: rest))))
      (fun _ =>
       io_bind (io_lift (format_booking_list rt (b0 :: rest) tz 5))
         (fun booking_list =>
          io_ret (no_match_message date time tz booking_list)))
      (log ++ [bookings_request rt user_email])%list = (Ok m, l') ->
    is_prefix "✅" m = true -> False).
  { intros m l'. unfold io_bind, io_lift, io_ret.
    destruct (map_result _ _); [|discriminate].
    destruct (format_booking_list _ _ _ _); [|discriminate].
    intros H Hp. unfold no_match_message in H. not_success_message H Hp. }
  destruct (find_booking_by_time rt (b0 :: rest) date time tz)
    as [b|] eqn:Hfind.
  2:{ intros H Hp. exfalso. exact (Hno _ _ H Hp). }
  destruct (find_booking_by_time_In _ _ _ _ _ _ Hfind) as [Hin Hacc].
  rewrite (accepted_truthy _ Hacc). cbn [negb]. clear Hno.
  destruct (convert_new_time rt new tz) as [new_utc|e1] eqn:Hnew.
  2:{ destruct (isinstance e1 [ValueError]) eqn:Hi; [|discriminate].
      destruct (convert_new_time_ValueError _ _ _ _ Hnew Hi)
        as [-> | (s & ->)];
        intros H Hp; unfold io_ret, invalid_start_time in H;
        not_success_message H Hp. }
  assert (Hconv : convert_iso_to_utc_api_format rt new tz = Ok new_utc).
  { unfold convert_new_time in Hnew.
    apply bind_Ok in Hnew. destruct Hnew as (u & Hu & Hnew).
    apply bind_Ok in Hnew. destruct Hnew as (d1 & _ & Hnew).
    apply bind_Ok in Hnew. destruct Hnew as (d2 & _ & Hnew).
    congruence. }
  unfold io_bind at 1, io_lift at 1.
  destruct (py_get b "uid" PyNone) as [uid|exn] eqn:Huid; [|discriminate].
  unfold io_bind at 1, io_lift at 1.
  destruct (py_get b "title" (PyStr "Untitled")) as [title|exn] eqn:Htitle;
    [|discriminate].
  destruct (truthy uid) eqn:Ht; cbn [negb].
  2:{ intros H Hp. unfold io_ret in H. not_success_message H Hp. }
  unfold io_bind at 1, io_lift at 1.
  destruct (py_get b "start" (PyStr "Unknown")) as [st|exn] eqn:Hst;
    [|discriminate].
  unfold io_bind at 1.
  destruct (client_reschedule_booking rt uid _ _) as [[resp|exn] log2] eqn:Hreq;
    [|discriminate].
  pose proof Hreq as Hlog2. unfold client_reschedule_booking in Hlog2.
  apply make_request_log in Hlog2.
  destruct (success resp) eqn:Hs; cbn [negb].
  2:{ intros H Hp. unfold io_ret in H. not_success_message H Hp. }
  unfold io_bind at 1, io_lift at 1.
  destruct (not_success (data resp)) as [[|]|exn] eqn:Hns; [| |discriminate].
  { unfold io_bind, io_lift, io_ret.
    destruct (failure_details (data resp)); [|discriminate].
    intros H Hp. not_success_message H Hp. }
  intros H _. exists uid, new_utc. split; [exact Hconv|]. split.
  - exact (confirmed_by_api_intro _ _ _ _ _ _ _ _ _ Hreq Hs Hns).
  - unfold io_lift in H. inversion H. subst log'. rewrite Hlog2.
    rewrite <- app_assoc. reflexivity.
Qed.

Lemma reschedule_booking_success_sound_witness :
  exists uid new_utc_time,
    convert_iso_to_utc_api_format
      (Sample.runtime_serving
         (Ok (Sample.bookings_payload [Sample.early; Sample.hit])))
      "2025-07-25T10:00:00" "America/New_York" = Ok new_utc_time /\
    confirmed_by_api
      (Sample.runtime_serving
         (Ok (Sample.bookings_payload [Sample.early; Sample.hit])))
      ([] ++ [bookings_request Sample.rt0 "ann@example.com"])%list
      (reschedule_request Sample.rt0 uid
         (reschedule_payload new_utc_time "ann@example.com")) /\
    [bookings_request Sample.rt0 "ann@example.com";
     reschedule_request Sample.rt0 (PyStr "2")
       (reschedule_payload "2025-07-25T14:00:00.0000Z" "ann@example.com")]
    = ([] ++ [bookings_request Sample.rt0 "ann@example.com";
              reschedule_request Sample.rt0 uid
                (reschedule_payload new_utc_time "ann@example.com")])%list.
Proof.
  apply (reschedule_booking_success_sound
           (Sample.runtime_serving
              (Ok (Sample.bookings_payload [Sample.early; Sample.hit])))
           "ann@example.com" "2025-07-24" "14:00" "2025-07-25T10:00:00"
           "America/New_York" []
           ("✅ Successfully rescheduled 'Hit'!" ++ nl
            ++ "From: July 24, 2025 at 02:00 PM (America/New_York)" ++ nl
            ++ "To: July 25, 2025 at 06:00 AM (America/New_York)" ++ nl
            ++ "Booking UID: 2")).
  - vm_compute. reflexivity.
  - reflexivity.
Defined.


Lemma not_success_success items :
  dict_get items "status" = Some (PyStr "success") ->
  not_success (PyDict items) = Ok false.
Proof.
  intros Hst. unfold not_success.
  destruct items as [|kv items']; [discriminate|].
  cbn [truthy negb py_get bind]. rewrite Hst. reflexivity.
Qed.



(** X29. When a fetched booking matches the date and time, has a
    non-empty [uid], and the remote service confirms the cancellation
    addressed to that [uid], [cancel_booking] returns a message that starts
    with "Success! Booking '", whether or not the start of the booking can
    be displayed, and the cancellation is the only request after the
    fetch. *)
Theorem cancel_booking_confirmed :
  forall rt user_email date time user_timezone log l log1 b uid,
    _get_upcoming_accepted_bookings rt user_email log
    = (Ok (Some l, None), log1) ->
    find_booking_by_time rt l date time user_timezone = Some b ->
    py_get b "uid" PyNone = Ok uid ->
    truthy uid = true ->
    confirmed_by_api rt log1 (cancel_request rt uid) ->
    exists msg,
      cancel_booking rt user_email date time user_timezone log
      = (Ok msg, (log1 ++ [cancel_request rt uid])%list) /\
      is_prefix "Success! Booking '" msg = true.
Proof.
  intros rt user_email date time tz log l log1 b uid Hf Hfind Huid Ht
         (code & text & items & Hr & Hc & Hst).
  destruct (find_booking_by_time_In _ _ _ _ _ _ Hfind) as [Hin Hacc].
  pose proof (accepted_is_dict b Hacc) as Hd.
  destruct b as [| | | | |bitems]; try discriminate. clear Hd.
  unfold cancel_booking. unfold io_bind at 1. rewrite Hf. cbn [truthy_opt].
  destruct l as [|b0 rest]; [contradiction|].
  rewrite Hfind. rewrite (accepted_truthy _ Hacc).
  unfold io_bind at 1, io_lift at 1. rewrite Huid.
  unfold io_bind at 1, io_lift at 1. cbn [py_get]. rewrite Ht. cbn [negb].
  unfold io_bind at 1. unfold client_cancel_booking.
  rewrite (make_request_decoded rt "POST"
             ("bookings/" ++ py_str uid ++ "/cancel") None []
             (Some (PyDict [("cancellationReason",
                             PyStr "User requested cancellation via chatbot")]))
             log1 code text (PyDict items) Hr Hc).
  cbn [success negb data].
  unfold io_bind at 1, io_lift at 1.
  rewrite (not_success_success items Hst).
  unfold io_lift.
  match goal with
  | |- exists msg, (try_except_all ?body ?h, _) = _ /\ _ =>
      destruct body as [m|e] eqn:Hb; cbn [try_except_all]
  end.
  - exists m. split; [reflexivity|].
    apply bind_Ok in Hb. destruct Hb as (st & _ & Hb).
    apply bind_Ok in Hb. destruct Hb as (d & _ & Hb).
    apply bind_Ok in Hb. destruct Hb as (shown & _ & Hb).
    inversion Hb. reflexivity.
  - eexists. split; reflexivity.
Qed.

Lemma cancel_booking_confirmed_witness :
  exists msg,
    cancel_booking
      (Sample.runtime_serving
         (Ok (Sample.bookings_payload [Sample.early; Sample.hit])))
      "ann@example.com" "2025-07-24" "14:00" "America/New_York" []
    = (Ok msg,
       ([bookings_request Sample.rt0 "ann@example.com"]
        ++ [cancel_request Sample.rt0 (PyStr "2")])%list) /\
    is_prefix "Success! Booking '" msg = true.
Proof.
  apply (cancel_booking_confirmed
           (Sample.runtime_serving
              (Ok (Sample.bookings_payload [Sample.early; Sample.hit])))
           "ann@example.com" "2025-07-24" "14:00" "America/New_York" []
           [Sample.early; Sample.hit]
           [bookings_request Sample.rt0 "ann@example.com"]
           Sample.hit (PyStr "2")).
  - vm_compute. reflexivity.
  - vm_compute. reflexivity.
  - reflexivity.
  - reflexivity.
  - exists 200, "",
      [("status", PyStr "success");
       ("data", PyList [Sample.early; Sample.hit])].
    split; [reflexivity|]. split; [lia | reflexivity].
Defined.



